(** * ArkadasAI demo API: a shallow embedding of [src/app.py]

    The FastAPI application keeps two process-wide dictionaries, [USERS]
    and [TOKENS], and seven request handlers that read and write them.
    The handlers are embedded as functions in a state-and-exception monad
    over the two stores; the event loop is embedded as a step function on
    a world that also holds the [chat_send] coroutines suspended at their
    [await].

    Python [str] values are represented by Rocq strings holding their
    UTF-8 encoding.  [str.replace], [str.startswith] and [str.split] act on
    single ASCII characters in [app.py] and are exact on that encoding.
    [str.lower], [str.capitalize] and [str.strip] work on code points: they
    decode the representation, apply the case mappings, the final-sigma
    rule and the white-space set of the Unicode character database
    (version 14.0, as CPython 3.11 carries it), and encode the result. *)

From Stdlib Require Import ZArith Ascii.
From stdpp Require Import base tactics option list strings pretty gmap fin_maps.

Local Open Scope Z_scope.

(** ** The Unicode character database, as far as [app.py] uses it *)

Module Unicode.

(** The code points [str.strip()] removes: those for which [str.isspace()]
    holds. *)
Definition whitespace_ranges : list (N * N) :=
  [
   (9, 13); (28, 32); (133, 133); (160, 160); (5760, 5760); (8192, 8202);
   (8232, 8233); (8239, 8239); (8287, 8287); (12288, 12288)
  ]%N.

(** The code points with the property Cased. *)
Definition cased_ranges : list (N * N) :=
  [
   (65, 90); (97, 122); (170, 170); (181, 181); (186, 186); (192, 214);
   (216, 246); (248, 442); (444, 447); (452, 659); (661, 696); (704, 705);
   (736, 740); (837, 837); (880, 883); (886, 887); (890, 893); (895, 895);
   (902, 902); (904, 906); (908, 908); (910, 929); (931, 1013);
   (1015, 1153); (1162, 1327); (1329, 1366); (1376, 1416); (4256, 4293);
   (4295, 4295); (4301, 4301); (4304, 4346); (4349, 4351); (5024, 5109);
   (5112, 5117); (7296, 7304); (7312, 7354); (7357, 7359); (7424, 7615);
   (7680, 7957); (7960, 7965); (7968, 8005); (8008, 8013); (8016, 8023);
   (8025, 8025); (8027, 8027); (8029, 8029); (8031, 8061); (8064, 8116);
   (8118, 8124); (8126, 8126); (8130, 8132); (8134, 8140); (8144, 8147);
   (8150, 8155); (8160, 8172); (8178, 8180); (8182, 8188); (8305, 8305);
   (8319, 8319); (8336, 8348); (8450, 8450); (8455, 8455); (8458, 8467);
   (8469, 8469); (8473, 8477); (8484, 8484); (8486, 8486); (8488, 8488);
   (8490, 8493); (8495, 8500); (8505, 8505); (8508, 8511); (8517, 8521);
   (8526, 8526); (8544, 8575); (8579, 8580); (9398, 9449); (11264, 11492);
   (11499, 11502); (11506, 11507); (11520, 11557); (11559, 11559);
   (11565, 11565); (42560, 42605); (42624, 42653); (42786, 42887);
   (42891, 42894); (42896, 42954); (42960, 42961); (42963, 42963);
   (42965, 42969); (42997, 42998); (43000, 43002); (43824, 43866);
   (43868, 43880); (43888, 43967); (64256, 64262); (64275, 64279);
   (65313, 65338); (65345, 65370); (66560, 66639); (66736, 66771);
   (66776, 66811); (66928, 66938); (66940, 66954); (66956, 66962);
   (66964, 66965); (66967, 66977); (66979, 66993); (66995, 67001);
   (67003, 67004); (67456, 67456); (67459, 67461); (67463, 67504);
   (67506, 67514); (68736, 68786); (68800, 68850); (71840, 71903);
   (93760, 93823); (119808, 119892); (119894, 119964); (119966, 119967);
   (119970, 119970); (119973, 119974); (119977, 119980); (119982, 119993);
   (119995, 119995); (119997, 120003); (120005, 120069); (120071, 120074);
   (120077, 120084); (120086, 120092); (120094, 120121); (120123, 120126);
   (120128, 120132); (120134, 120134); (120138, 120144); (120146, 120485);
   (120488, 120512); (120514, 120538); (120540, 120570); (120572, 120596);
   (120598, 120628); (120630, 120654); (120656, 120686); (120688, 120712);
   (120714, 120744); (120746, 120770); (120772, 120779); (122624, 122633);
   (122635, 122654); (125184, 125251); (127280, 127305); (127312, 127337);
   (127344, 127369)
  ]%N.

(** The code points with the property Case_Ignorable. *)
Definition case_ignorable_ranges : list (N * N) :=
  [
   (39, 39); (46, 46); (58, 58); (94, 94); (96, 96); (168, 168); (173, 173);
   (175, 175); (180, 180); (183, 184); (688, 879); (884, 885); (890, 890);
   (900, 901); (903, 903); (1155, 1161); (1369, 1369); (1375, 1375);
   (1425, 1469); (1471, 1471); (1473, 1474); (1476, 1477); (1479, 1479);
   (1524, 1524); (1536, 1541); (1552, 1562); (1564, 1564); (1600, 1600);
   (1611, 1631); (1648, 1648); (1750, 1757); (1759, 1768); (1770, 1773);
   (1807, 1807); (1809, 1809); (1840, 1866); (1958, 1968); (2027, 2037);
   (2042, 2042); (2045, 2045); (2070, 2093); (2137, 2139); (2184, 2184);
   (2192, 2193); (2200, 2207); (2249, 2306); (2362, 2362); (2364, 2364);
   (2369, 2376); (2381, 2381); (2385, 2391); (2402, 2403); (2417, 2417);
   (2433, 2433); (2492, 2492); (2497, 2500); (2509, 2509); (2530, 2531);
   (2558, 2558); (2561, 2562); (2620, 2620); (2625, 2626); (2631, 2632);
   (2635, 2637); (2641, 2641); (2672, 2673); (2677, 2677); (2689, 2690);
   (2748, 2748); (2753, 2757); (2759, 2760); (2765, 2765); (2786, 2787);
   (2810, 2815); (2817, 2817); (2876, 2876); (2879, 2879); (2881, 2884);
   (2893, 2893); (2901, 2902); (2914, 2915); (2946, 2946); (3008, 3008);
   (3021, 3021); (3072, 3072); (3076, 3076); (3132, 3132); (3134, 3136);
   (3142, 3144); (3146, 3149); (3157, 3158); (3170, 3171); (3201, 3201);
   (3260, 3260); (3263, 3263); (3270, 3270); (3276, 3277); (3298, 3299);
   (3328, 3329); (3387, 3388); (3393, 3396); (3405, 3405); (3426, 3427);
   (3457, 3457); (3530, 3530); (3538, 3540); (3542, 3542); (3633, 3633);
   (3636, 3642); (3654, 3662); (3761, 3761); (3764, 3772); (3782, 3782);
   (3784, 3789); (3864, 3865); (3893, 3893); (3895, 3895); (3897, 3897);
   (3953, 3966); (3968, 3972); (3974, 3975); (3981, 3991); (3993, 4028);
   (4038, 4038); (4141, 4144); (4146, 4151); (4153, 4154); (4157, 4158);
   (4184, 4185); (4190, 4192); (4209, 4212); (4226, 4226); (4229, 4230);
   (4237, 4237); (4253, 4253); (4348, 4348); (4957, 4959); (5906, 5908);
   (5938, 5939); (5970, 5971); (6002, 6003); (6068, 6069); (6071, 6077);
   (6086, 6086); (6089, 6099); (6103, 6103); (6109, 6109); (6155, 6159);
   (6211, 6211); (6277, 6278); (6313, 6313); (6432, 6434); (6439, 6440);
   (6450, 6450); (6457, 6459); (6679, 6680); (6683, 6683); (6742, 6742);
   (6744, 6750); (6752, 6752); (6754, 6754); (6757, 6764); (6771, 6780);
   (6783, 6783); (6823, 6823); (6832, 6862); (6912, 6915); (6964, 6964);
   (6966, 6970); (6972, 6972); (6978, 6978); (7019, 7027); (7040, 7041);
   (7074, 7077); (7080, 7081); (7083, 7085); (7142, 7142); (7144, 7145);
   (7149, 7149); (7151, 7153); (7212, 7219); (7222, 7223); (7288, 7293);
   (7376, 7378); (7380, 7392); (7394, 7400); (7405, 7405); (7412, 7412);
   (7416, 7417); (7468, 7530); (7544, 7544); (7579, 7679); (8125, 8125);
   (8127, 8129); (8141, 8143); (8157, 8159); (8173, 8175); (8189, 8190);
   (8203, 8207); (8216, 8217); (8228, 8228); (8231, 8231); (8234, 8238);
   (8288, 8292); (8294, 8303); (8305, 8305); (8319, 8319); (8336, 8348);
   (8400, 8432); (11388, 11389); (11503, 11505); (11631, 11631);
   (11647, 11647); (11744, 11775); (11823, 11823); (12293, 12293);
   (12330, 12333); (12337, 12341); (12347, 12347); (12441, 12446);
   (12540, 12542); (40981, 40981); (42232, 42237); (42508, 42508);
   (42607, 42610); (42612, 42621); (42623, 42623); (42652, 42655);
   (42736, 42737); (42752, 42785); (42864, 42864); (42888, 42890);
   (42994, 42996); (43000, 43001); (43010, 43010); (43014, 43014);
   (43019, 43019); (43045, 43046); (43052, 43052); (43204, 43205);
   (43232, 43249); (43263, 43263); (43302, 43309); (43335, 43345);
   (43392, 43394); (43443, 43443); (43446, 43449); (43452, 43453);
   (43471, 43471); (43493, 43494); (43561, 43566); (43569, 43570);
   (43573, 43574); (43587, 43587); (43596, 43596); (43632, 43632);
   (43644, 43644); (43696, 43696); (43698, 43700); (43703, 43704);
   (43710, 43711); (43713, 43713); (43741, 43741); (43756, 43757);
   (43763, 43764); (43766, 43766); (43867, 43871); (43881, 43883);
   (44005, 44005); (44008, 44008); (44013, 44013); (64286, 64286);
   (64434, 64450); (65024, 65039); (65043, 65043); (65056, 65071);
   (65106, 65106); (65109, 65109); (65279, 65279); (65287, 65287);
   (65294, 65294); (65306, 65306); (65342, 65342); (65344, 65344);
   (65392, 65392); (65438, 65439); (65507, 65507); (65529, 65531);
   (66045, 66045); (66272, 66272); (66422, 66426); (67456, 67461);
   (67463, 67504); (67506, 67514); (68097, 68099); (68101, 68102);
   (68108, 68111); (68152, 68154); (68159, 68159); (68325, 68326);
   (68900, 68903); (69291, 69292); (69446, 69456); (69506, 69509);
   (69633, 69633); (69688, 69702); (69744, 69744); (69747, 69748);
   (69759, 69761); (69811, 69814); (69817, 69818); (69821, 69821);
   (69826, 69826); (69837, 69837); (69888, 69890); (69927, 69931);
   (69933, 69940); (70003, 70003); (70016, 70017); (70070, 70078);
   (70089, 70092); (70095, 70095); (70191, 70193); (70196, 70196);
   (70198, 70199); (70206, 70206); (70367, 70367); (70371, 70378);
   (70400, 70401); (70459, 70460); (70464, 70464); (70502, 70508);
   (70512, 70516); (70712, 70719); (70722, 70724); (70726, 70726);
   (70750, 70750); (70835, 70840); (70842, 70842); (70847, 70848);
   (70850, 70851); (71090, 71093); (71100, 71101); (71103, 71104);
   (71132, 71133); (71219, 71226); (71229, 71229); (71231, 71232);
   (71339, 71339); (71341, 71341); (71344, 71349); (71351, 71351);
   (71453, 71455); (71458, 71461); (71463, 71467); (71727, 71735);
   (71737, 71738); (71995, 71996); (71998, 71998); (72003, 72003);
   (72148, 72151); (72154, 72155); (72160, 72160); (72193, 72202);
   (72243, 72248); (72251, 72254); (72263, 72263); (72273, 72278);
   (72281, 72283); (72330, 72342); (72344, 72345); (72752, 72758);
   (72760, 72765); (72767, 72767); (72850, 72871); (72874, 72880);
   (72882, 72883); (72885, 72886); (73009, 73014); (73018, 73018);
   (73020, 73021); (73023, 73029); (73031, 73031); (73104, 73105);
   (73109, 73109); (73111, 73111); (73459, 73460); (78896, 78904);
   (92912, 92916); (92976, 92982); (92992, 92995); (94031, 94031);
   (94095, 94111); (94176, 94177); (94179, 94180); (110576, 110579);
   (110581, 110587); (110589, 110590); (113821, 113822); (113824, 113827);
   (118528, 118573); (118576, 118598); (119143, 119145); (119155, 119170);
   (119173, 119179); (119210, 119213); (119362, 119364); (121344, 121398);
   (121403, 121452); (121461, 121461); (121476, 121476); (121499, 121503);
   (121505, 121519); (122880, 122886); (122888, 122904); (122907, 122913);
   (122915, 122916); (122918, 122922); (123184, 123197); (123566, 123566);
   (123628, 123631); (125136, 125142); (125252, 125259); (127995, 127999);
   (917505, 917505); (917536, 917631); (917760, 917999)
  ]%N.

(** The lower-case mappings that give one code point. *)
Definition lower_simple : list (N * N) :=
  [
   (65, 97); (66, 98); (67, 99); (68, 100); (69, 101); (70, 102); (71, 103);
   (72, 104); (73, 105); (74, 106); (75, 107); (76, 108); (77, 109);
   (78, 110); (79, 111); (80, 112); (81, 113); (82, 114); (83, 115);
   (84, 116); (85, 117); (86, 118); (87, 119); (88, 120); (89, 121);
   (90, 122); (192, 224); (193, 225); (194, 226); (195, 227); (196, 228);
   (197, 229); (198, 230); (199, 231); (200, 232); (201, 233); (202, 234);
   (203, 235); (204, 236); (205, 237); (206, 238); (207, 239); (208, 240);
   (209, 241); (210, 242); (211, 243); (212, 244); (213, 245); (214, 246);
   (216, 248); (217, 249); (218, 250); (219, 251); (220, 252); (221, 253);
   (222, 254); (256, 257); (258, 259); (260, 261); (262, 263); (264, 265);
   (266, 267); (268, 269); (270, 271); (272, 273); (274, 275); (276, 277);
   (278, 279); (280, 281); (282, 283); (284, 285); (286, 287); (288, 289);
   (290, 291); (292, 293); (294, 295); (296, 297); (298, 299); (300, 301);
   (302, 303); (306, 307); (308, 309); (310, 311); (313, 314); (315, 316);
   (317, 318); (319, 320); (321, 322); (323, 324); (325, 326); (327, 328);
   (330, 331); (332, 333); (334, 335); (336, 337); (338, 339); (340, 341);
   (342, 343); (344, 345); (346, 347); (348, 349); (350, 351); (352, 353);
   (354, 355); (356, 357); (358, 359); (360, 361); (362, 363); (364, 365);
   (366, 367); (368, 369); (370, 371); (372, 373); (374, 375); (376, 255);
   (377, 378); (379, 380); (381, 382); (385, 595); (386, 387); (388, 389);
   (390, 596); (391, 392); (393, 598); (394, 599); (395, 396); (398, 477);
   (399, 601); (400, 603); (401, 402); (403, 608); (404, 611); (406, 617);
   (407, 616); (408, 409); (412, 623); (413, 626); (415, 629); (416, 417);
   (418, 419); (420, 421); (422, 640); (423, 424); (425, 643); (428, 429);
   (430, 648); (431, 432); (433, 650); (434, 651); (435, 436); (437, 438);
   (439, 658); (440, 441); (444, 445); (452, 454); (453, 454); (455, 457);
   (456, 457); (458, 460); (459, 460); (461, 462); (463, 464); (465, 466);
   (467, 468); (469, 470); (471, 472); (473, 474); (475, 476); (478, 479);
   (480, 481); (482, 483); (484, 485); (486, 487); (488, 489); (490, 491);
   (492, 493); (494, 495); (497, 499); (498, 499); (500, 501); (502, 405);
   (503, 447); (504, 505); (506, 507); (508, 509); (510, 511); (512, 513);
   (514, 515); (516, 517); (518, 519); (520, 521); (522, 523); (524, 525);
   (526, 527); (528, 529); (530, 531); (532, 533); (534, 535); (536, 537);
   (538, 539); (540, 541); (542, 543); (544, 414); (546, 547); (548, 549);
   (550, 551); (552, 553); (554, 555); (556, 557); (558, 559); (560, 561);
   (562, 563); (570, 11365); (571, 572); (573, 410); (574, 11366);
   (577, 578); (579, 384); (580, 649); (581, 652); (582, 583); (584, 585);
   (586, 587); (588, 589); (590, 591); (880, 881); (882, 883); (886, 887);
   (895, 1011); (902, 940); (904, 941); (905, 942); (906, 943); (908, 972);
   (910, 973); (911, 974); (913, 945); (914, 946); (915, 947); (916, 948);
   (917, 949); (918, 950); (919, 951); (920, 952); (921, 953); (922, 954);
   (923, 955); (924, 956); (925, 957); (926, 958); (927, 959); (928, 960);
   (929, 961); (931, 963); (932, 964); (933, 965); (934, 966); (935, 967);
   (936, 968); (937, 969); (938, 970); (939, 971); (975, 983); (984, 985);
   (986, 987); (988, 989); (990, 991); (992, 993); (994, 995); (996, 997);
   (998, 999); (1000, 1001); (1002, 1003); (1004, 1005); (1006, 1007);
   (1012, 952); (1015, 1016); (1017, 1010); (1018, 1019); (1021, 891);
   (1022, 892); (1023, 893); (1024, 1104); (1025, 1105); (1026, 1106);
   (1027, 1107); (1028, 1108); (1029, 1109); (1030, 1110); (1031, 1111);
   (1032, 1112); (1033, 1113); (1034, 1114); (1035, 1115); (1036, 1116);
   (1037, 1117); (1038, 1118); (1039, 1119); (1040, 1072); (1041, 1073);
   (1042, 1074); (1043, 1075); (1044, 1076); (1045, 1077); (1046, 1078);
   (1047, 1079); (1048, 1080); (1049, 1081); (1050, 1082); (1051, 1083);
   (1052, 1084); (1053, 1085); (1054, 1086); (1055, 1087); (1056, 1088);
   (1057, 1089); (1058, 1090); (1059, 1091); (1060, 1092); (1061, 1093);
   (1062, 1094); (1063, 1095); (1064, 1096); (1065, 1097); (1066, 1098);
   (1067, 1099); (1068, 1100); (1069, 1101); (1070, 1102); (1071, 1103);
   (1120, 1121); (1122, 1123); (1124, 1125); (1126, 1127); (1128, 1129);
   (1130, 1131); (1132, 1133); (1134, 1135); (1136, 1137); (1138, 1139);
   (1140, 1141); (1142, 1143); (1144, 1145); (1146, 1147); (1148, 1149);
   (1150, 1151); (1152, 1153); (1162, 1163); (1164, 1165); (1166, 1167);
   (1168, 1169); (1170, 1171); (1172, 1173); (1174, 1175); (1176, 1177);
   (1178, 1179); (1180, 1181); (1182, 1183); (1184, 1185); (1186, 1187);
   (1188, 1189); (1190, 1191); (1192, 1193); (1194, 1195); (1196, 1197);
   (1198, 1199); (1200, 1201); (1202, 1203); (1204, 1205); (1206, 1207);
   (1208, 1209); (1210, 1211); (1212, 1213); (1214, 1215); (1216, 1231);
   (1217, 1218); (1219, 1220); (1221, 1222); (1223, 1224); (1225, 1226);
   (1227, 1228); (1229, 1230); (1232, 1233); (1234, 1235); (1236, 1237);
   (1238, 1239); (1240, 1241); (1242, 1243); (1244, 1245); (1246, 1247);
   (1248, 1249); (1250, 1251); (1252, 1253); (1254, 1255); (1256, 1257);
   (1258, 1259); (1260, 1261); (1262, 1263); (1264, 1265); (1266, 1267);
   (1268, 1269); (1270, 1271); (1272, 1273); (1274, 1275); (1276, 1277);
   (1278, 1279); (1280, 1281); (1282, 1283); (1284, 1285); (1286, 1287);
   (1288, 1289); (1290, 1291); (1292, 1293); (1294, 1295); (1296, 1297);
   (1298, 1299); (1300, 1301); (1302, 1303); (1304, 1305); (1306, 1307);
   (1308, 1309); (1310, 1311); (1312, 1313); (1314, 1315); (1316, 1317);
   (1318, 1319); (1320, 1321); (1322, 1323); (1324, 1325); (1326, 1327);
   (1329, 1377); (1330, 1378); (1331, 1379); (1332, 1380); (1333, 1381);
   (1334, 1382); (1335, 1383); (1336, 1384); (1337, 1385); (1338, 1386);
   (1339, 1387); (1340, 1388); (1341, 1389); (1342, 1390); (1343, 1391);
   (1344, 1392); (1345, 1393); (1346, 1394); (1347, 1395); (1348, 1396);
   (1349, 1397); (1350, 1398); (1351, 1399); (1352, 1400); (1353, 1401);
   (1354, 1402); (1355, 1403); (1356, 1404); (1357, 1405); (1358, 1406);
   (1359, 1407); (1360, 1408); (1361, 1409); (1362, 1410); (1363, 1411);
   (1364, 1412); (1365, 1413); (1366, 1414); (4256, 11520); (4257, 11521);
   (4258, 11522); (4259, 11523); (4260, 11524); (4261, 11525);
   (4262, 11526); (4263, 11527); (4264, 11528); (4265, 11529);
   (4266, 11530); (4267, 11531); (4268, 11532); (4269, 11533);
   (4270, 11534); (4271, 11535); (4272, 11536); (4273, 11537);
   (4274, 11538); (4275, 11539); (4276, 11540); (4277, 11541);
   (4278, 11542); (4279, 11543); (4280, 11544); (4281, 11545);
   (4282, 11546); (4283, 11547); (4284, 11548); (4285, 11549);
   (4286, 11550); (4287, 11551); (4288, 11552); (4289, 11553);
   (4290, 11554); (4291, 11555); (4292, 11556); (4293, 11557);
   (4295, 11559); (4301, 11565); (5024, 43888); (5025, 43889);
   (5026, 43890); (5027, 43891); (5028, 43892); (5029, 43893);
   (5030, 43894); (5031, 43895); (5032, 43896); (5033, 43897);
   (5034, 43898); (5035, 43899); (5036, 43900); (5037, 43901);
   (5038, 43902); (5039, 43903); (5040, 43904); (5041, 43905);
   (5042, 43906); (5043, 43907); (5044, 43908); (5045, 43909);
   (5046, 43910); (5047, 43911); (5048, 43912); (5049, 43913);
   (5050, 43914); (5051, 43915); (5052, 43916); (5053, 43917);
   (5054, 43918); (5055, 43919); (5056, 43920); (5057, 43921);
   (5058, 43922); (5059, 43923); (5060, 43924); (5061, 43925);
   (5062, 43926); (5063, 43927); (5064, 43928); (5065, 43929);
   (5066, 43930); (5067, 43931); (5068, 43932); (5069, 43933);
   (5070, 43934); (5071, 43935); (5072, 43936); (5073, 43937);
   (5074, 43938); (5075, 43939); (5076, 43940); (5077, 43941);
   (5078, 43942); (5079, 43943); (5080, 43944); (5081, 43945);
   (5082, 43946); (5083, 43947); (5084, 43948); (5085, 43949);
   (5086, 43950); (5087, 43951); (5088, 43952); (5089, 43953);
   (5090, 43954); (5091, 43955); (5092, 43956); (5093, 43957);
   (5094, 43958); (5095, 43959); (5096, 43960); (5097, 43961);
   (5098, 43962); (5099, 43963); (5100, 43964); (5101, 43965);
   (5102, 43966); (5103, 43967); (5104, 5112); (5105, 5113); (5106, 5114);
   (5107, 5115); (5108, 5116); (5109, 5117); (7312, 4304); (7313, 4305);
   (7314, 4306); (7315, 4307); (7316, 4308); (7317, 4309); (7318, 4310);
   (7319, 4311); (7320, 4312); (7321, 4313); (7322, 4314); (7323, 4315);
   (7324, 4316); (7325, 4317); (7326, 4318); (7327, 4319); (7328, 4320);
   (7329, 4321); (7330, 4322); (7331, 4323); (7332, 4324); (7333, 4325);
   (7334, 4326); (7335, 4327); (7336, 4328); (7337, 4329); (7338, 4330);
   (7339, 4331); (7340, 4332); (7341, 4333); (7342, 4334); (7343, 4335);
   (7344, 4336); (7345, 4337); (7346, 4338); (7347, 4339); (7348, 4340);
   (7349, 4341); (7350, 4342); (7351, 4343); (7352, 4344); (7353, 4345);
   (7354, 4346); (7357, 4349); (7358, 4350); (7359, 4351); (7680, 7681);
   (7682, 7683); (7684, 7685); (7686, 7687); (7688, 7689); (7690, 7691);
   (7692, 7693); (7694, 7695); (7696, 7697); (7698, 7699); (7700, 7701);
   (7702, 7703); (7704, 7705); (7706, 7707); (7708, 7709); (7710, 7711);
   (7712, 7713); (7714, 7715); (7716, 7717); (7718, 7719); (7720, 7721);
   (7722, 7723); (7724, 7725); (7726, 7727); (7728, 7729); (7730, 7731);
   (7732, 7733); (7734, 7735); (7736, 7737); (7738, 7739); (7740, 7741);
   (7742, 7743); (7744, 7745); (7746, 7747); (7748, 7749); (7750, 7751);
   (7752, 7753); (7754, 7755); (7756, 7757); (7758, 7759); (7760, 7761);
   (7762, 7763); (7764, 7765); (7766, 7767); (7768, 7769); (7770, 7771);
   (7772, 7773); (7774, 7775); (7776, 7777); (7778, 7779); (7780, 7781);
   (7782, 7783); (7784, 7785); (7786, 7787); (7788, 7789); (7790, 7791);
   (7792, 7793); (7794, 7795); (7796, 7797); (7798, 7799); (7800, 7801);
   (7802, 7803); (7804, 7805); (7806, 7807); (7808, 7809); (7810, 7811);
   (7812, 7813); (7814, 7815); (7816, 7817); (7818, 7819); (7820, 7821);
   (7822, 7823); (7824, 7825); (7826, 7827); (7828, 7829); (7838, 223);
   (7840, 7841); (7842, 7843); (7844, 7845); (7846, 7847); (7848, 7849);
   (7850, 7851); (7852, 7853); (7854, 7855); (7856, 7857); (7858, 7859);
   (7860, 7861); (7862, 7863); (7864, 7865); (7866, 7867); (7868, 7869);
   (7870, 7871); (7872, 7873); (7874, 7875); (7876, 7877); (7878, 7879);
   (7880, 7881); (7882, 7883); (7884, 7885); (7886, 7887); (7888, 7889);
   (7890, 7891); (7892, 7893); (7894, 7895); (7896, 7897); (7898, 7899);
   (7900, 7901); (7902, 7903); (7904, 7905); (7906, 7907); (7908, 7909);
   (7910, 7911); (7912, 7913); (7914, 7915); (7916, 7917); (7918, 7919);
   (7920, 7921); (7922, 7923); (7924, 7925); (7926, 7927); (7928, 7929);
   (7930, 7931); (7932, 7933); (7934, 7935); (7944, 7936); (7945, 7937);
   (7946, 7938); (7947, 7939); (7948, 7940); (7949, 7941); (7950, 7942);
   (7951, 7943); (7960, 7952); (7961, 7953); (7962, 7954); (7963, 7955);
   (7964, 7956); (7965, 7957); (7976, 7968); (7977, 7969); (7978, 7970);
   (7979, 7971); (7980, 7972); (7981, 7973); (7982, 7974); (7983, 7975);
   (7992, 7984); (7993, 7985); (7994, 7986); (7995, 7987); (7996, 7988);
   (7997, 7989); (7998, 7990); (7999, 7991); (8008, 8000); (8009, 8001);
   (8010, 8002); (8011, 8003); (8012, 8004); (8013, 8005); (8025, 8017);
   (8027, 8019); (8029, 8021); (8031, 8023); (8040, 8032); (8041, 8033);
   (8042, 8034); (8043, 8035); (8044, 8036); (8045, 8037); (8046, 8038);
   (8047, 8039); (8072, 8064); (8073, 8065); (8074, 8066); (8075, 8067);
   (8076, 8068); (8077, 8069); (8078, 8070); (8079, 8071); (8088, 8080);
   (8089, 8081); (8090, 8082); (8091, 8083); (8092, 8084); (8093, 8085);
   (8094, 8086); (8095, 8087); (8104, 8096); (8105, 8097); (8106, 8098);
   (8107, 8099); (8108, 8100); (8109, 8101); (8110, 8102); (8111, 8103);
   (8120, 8112); (8121, 8113); (8122, 8048); (8123, 8049); (8124, 8115);
   (8136, 8050); (8137, 8051); (8138, 8052); (8139, 8053); (8140, 8131);
   (8152, 8144); (8153, 8145); (8154, 8054); (8155, 8055); (8168, 8160);
   (8169, 8161); (8170, 8058); (8171, 8059); (8172, 8165); (8184, 8056);
   (8185, 8057); (8186, 8060); (8187, 8061); (8188, 8179); (8486, 969);
   (8490, 107); (8491, 229); (8498, 8526); (8544, 8560); (8545, 8561);
   (8546, 8562); (8547, 8563); (8548, 8564); (8549, 8565); (8550, 8566);
   (8551, 8567); (8552, 8568); (8553, 8569); (8554, 8570); (8555, 8571);
   (8556, 8572); (8557, 8573); (8558, 8574); (8559, 8575); (8579, 8580);
   (9398, 9424); (9399, 9425); (9400, 9426); (9401, 9427); (9402, 9428);
   (9403, 9429); (9404, 9430); (9405, 9431); (9406, 9432); (9407, 9433);
   (9408, 9434); (9409, 9435); (9410, 9436); (9411, 9437); (9412, 9438);
   (9413, 9439); (9414, 9440); (9415, 9441); (9416, 9442); (9417, 9443);
   (9418, 9444); (9419, 9445); (9420, 9446); (9421, 9447); (9422, 9448);
   (9423, 9449); (11264, 11312); (11265, 11313); (11266, 11314);
   (11267, 11315); (11268, 11316); (11269, 11317); (11270, 11318);
   (11271, 11319); (11272, 11320); (11273, 11321); (11274, 11322);
   (11275, 11323); (11276, 11324); (11277, 11325); (11278, 11326);
   (11279, 11327); (11280, 11328); (11281, 11329); (11282, 11330);
   (11283, 11331); (11284, 11332); (11285, 11333); (11286, 11334);
   (11287, 11335); (11288, 11336); (11289, 11337); (11290, 11338);
   (11291, 11339); (11292, 11340); (11293, 11341); (11294, 11342);
   (11295, 11343); (11296, 11344); (11297, 11345); (11298, 11346);
   (11299, 11347); (11300, 11348); (11301, 11349); (11302, 11350);
   (11303, 11351); (11304, 11352); (11305, 11353); (11306, 11354);
   (11307, 11355); (11308, 11356); (11309, 11357); (11310, 11358);
   (11311, 11359); (11360, 11361); (11362, 619); (11363, 7549);
   (11364, 637); (11367, 11368); (11369, 11370); (11371, 11372);
   (11373, 593); (11374, 625); (11375, 592); (11376, 594); (11378, 11379);
   (11381, 11382); (11390, 575); (11391, 576); (11392, 11393);
   (11394, 11395); (11396, 11397); (11398, 11399); (11400, 11401);
   (11402, 11403); (11404, 11405); (11406, 11407); (11408, 11409);
   (11410, 11411); (11412, 11413); (11414, 11415); (11416, 11417);
   (11418, 11419); (11420, 11421); (11422, 11423); (11424, 11425);
   (11426, 11427); (11428, 11429); (11430, 11431); (11432, 11433);
   (11434, 11435); (11436, 11437); (11438, 11439); (11440, 11441);
   (11442, 11443); (11444, 11445); (11446, 11447); (11448, 11449);
   (11450, 11451); (11452, 11453); (11454, 11455); (11456, 11457);
   (11458, 11459); (11460, 11461); (11462, 11463); (11464, 11465);
   (11466, 11467); (11468, 11469); (11470, 11471); (11472, 11473);
   (11474, 11475); (11476, 11477); (11478, 11479); (11480, 11481);
   (11482, 11483); (11484, 11485); (11486, 11487); (11488, 11489);
   (11490, 11491); (11499, 11500); (11501, 11502); (11506, 11507);
   (42560, 42561); (42562, 42563); (42564, 42565); (42566, 42567);
   (42568, 42569); (42570, 42571); (42572, 42573); (42574, 42575);
   (42576, 42577); (42578, 42579); (42580, 42581); (42582, 42583);
   (42584, 42585); (42586, 42587); (42588, 42589); (42590, 42591);
   (42592, 42593); (42594, 42595); (42596, 42597); (42598, 42599);
   (42600, 42601); (42602, 42603); (42604, 42605); (42624, 42625);
   (42626, 42627); (42628, 42629); (42630, 42631); (42632, 42633);
   (42634, 42635); (42636, 42637); (42638, 42639); (42640, 42641);
   (42642, 42643); (42644, 42645); (42646, 42647); (42648, 42649);
   (42650, 42651); (42786, 42787); (42788, 42789); (42790, 42791);
   (42792, 42793); (42794, 42795); (42796, 42797); (42798, 42799);
   (42802, 42803); (42804, 42805); (42806, 42807); (42808, 42809);
   (42810, 42811); (42812, 42813); (42814, 42815); (42816, 42817);
   (42818, 42819); (42820, 42821); (42822, 42823); (42824, 42825);
   (42826, 42827); (42828, 42829); (42830, 42831); (42832, 42833);
   (42834, 42835); (42836, 42837); (42838, 42839); (42840, 42841);
   (42842, 42843); (42844, 42845); (42846, 42847); (42848, 42849);
   (42850, 42851); (42852, 42853); (42854, 42855); (42856, 42857);
   (42858, 42859); (42860, 42861); (42862, 42863); (42873, 42874);
   (42875, 42876); (42877, 7545); (42878, 42879); (42880, 42881);
   (42882, 42883); (42884, 42885); (42886, 42887); (42891, 42892);
   (42893, 613); (42896, 42897); (42898, 42899); (42902, 42903);
   (42904, 42905); (42906, 42907); (42908, 42909); (42910, 42911);
   (42912, 42913); (42914, 42915); (42916, 42917); (42918, 42919);
   (42920, 42921); (42922, 614); (42923, 604); (42924, 609); (42925, 620);
   (42926, 618); (42928, 670); (42929, 647); (42930, 669); (42931, 43859);
   (42932, 42933); (42934, 42935); (42936, 42937); (42938, 42939);
   (42940, 42941); (42942, 42943); (42944, 42945); (42946, 42947);
   (42948, 42900); (42949, 642); (42950, 7566); (42951, 42952);
   (42953, 42954); (42960, 42961); (42966, 42967); (42968, 42969);
   (42997, 42998); (65313, 65345); (65314, 65346); (65315, 65347);
   (65316, 65348); (65317, 65349); (65318, 65350); (65319, 65351);
   (65320, 65352); (65321, 65353); (65322, 65354); (65323, 65355);
   (65324, 65356); (65325, 65357); (65326, 65358); (65327, 65359);
   (65328, 65360); (65329, 65361); (65330, 65362); (65331, 65363);
   (65332, 65364); (65333, 65365); (65334, 65366); (65335, 65367);
   (65336, 65368); (65337, 65369); (65338, 65370); (66560, 66600);
   (66561, 66601); (66562, 66602); (66563, 66603); (66564, 66604);
   (66565, 66605); (66566, 66606); (66567, 66607); (66568, 66608);
   (66569, 66609); (66570, 66610); (66571, 66611); (66572, 66612);
   (66573, 66613); (66574, 66614); (66575, 66615); (66576, 66616);
   (66577, 66617); (66578, 66618); (66579, 66619); (66580, 66620);
   (66581, 66621); (66582, 66622); (66583, 66623); (66584, 66624);
   (66585, 66625); (66586, 66626); (66587, 66627); (66588, 66628);
   (66589, 66629); (66590, 66630); (66591, 66631); (66592, 66632);
   (66593, 66633); (66594, 66634); (66595, 66635); (66596, 66636);
   (66597, 66637); (66598, 66638); (66599, 66639); (66736, 66776);
   (66737, 66777); (66738, 66778); (66739, 66779); (66740, 66780);
   (66741, 66781); (66742, 66782); (66743, 66783); (66744, 66784);
   (66745, 66785); (66746, 66786); (66747, 66787); (66748, 66788);
   (66749, 66789); (66750, 66790); (66751, 66791); (66752, 66792);
   (66753, 66793); (66754, 66794); (66755, 66795); (66756, 66796);
   (66757, 66797); (66758, 66798); (66759, 66799); (66760, 66800);
   (66761, 66801); (66762, 66802); (66763, 66803); (66764, 66804);
   (66765, 66805); (66766, 66806); (66767, 66807); (66768, 66808);
   (66769, 66809); (66770, 66810); (66771, 66811); (66928, 66967);
   (66929, 66968); (66930, 66969); (66931, 66970); (66932, 66971);
   (66933, 66972); (66934, 66973); (66935, 66974); (66936, 66975);
   (66937, 66976); (66938, 66977); (66940, 66979); (66941, 66980);
   (66942, 66981); (66943, 66982); (66944, 66983); (66945, 66984);
   (66946, 66985); (66947, 66986); (66948, 66987); (66949, 66988);
   (66950, 66989); (66951, 66990); (66952, 66991); (66953, 66992);
   (66954, 66993); (66956, 66995); (66957, 66996); (66958, 66997);
   (66959, 66998); (66960, 66999); (66961, 67000); (66962, 67001);
   (66964, 67003); (66965, 67004); (68736, 68800); (68737, 68801);
   (68738, 68802); (68739, 68803); (68740, 68804); (68741, 68805);
   (68742, 68806); (68743, 68807); (68744, 68808); (68745, 68809);
   (68746, 68810); (68747, 68811); (68748, 68812); (68749, 68813);
   (68750, 68814); (68751, 68815); (68752, 68816); (68753, 68817);
   (68754, 68818); (68755, 68819); (68756, 68820); (68757, 68821);
   (68758, 68822); (68759, 68823); (68760, 68824); (68761, 68825);
   (68762, 68826); (68763, 68827); (68764, 68828); (68765, 68829);
   (68766, 68830); (68767, 68831); (68768, 68832); (68769, 68833);
   (68770, 68834); (68771, 68835); (68772, 68836); (68773, 68837);
   (68774, 68838); (68775, 68839); (68776, 68840); (68777, 68841);
   (68778, 68842); (68779, 68843); (68780, 68844); (68781, 68845);
   (68782, 68846); (68783, 68847); (68784, 68848); (68785, 68849);
   (68786, 68850); (71840, 71872); (71841, 71873); (71842, 71874);
   (71843, 71875); (71844, 71876); (71845, 71877); (71846, 71878);
   (71847, 71879); (71848, 71880); (71849, 71881); (71850, 71882);
   (71851, 71883); (71852, 71884); (71853, 71885); (71854, 71886);
   (71855, 71887); (71856, 71888); (71857, 71889); (71858, 71890);
   (71859, 71891); (71860, 71892); (71861, 71893); (71862, 71894);
   (71863, 71895); (71864, 71896); (71865, 71897); (71866, 71898);
   (71867, 71899); (71868, 71900); (71869, 71901); (71870, 71902);
   (71871, 71903); (93760, 93792); (93761, 93793); (93762, 93794);
   (93763, 93795); (93764, 93796); (93765, 93797); (93766, 93798);
   (93767, 93799); (93768, 93800); (93769, 93801); (93770, 93802);
   (93771, 93803); (93772, 93804); (93773, 93805); (93774, 93806);
   (93775, 93807); (93776, 93808); (93777, 93809); (93778, 93810);
   (93779, 93811); (93780, 93812); (93781, 93813); (93782, 93814);
   (93783, 93815); (93784, 93816); (93785, 93817); (93786, 93818);
   (93787, 93819); (93788, 93820); (93789, 93821); (93790, 93822);
   (93791, 93823); (125184, 125218); (125185, 125219); (125186, 125220);
   (125187, 125221); (125188, 125222); (125189, 125223); (125190, 125224);
   (125191, 125225); (125192, 125226); (125193, 125227); (125194, 125228);
   (125195, 125229); (125196, 125230); (125197, 125231); (125198, 125232);
   (125199, 125233); (125200, 125234); (125201, 125235); (125202, 125236);
   (125203, 125237); (125204, 125238); (125205, 125239); (125206, 125240);
   (125207, 125241); (125208, 125242); (125209, 125243); (125210, 125244);
   (125211, 125245); (125212, 125246); (125213, 125247); (125214, 125248);
   (125215, 125249); (125216, 125250); (125217, 125251)
  ]%N.

(** The lower-case mappings that give several code points. *)
Definition lower_special : list (N * list N) :=
  [
   (304, [105; 775])
  ]%N.

(** The title-case mappings that give one code point. *)
Definition title_simple : list (N * N) :=
  [
   (97, 65); (98, 66); (99, 67); (100, 68); (101, 69); (102, 70); (103, 71);
   (104, 72); (105, 73); (106, 74); (107, 75); (108, 76); (109, 77);
   (110, 78); (111, 79); (112, 80); (113, 81); (114, 82); (115, 83);
   (116, 84); (117, 85); (118, 86); (119, 87); (120, 88); (121, 89);
   (122, 90); (181, 924); (224, 192); (225, 193); (226, 194); (227, 195);
   (228, 196); (229, 197); (230, 198); (231, 199); (232, 200); (233, 201);
   (234, 202); (235, 203); (236, 204); (237, 205); (238, 206); (239, 207);
   (240, 208); (241, 209); (242, 210); (243, 211); (244, 212); (245, 213);
   (246, 214); (248, 216); (249, 217); (250, 218); (251, 219); (252, 220);
   (253, 221); (254, 222); (255, 376); (257, 256); (259, 258); (261, 260);
   (263, 262); (265, 264); (267, 266); (269, 268); (271, 270); (273, 272);
   (275, 274); (277, 276); (279, 278); (281, 280); (283, 282); (285, 284);
   (287, 286); (289, 288); (291, 290); (293, 292); (295, 294); (297, 296);
   (299, 298); (301, 300); (303, 302); (305, 73); (307, 306); (309, 308);
   (311, 310); (314, 313); (316, 315); (318, 317); (320, 319); (322, 321);
   (324, 323); (326, 325); (328, 327); (331, 330); (333, 332); (335, 334);
   (337, 336); (339, 338); (341, 340); (343, 342); (345, 344); (347, 346);
   (349, 348); (351, 350); (353, 352); (355, 354); (357, 356); (359, 358);
   (361, 360); (363, 362); (365, 364); (367, 366); (369, 368); (371, 370);
   (373, 372); (375, 374); (378, 377); (380, 379); (382, 381); (383, 83);
   (384, 579); (387, 386); (389, 388); (392, 391); (396, 395); (402, 401);
   (405, 502); (409, 408); (410, 573); (414, 544); (417, 416); (419, 418);
   (421, 420); (424, 423); (429, 428); (432, 431); (436, 435); (438, 437);
   (441, 440); (445, 444); (447, 503); (452, 453); (454, 453); (455, 456);
   (457, 456); (458, 459); (460, 459); (462, 461); (464, 463); (466, 465);
   (468, 467); (470, 469); (472, 471); (474, 473); (476, 475); (477, 398);
   (479, 478); (481, 480); (483, 482); (485, 484); (487, 486); (489, 488);
   (491, 490); (493, 492); (495, 494); (497, 498); (499, 498); (501, 500);
   (505, 504); (507, 506); (509, 508); (511, 510); (513, 512); (515, 514);
   (517, 516); (519, 518); (521, 520); (523, 522); (525, 524); (527, 526);
   (529, 528); (531, 530); (533, 532); (535, 534); (537, 536); (539, 538);
   (541, 540); (543, 542); (547, 546); (549, 548); (551, 550); (553, 552);
   (555, 554); (557, 556); (559, 558); (561, 560); (563, 562); (572, 571);
   (575, 11390); (576, 11391); (578, 577); (583, 582); (585, 584);
   (587, 586); (589, 588); (591, 590); (592, 11375); (593, 11373);
   (594, 11376); (595, 385); (596, 390); (598, 393); (599, 394); (601, 399);
   (603, 400); (604, 42923); (608, 403); (609, 42924); (611, 404);
   (613, 42893); (614, 42922); (616, 407); (617, 406); (618, 42926);
   (619, 11362); (620, 42925); (623, 412); (625, 11374); (626, 413);
   (629, 415); (637, 11364); (640, 422); (642, 42949); (643, 425);
   (647, 42929); (648, 430); (649, 580); (650, 433); (651, 434); (652, 581);
   (658, 439); (669, 42930); (670, 42928); (837, 921); (881, 880);
   (883, 882); (887, 886); (891, 1021); (892, 1022); (893, 1023);
   (940, 902); (941, 904); (942, 905); (943, 906); (945, 913); (946, 914);
   (947, 915); (948, 916); (949, 917); (950, 918); (951, 919); (952, 920);
   (953, 921); (954, 922); (955, 923); (956, 924); (957, 925); (958, 926);
   (959, 927); (960, 928); (961, 929); (962, 931); (963, 931); (964, 932);
   (965, 933); (966, 934); (967, 935); (968, 936); (969, 937); (970, 938);
   (971, 939); (972, 908); (973, 910); (974, 911); (976, 914); (977, 920);
   (981, 934); (982, 928); (983, 975); (985, 984); (987, 986); (989, 988);
   (991, 990); (993, 992); (995, 994); (997, 996); (999, 998); (1001, 1000);
   (1003, 1002); (1005, 1004); (1007, 1006); (1008, 922); (1009, 929);
   (1010, 1017); (1011, 895); (1013, 917); (1016, 1015); (1019, 1018);
   (1072, 1040); (1073, 1041); (1074, 1042); (1075, 1043); (1076, 1044);
   (1077, 1045); (1078, 1046); (1079, 1047); (1080, 1048); (1081, 1049);
   (1082, 1050); (1083, 1051); (1084, 1052); (1085, 1053); (1086, 1054);
   (1087, 1055); (1088, 1056); (1089, 1057); (1090, 1058); (1091, 1059);
   (1092, 1060); (1093, 1061); (1094, 1062); (1095, 1063); (1096, 1064);
   (1097, 1065); (1098, 1066); (1099, 1067); (1100, 1068); (1101, 1069);
   (1102, 1070); (1103, 1071); (1104, 1024); (1105, 1025); (1106, 1026);
   (1107, 1027); (1108, 1028); (1109, 1029); (1110, 1030); (1111, 1031);
   (1112, 1032); (1113, 1033); (1114, 1034); (1115, 1035); (1116, 1036);
   (1117, 1037); (1118, 1038); (1119, 1039); (1121, 1120); (1123, 1122);
   (1125, 1124); (1127, 1126); (1129, 1128); (1131, 1130); (1133, 1132);
   (1135, 1134); (1137, 1136); (1139, 1138); (1141, 1140); (1143, 1142);
   (1145, 1144); (1147, 1146); (1149, 1148); (1151, 1150); (1153, 1152);
   (1163, 1162); (1165, 1164); (1167, 1166); (1169, 1168); (1171, 1170);
   (1173, 1172); (1175, 1174); (1177, 1176); (1179, 1178); (1181, 1180);
   (1183, 1182); (1185, 1184); (1187, 1186); (1189, 1188); (1191, 1190);
   (1193, 1192); (1195, 1194); (1197, 1196); (1199, 1198); (1201, 1200);
   (1203, 1202); (1205, 1204); (1207, 1206); (1209, 1208); (1211, 1210);
   (1213, 1212); (1215, 1214); (1218, 1217); (1220, 1219); (1222, 1221);
   (1224, 1223); (1226, 1225); (1228, 1227); (1230, 1229); (1231, 1216);
   (1233, 1232); (1235, 1234); (1237, 1236); (1239, 1238); (1241, 1240);
   (1243, 1242); (1245, 1244); (1247, 1246); (1249, 1248); (1251, 1250);
   (1253, 1252); (1255, 1254); (1257, 1256); (1259, 1258); (1261, 1260);
   (1263, 1262); (1265, 1264); (1267, 1266); (1269, 1268); (1271, 1270);
   (1273, 1272); (1275, 1274); (1277, 1276); (1279, 1278); (1281, 1280);
   (1283, 1282); (1285, 1284); (1287, 1286); (1289, 1288); (1291, 1290);
   (1293, 1292); (1295, 1294); (1297, 1296); (1299, 1298); (1301, 1300);
   (1303, 1302); (1305, 1304); (1307, 1306); (1309, 1308); (1311, 1310);
   (1313, 1312); (1315, 1314); (1317, 1316); (1319, 1318); (1321, 1320);
   (1323, 1322); (1325, 1324); (1327, 1326); (1377, 1329); (1378, 1330);
   (1379, 1331); (1380, 1332); (1381, 1333); (1382, 1334); (1383, 1335);
   (1384, 1336); (1385, 1337); (1386, 1338); (1387, 1339); (1388, 1340);
   (1389, 1341); (1390, 1342); (1391, 1343); (1392, 1344); (1393, 1345);
   (1394, 1346); (1395, 1347); (1396, 1348); (1397, 1349); (1398, 1350);
   (1399, 1351); (1400, 1352); (1401, 1353); (1402, 1354); (1403, 1355);
   (1404, 1356); (1405, 1357); (1406, 1358); (1407, 1359); (1408, 1360);
   (1409, 1361); (1410, 1362); (1411, 1363); (1412, 1364); (1413, 1365);
   (1414, 1366); (5112, 5104); (5113, 5105); (5114, 5106); (5115, 5107);
   (5116, 5108); (5117, 5109); (7296, 1042); (7297, 1044); (7298, 1054);
   (7299, 1057); (7300, 1058); (7301, 1058); (7302, 1066); (7303, 1122);
   (7304, 42570); (7545, 42877); (7549, 11363); (7566, 42950); (7681, 7680);
   (7683, 7682); (7685, 7684); (7687, 7686); (7689, 7688); (7691, 7690);
   (7693, 7692); (7695, 7694); (7697, 7696); (7699, 7698); (7701, 7700);
   (7703, 7702); (7705, 7704); (7707, 7706); (7709, 7708); (7711, 7710);
   (7713, 7712); (7715, 7714); (7717, 7716); (7719, 7718); (7721, 7720);
   (7723, 7722); (7725, 7724); (7727, 7726); (7729, 7728); (7731, 7730);
   (7733, 7732); (7735, 7734); (7737, 7736); (7739, 7738); (7741, 7740);
   (7743, 7742); (7745, 7744); (7747, 7746); (7749, 7748); (7751, 7750);
   (7753, 7752); (7755, 7754); (7757, 7756); (7759, 7758); (7761, 7760);
   (7763, 7762); (7765, 7764); (7767, 7766); (7769, 7768); (7771, 7770);
   (7773, 7772); (7775, 7774); (7777, 7776); (7779, 7778); (7781, 7780);
   (7783, 7782); (7785, 7784); (7787, 7786); (7789, 7788); (7791, 7790);
   (7793, 7792); (7795, 7794); (7797, 7796); (7799, 7798); (7801, 7800);
   (7803, 7802); (7805, 7804); (7807, 7806); (7809, 7808); (7811, 7810);
   (7813, 7812); (7815, 7814); (7817, 7816); (7819, 7818); (7821, 7820);
   (7823, 7822); (7825, 7824); (7827, 7826); (7829, 7828); (7835, 7776);
   (7841, 7840); (7843, 7842); (7845, 7844); (7847, 7846); (7849, 7848);
   (7851, 7850); (7853, 7852); (7855, 7854); (7857, 7856); (7859, 7858);
   (7861, 7860); (7863, 7862); (7865, 7864); (7867, 7866); (7869, 7868);
   (7871, 7870); (7873, 7872); (7875, 7874); (7877, 7876); (7879, 7878);
   (7881, 7880); (7883, 7882); (7885, 7884); (7887, 7886); (7889, 7888);
   (7891, 7890); (7893, 7892); (7895, 7894); (7897, 7896); (7899, 7898);
   (7901, 7900); (7903, 7902); (7905, 7904); (7907, 7906); (7909, 7908);
   (7911, 7910); (7913, 7912); (7915, 7914); (7917, 7916); (7919, 7918);
   (7921, 7920); (7923, 7922); (7925, 7924); (7927, 7926); (7929, 7928);
   (7931, 7930); (7933, 7932); (7935, 7934); (7936, 7944); (7937, 7945);
   (7938, 7946); (7939, 7947); (7940, 7948); (7941, 7949); (7942, 7950);
   (7943, 7951); (7952, 7960); (7953, 7961); (7954, 7962); (7955, 7963);
   (7956, 7964); (7957, 7965); (7968, 7976); (7969, 7977); (7970, 7978);
   (7971, 7979); (7972, 7980); (7973, 7981); (7974, 7982); (7975, 7983);
   (7984, 7992); (7985, 7993); (7986, 7994); (7987, 7995); (7988, 7996);
   (7989, 7997); (7990, 7998); (7991, 7999); (8000, 8008); (8001, 8009);
   (8002, 8010); (8003, 8011); (8004, 8012); (8005, 8013); (8017, 8025);
   (8019, 8027); (8021, 8029); (8023, 8031); (8032, 8040); (8033, 8041);
   (8034, 8042); (8035, 8043); (8036, 8044); (8037, 8045); (8038, 8046);
   (8039, 8047); (8048, 8122); (8049, 8123); (8050, 8136); (8051, 8137);
   (8052, 8138); (8053, 8139); (8054, 8154); (8055, 8155); (8056, 8184);
   (8057, 8185); (8058, 8170); (8059, 8171); (8060, 8186); (8061, 8187);
   (8064, 8072); (8065, 8073); (8066, 8074); (8067, 8075); (8068, 8076);
   (8069, 8077); (8070, 8078); (8071, 8079); (8080, 8088); (8081, 8089);
   (8082, 8090); (8083, 8091); (8084, 8092); (8085, 8093); (8086, 8094);
   (8087, 8095); (8096, 8104); (8097, 8105); (8098, 8106); (8099, 8107);
   (8100, 8108); (8101, 8109); (8102, 8110); (8103, 8111); (8112, 8120);
   (8113, 8121); (8115, 8124); (8126, 921); (8131, 8140); (8144, 8152);
   (8145, 8153); (8160, 8168); (8161, 8169); (8165, 8172); (8179, 8188);
   (8526, 8498); (8560, 8544); (8561, 8545); (8562, 8546); (8563, 8547);
   (8564, 8548); (8565, 8549); (8566, 8550); (8567, 8551); (8568, 8552);
   (8569, 8553); (8570, 8554); (8571, 8555); (8572, 8556); (8573, 8557);
   (8574, 8558); (8575, 8559); (8580, 8579); (9424, 9398); (9425, 9399);
   (9426, 9400); (9427, 9401); (9428, 9402); (9429, 9403); (9430, 9404);
   (9431, 9405); (9432, 9406); (9433, 9407); (9434, 9408); (9435, 9409);
   (9436, 9410); (9437, 9411); (9438, 9412); (9439, 9413); (9440, 9414);
   (9441, 9415); (9442, 9416); (9443, 9417); (9444, 9418); (9445, 9419);
   (9446, 9420); (9447, 9421); (9448, 9422); (9449, 9423); (11312, 11264);
   (11313, 11265); (11314, 11266); (11315, 11267); (11316, 11268);
   (11317, 11269); (11318, 11270); (11319, 11271); (11320, 11272);
   (11321, 11273); (11322, 11274); (11323, 11275); (11324, 11276);
   (11325, 11277); (11326, 11278); (11327, 11279); (11328, 11280);
   (11329, 11281); (11330, 11282); (11331, 11283); (11332, 11284);
   (11333, 11285); (11334, 11286); (11335, 11287); (11336, 11288);
   (11337, 11289); (11338, 11290); (11339, 11291); (11340, 11292);
   (11341, 11293); (11342, 11294); (11343, 11295); (11344, 11296);
   (11345, 11297); (11346, 11298); (11347, 11299); (11348, 11300);
   (11349, 11301); (11350, 11302); (11351, 11303); (11352, 11304);
   (11353, 11305); (11354, 11306); (11355, 11307); (11356, 11308);
   (11357, 11309); (11358, 11310); (11359, 11311); (11361, 11360);
   (11365, 570); (11366, 574); (11368, 11367); (11370, 11369);
   (11372, 11371); (11379, 11378); (11382, 11381); (11393, 11392);
   (11395, 11394); (11397, 11396); (11399, 11398); (11401, 11400);
   (11403, 11402); (11405, 11404); (11407, 11406); (11409, 11408);
   (11411, 11410); (11413, 11412); (11415, 11414); (11417, 11416);
   (11419, 11418); (11421, 11420); (11423, 11422); (11425, 11424);
   (11427, 11426); (11429, 11428); (11431, 11430); (11433, 11432);
   (11435, 11434); (11437, 11436); (11439, 11438); (11441, 11440);
   (11443, 11442); (11445, 11444); (11447, 11446); (11449, 11448);
   (11451, 11450); (11453, 11452); (11455, 11454); (11457, 11456);
   (11459, 11458); (11461, 11460); (11463, 11462); (11465, 11464);
   (11467, 11466); (11469, 11468); (11471, 11470); (11473, 11472);
   (11475, 11474); (11477, 11476); (11479, 11478); (11481, 11480);
   (11483, 11482); (11485, 11484); (11487, 11486); (11489, 11488);
   (11491, 11490); (11500, 11499); (11502, 11501); (11507, 11506);
   (11520, 4256); (11521, 4257); (11522, 4258); (11523, 4259);
   (11524, 4260); (11525, 4261); (11526, 4262); (11527, 4263);
   (11528, 4264); (11529, 4265); (11530, 4266); (11531, 4267);
   (11532, 4268); (11533, 4269); (11534, 4270); (11535, 4271);
   (11536, 4272); (11537, 4273); (11538, 4274); (11539, 4275);
   (11540, 4276); (11541, 4277); (11542, 4278); (11543, 4279);
   (11544, 4280); (11545, 4281); (11546, 4282); (11547, 4283);
   (11548, 4284); (11549, 4285); (11550, 4286); (11551, 4287);
   (11552, 4288); (11553, 4289); (11554, 4290); (11555, 4291);
   (11556, 4292); (11557, 4293); (11559, 4295); (11565, 4301);
   (42561, 42560); (42563, 42562); (42565, 42564); (42567, 42566);
   (42569, 42568); (42571, 42570); (42573, 42572); (42575, 42574);
   (42577, 42576); (42579, 42578); (42581, 42580); (42583, 42582);
   (42585, 42584); (42587, 42586); (42589, 42588); (42591, 42590);
   (42593, 42592); (42595, 42594); (42597, 42596); (42599, 42598);
   (42601, 42600); (42603, 42602); (42605, 42604); (42625, 42624);
   (42627, 42626); (42629, 42628); (42631, 42630); (42633, 42632);
   (42635, 42634); (42637, 42636); (42639, 42638); (42641, 42640);
   (42643, 42642); (42645, 42644); (42647, 42646); (42649, 42648);
   (42651, 42650); (42787, 42786); (42789, 42788); (42791, 42790);
   (42793, 42792); (42795, 42794); (42797, 42796); (42799, 42798);
   (42803, 42802); (42805, 42804); (42807, 42806); (42809, 42808);
   (42811, 42810); (42813, 42812); (42815, 42814); (42817, 42816);
   (42819, 42818); (42821, 42820); (42823, 42822); (42825, 42824);
   (42827, 42826); (42829, 42828); (42831, 42830); (42833, 42832);
   (42835, 42834); (42837, 42836); (42839, 42838); (42841, 42840);
   (42843, 42842); (42845, 42844); (42847, 42846); (42849, 42848);
   (42851, 42850); (42853, 42852); (42855, 42854); (42857, 42856);
   (42859, 42858); (42861, 42860); (42863, 42862); (42874, 42873);
   (42876, 42875); (42879, 42878); (42881, 42880); (42883, 42882);
   (42885, 42884); (42887, 42886); (42892, 42891); (42897, 42896);
   (42899, 42898); (42900, 42948); (42903, 42902); (42905, 42904);
   (42907, 42906); (42909, 42908); (42911, 42910); (42913, 42912);
   (42915, 42914); (42917, 42916); (42919, 42918); (42921, 42920);
   (42933, 42932); (42935, 42934); (42937, 42936); (42939, 42938);
   (42941, 42940); (42943, 42942); (42945, 42944); (42947, 42946);
   (42952, 42951); (42954, 42953); (42961, 42960); (42967, 42966);
   (42969, 42968); (42998, 42997); (43859, 42931); (43888, 5024);
   (43889, 5025); (43890, 5026); (43891, 5027); (43892, 5028);
   (43893, 5029); (43894, 5030); (43895, 5031); (43896, 5032);
   (43897, 5033); (43898, 5034); (43899, 5035); (43900, 5036);
   (43901, 5037); (43902, 5038); (43903, 5039); (43904, 5040);
   (43905, 5041); (43906, 5042); (43907, 5043); (43908, 5044);
   (43909, 5045); (43910, 5046); (43911, 5047); (43912, 5048);
   (43913, 5049); (43914, 5050); (43915, 5051); (43916, 5052);
   (43917, 5053); (43918, 5054); (43919, 5055); (43920, 5056);
   (43921, 5057); (43922, 5058); (43923, 5059); (43924, 5060);
   (43925, 5061); (43926, 5062); (43927, 5063); (43928, 5064);
   (43929, 5065); (43930, 5066); (43931, 5067); (43932, 5068);
   (43933, 5069); (43934, 5070); (43935, 5071); (43936, 5072);
   (43937, 5073); (43938, 5074); (43939, 5075); (43940, 5076);
   (43941, 5077); (43942, 5078); (43943, 5079); (43944, 5080);
   (43945, 5081); (43946, 5082); (43947, 5083); (43948, 5084);
   (43949, 5085); (43950, 5086); (43951, 5087); (43952, 5088);
   (43953, 5089); (43954, 5090); (43955, 5091); (43956, 5092);
   (43957, 5093); (43958, 5094); (43959, 5095); (43960, 5096);
   (43961, 5097); (43962, 5098); (43963, 5099); (43964, 5100);
   (43965, 5101); (43966, 5102); (43967, 5103); (65345, 65313);
   (65346, 65314); (65347, 65315); (65348, 65316); (65349, 65317);
   (65350, 65318); (65351, 65319); (65352, 65320); (65353, 65321);
   (65354, 65322); (65355, 65323); (65356, 65324); (65357, 65325);
   (65358, 65326); (65359, 65327); (65360, 65328); (65361, 65329);
   (65362, 65330); (65363, 65331); (65364, 65332); (65365, 65333);
   (65366, 65334); (65367, 65335); (65368, 65336); (65369, 65337);
   (65370, 65338); (66600, 66560); (66601, 66561); (66602, 66562);
   (66603, 66563); (66604, 66564); (66605, 66565); (66606, 66566);
   (66607, 66567); (66608, 66568); (66609, 66569); (66610, 66570);
   (66611, 66571); (66612, 66572); (66613, 66573); (66614, 66574);
   (66615, 66575); (66616, 66576); (66617, 66577); (66618, 66578);
   (66619, 66579); (66620, 66580); (66621, 66581); (66622, 66582);
   (66623, 66583); (66624, 66584); (66625, 66585); (66626, 66586);
   (66627, 66587); (66628, 66588); (66629, 66589); (66630, 66590);
   (66631, 66591); (66632, 66592); (66633, 66593); (66634, 66594);
   (66635, 66595); (66636, 66596); (66637, 66597); (66638, 66598);
   (66639, 66599); (66776, 66736); (66777, 66737); (66778, 66738);
   (66779, 66739); (66780, 66740); (66781, 66741); (66782, 66742);
   (66783, 66743); (66784, 66744); (66785, 66745); (66786, 66746);
   (66787, 66747); (66788, 66748); (66789, 66749); (66790, 66750);
   (66791, 66751); (66792, 66752); (66793, 66753); (66794, 66754);
   (66795, 66755); (66796, 66756); (66797, 66757); (66798, 66758);
   (66799, 66759); (66800, 66760); (66801, 66761); (66802, 66762);
   (66803, 66763); (66804, 66764); (66805, 66765); (66806, 66766);
   (66807, 66767); (66808, 66768); (66809, 66769); (66810, 66770);
   (66811, 66771); (66967, 66928); (66968, 66929); (66969, 66930);
   (66970, 66931); (66971, 66932); (66972, 66933); (66973, 66934);
   (66974, 66935); (66975, 66936); (66976, 66937); (66977, 66938);
   (66979, 66940); (66980, 66941); (66981, 66942); (66982, 66943);
   (66983, 66944); (66984, 66945); (66985, 66946); (66986, 66947);
   (66987, 66948); (66988, 66949); (66989, 66950); (66990, 66951);
   (66991, 66952); (66992, 66953); (66993, 66954); (66995, 66956);
   (66996, 66957); (66997, 66958); (66998, 66959); (66999, 66960);
   (67000, 66961); (67001, 66962); (67003, 66964); (67004, 66965);
   (68800, 68736); (68801, 68737); (68802, 68738); (68803, 68739);
   (68804, 68740); (68805, 68741); (68806, 68742); (68807, 68743);
   (68808, 68744); (68809, 68745); (68810, 68746); (68811, 68747);
   (68812, 68748); (68813, 68749); (68814, 68750); (68815, 68751);
   (68816, 68752); (68817, 68753); (68818, 68754); (68819, 68755);
   (68820, 68756); (68821, 68757); (68822, 68758); (68823, 68759);
   (68824, 68760); (68825, 68761); (68826, 68762); (68827, 68763);
   (68828, 68764); (68829, 68765); (68830, 68766); (68831, 68767);
   (68832, 68768); (68833, 68769); (68834, 68770); (68835, 68771);
   (68836, 68772); (68837, 68773); (68838, 68774); (68839, 68775);
   (68840, 68776); (68841, 68777); (68842, 68778); (68843, 68779);
   (68844, 68780); (68845, 68781); (68846, 68782); (68847, 68783);
   (68848, 68784); (68849, 68785); (68850, 68786); (71872, 71840);
   (71873, 71841); (71874, 71842); (71875, 71843); (71876, 71844);
   (71877, 71845); (71878, 71846); (71879, 71847); (71880, 71848);
   (71881, 71849); (71882, 71850); (71883, 71851); (71884, 71852);
   (71885, 71853); (71886, 71854); (71887, 71855); (71888, 71856);
   (71889, 71857); (71890, 71858); (71891, 71859); (71892, 71860);
   (71893, 71861); (71894, 71862); (71895, 71863); (71896, 71864);
   (71897, 71865); (71898, 71866); (71899, 71867); (71900, 71868);
   (71901, 71869); (71902, 71870); (71903, 71871); (93792, 93760);
   (93793, 93761); (93794, 93762); (93795, 93763); (93796, 93764);
   (93797, 93765); (93798, 93766); (93799, 93767); (93800, 93768);
   (93801, 93769); (93802, 93770); (93803, 93771); (93804, 93772);
   (93805, 93773); (93806, 93774); (93807, 93775); (93808, 93776);
   (93809, 93777); (93810, 93778); (93811, 93779); (93812, 93780);
   (93813, 93781); (93814, 93782); (93815, 93783); (93816, 93784);
   (93817, 93785); (93818, 93786); (93819, 93787); (93820, 93788);
   (93821, 93789); (93822, 93790); (93823, 93791); (125218, 125184);
   (125219, 125185); (125220, 125186); (125221, 125187); (125222, 125188);
   (125223, 125189); (125224, 125190); (125225, 125191); (125226, 125192);
   (125227, 125193); (125228, 125194); (125229, 125195); (125230, 125196);
   (125231, 125197); (125232, 125198); (125233, 125199); (125234, 125200);
   (125235, 125201); (125236, 125202); (125237, 125203); (125238, 125204);
   (125239, 125205); (125240, 125206); (125241, 125207); (125242, 125208);
   (125243, 125209); (125244, 125210); (125245, 125211); (125246, 125212);
   (125247, 125213); (125248, 125214); (125249, 125215); (125250, 125216);
   (125251, 125217)
  ]%N.

(** The title-case mappings that give several code points. *)
Definition title_special : list (N * list N) :=
  [
   (223, [83; 115]); (329, [700; 78]); (496, [74; 780]);
   (912, [921; 776; 769]); (944, [933; 776; 769]); (1415, [1333; 1410]);
   (7830, [72; 817]); (7831, [84; 776]); (7832, [87; 778]);
   (7833, [89; 778]); (7834, [65; 702]); (8016, [933; 787]);
   (8018, [933; 787; 768]); (8020, [933; 787; 769]);
   (8022, [933; 787; 834]); (8114, [8122; 837]); (8116, [902; 837]);
   (8118, [913; 834]); (8119, [913; 834; 837]); (8130, [8138; 837]);
   (8132, [905; 837]); (8134, [919; 834]); (8135, [919; 834; 837]);
   (8146, [921; 776; 768]); (8147, [921; 776; 769]); (8150, [921; 834]);
   (8151, [921; 776; 834]); (8162, [933; 776; 768]);
   (8163, [933; 776; 769]); (8164, [929; 787]); (8166, [933; 834]);
   (8167, [933; 776; 834]); (8178, [8186; 837]); (8180, [911; 837]);
   (8182, [937; 834]); (8183, [937; 834; 837]); (64256, [70; 102]);
   (64257, [70; 105]); (64258, [70; 108]); (64259, [70; 102; 105]);
   (64260, [70; 102; 108]); (64261, [83; 116]); (64262, [83; 116]);
   (64275, [1348; 1398]); (64276, [1348; 1381]); (64277, [1348; 1387]);
   (64278, [1358; 1398]); (64279, [1348; 1389])
  ]%N.

(** A character of a Python [str]: a code point.  A byte of the
    representation that belongs to no well-formed sequence stands for no
    character and is carried as it is. *)
Inductive pchar :=
| Char (cp : N)
| Byte (b : ascii).

Definition in_ranges (rs : list (N * N)) (cp : N) : bool :=
  existsb (λ r : N * N, (r.1 <=? cp) && (cp <=? r.2))%N rs.

Fixpoint assoc {A} (cp : N) (t : list (N * A)) : option A :=
  match t with
  | [] => None
  | (k, v) :: t' => if (k =? cp)%N then Some v else assoc cp t'
  end.

(** The full lower-case mapping of a code point. *)
Definition to_lower_full (cp : N) : list N :=
  match assoc cp lower_special with
  | Some l => l
  | None => match assoc cp lower_simple with
            | Some t => [t]
            | None => [cp]
            end
  end.

(** The full title-case mapping of a code point. *)
Definition to_title_full (cp : N) : list N :=
  match assoc cp title_special with
  | Some l => l
  | None => match assoc cp title_simple with
            | Some t => [t]
            | None => [cp]
            end
  end.

Definition is_space (c : pchar) : bool :=
  match c with
  | Char cp => in_ranges whitespace_ranges cp
  | Byte _ => false
  end.

Definition is_cased (c : pchar) : bool :=
  match c with
  | Char cp => in_ranges cased_ranges cp
  | Byte _ => false
  end.

Definition is_case_ignorable (c : pchar) : bool :=
  match c with
  | Char cp => in_ranges case_ignorable_ranges cp
  | Byte _ => false
  end.

(** *** UTF-8, extended to the surrogate code points a [str] may hold *)

Definition continuation (b : ascii) : option N :=
  let n := N_of_ascii b in
  if ((128 <=? n) && (n <=? 191))%N then Some (n - 128)%N else None.

Definition seq2 (b0 b1 : ascii) : option N :=
  let n0 := N_of_ascii b0 in
  if ((194 <=? n0) && (n0 <=? 223))%N then
    match continuation b1 with
    | Some x1 => Some ((n0 - 192) * 64 + x1)%N
    | None => None
    end
  else None.

Definition seq3 (b0 b1 b2 : ascii) : option N :=
  let n0 := N_of_ascii b0 in
  if ((224 <=? n0) && (n0 <=? 239))%N then
    match continuation b1, continuation b2 with
    | Some x1, Some x2 =>
        let cp := ((n0 - 224) * 4096 + x1 * 64 + x2)%N in
        if (2048 <=? cp)%N then Some cp else None
    | _, _ => None
    end
  else None.

Definition seq4 (b0 b1 b2 b3 : ascii) : option N :=
  let n0 := N_of_ascii b0 in
  if ((240 <=? n0) && (n0 <=? 244))%N then
    match continuation b1, continuation b2, continuation b3 with
    | Some x1, Some x2, Some x3 =>
        let cp := ((n0 - 240) * 262144 + x1 * 4096 + x2 * 64 + x3)%N in
        if ((65536 <=? cp) && (cp <=? 1114111))%N then Some cp else None
    | _, _, _ => None
    end
  else None.

(** The characters a representation stands for. *)
Fixpoint decode (s : string) : list pchar :=
  match s with
  | EmptyString => []
  | String b0 s1 =>
      if (N_of_ascii b0 <? 128)%N then Char (N_of_ascii b0) :: decode s1
      else
        match s1 with
        | EmptyString => [Byte b0]
        | String b1 s2 =>
            match seq2 b0 b1 with
            | Some cp => Char cp :: decode s2
            | None =>
                match s2 with
                | EmptyString => Byte b0 :: decode s1
                | String b2 s3 =>
                    match seq3 b0 b1 b2 with
                    | Some cp => Char cp :: decode s3
                    | None =>
                        match s3 with
                        | EmptyString => Byte b0 :: decode s1
                        | String b3 s4 =>
                            match seq4 b0 b1 b2 b3 with
                            | Some cp => Char cp :: decode s4
                            | None => Byte b0 :: decode s1
                            end
                        end
                    end
                end
            end
        end
  end.

Definition byte (n : N) : ascii := ascii_of_N n.

Definition encode_char (c : pchar) : string :=
  match c with
  | Byte b => String b EmptyString
  | Char cp =>
      if (cp <? 128)%N then String (byte cp) EmptyString
      else if (cp <? 2048)%N then
        String (byte (192 + cp / 64))
          (String (byte (128 + cp mod 64)) EmptyString)
      else if (cp <? 65536)%N then
        String (byte (224 + cp / 4096))
          (String (byte (128 + (cp / 64) mod 64))
             (String (byte (128 + cp mod 64)) EmptyString))
      else
        String (byte (240 + cp / 262144))
          (String (byte (128 + (cp / 4096) mod 64))
             (String (byte (128 + (cp / 64) mod 64))
                (String (byte (128 + cp mod 64)) EmptyString)))
  end%N.

(** The representation of a sequence of characters. *)
Fixpoint encode (l : list pchar) : string :=
  match l with
  | [] => EmptyString
  | c :: l' => encode_char c +:+ encode l'
  end.

(** *** Lower case and title case *)

(** The first character that is not case-ignorable. *)
Fixpoint skip_ignorable (l : list pchar) : option pchar :=
  match l with
  | [] => None
  | c :: l' => if is_case_ignorable c then skip_ignorable l' else Some c
  end.

(** Is a capital sigma in final position?  [before] holds the characters
    in front of it, nearest first, [after] those behind it: a cased
    character must come before, and none after, case-ignorable characters
    not counting. *)
Definition final_sigma (before after : list pchar) : bool :=
  match skip_ignorable before with
  | Some c =>
      is_cased c &&
      match skip_ignorable after with
      | Some c' => negb (is_cased c')
      | None => true
      end
  | None => false
  end.

(** The lower case of one character in its context. *)
Definition lower_at (before : list pchar) (c : pchar) (after : list pchar)
  : list pchar :=
  match c with
  | Byte b => [Byte b]
  | Char cp =>
      if (cp =? 931)%N
      then [Char (if final_sigma before after then 962 else 963)%N]
      else Char <$> to_lower_full cp
  end.

Fixpoint lower_from (before : list pchar) (l : list pchar) : list pchar :=
  match l with
  | [] => []
  | c :: after => lower_at before c after ++ lower_from (c :: before) after
  end.

(** The title case of one character. *)
Definition title_char (c : pchar) : list pchar :=
  match c with
  | Byte b => [Byte b]
  | Char cp => Char <$> to_title_full cp
  end.

(** *** White space at the ends *)

Fixpoint lstrip (l : list pchar) : list pchar :=
  match l with
  | [] => []
  | c :: l' => if is_space c then lstrip l' else l
  end.

Fixpoint rstrip (l : list pchar) : list pchar :=
  match l with
  | [] => []
  | c :: l' =>
      match rstrip l' with
      | [] => if is_space c then [] else [c]
      | r => c :: r
      end
  end.

(** A code point of a [str]: below [0x110000]. *)
Definition is_char (c : pchar) : bool :=
  match c with
  | Char cp => (cp <? 1114112)%N
  | Byte _ => false
  end.

End Unicode.

(** ** Python built-ins *)

Module Py.

(** Truth value of a [str]: only the empty string is falsy. *)
Definition truthy (s : string) : bool :=
  match s with
  | EmptyString => false
  | String _ _ => true
  end.

(** [s.replace(a, b)] for one-character [a] and [b]. *)
Fixpoint replace (a b : ascii) (s : string) : string :=
  match s with
  | EmptyString => EmptyString
  | String c s' => String (if decide (c = a) then b else c) (replace a b s')
  end.

(** [s.startswith(p)]. *)
Definition startswith (p s : string) : bool := String.prefix p s.

(** [s.split(sep, 1)] for a one-character separator: the part before the
    first separator and the part after it, or [s] alone. *)
Fixpoint split1 (sep : ascii) (s : string) : list string :=
  match s with
  | EmptyString => [EmptyString]
  | String c s' =>
      if decide (c = sep) then [EmptyString; s']
      else match split1 sep s' with
           | h :: t => String c h :: t
           | [] => [String c EmptyString]
           end
  end.

(** [s.lower()]. *)
Definition lower (s : string) : string :=
  Unicode.encode (Unicode.lower_from [] (Unicode.decode s)).

(** [s.capitalize()]: the first character in title case, the others in
    lower case, each in the context the whole text gives it. *)
Definition capitalize (s : string) : string :=
  match Unicode.decode s with
  | [] => EmptyString
  | c :: after =>
      Unicode.encode (Unicode.title_char c ++ Unicode.lower_from [c] after)
  end.

(** [s.strip()]. *)
Definition strip (s : string) : string :=
  Unicode.encode (Unicode.rstrip (Unicode.lstrip (Unicode.decode s))).

(** [str(n)] / the f-string rendering of an [int]. *)
Definition str_of_int (n : Z) : string := pretty n.

End Py.

(** ** Insertion-ordered dictionaries

    A Python [dict] keeps its keys in insertion order; assigning to a key
    that is present replaces the value in place, assigning to a new key
    appends.  [USERS] is kept in this form because [len(USERS)] and the
    order of creation matter for the generated ids. *)

Section Dict.
Context {V : Type}.

Fixpoint dict_get (d : list (string * V)) (k : string) : option V :=
  match d with
  | [] => None
  | (k', v) :: d' => if decide (k = k') then Some v else dict_get d' k
  end.

(** [k in d]. *)
Definition dict_in (k : string) (d : list (string * V)) : bool :=
  match dict_get d k with
  | Some _ => true
  | None => false
  end.

(** [d[k] = v]. *)
Fixpoint dict_set (d : list (string * V)) (k : string) (v : V) : list (string * V) :=
  match d with
  | [] => [(k, v)]
  | (k', v') :: d' =>
      if decide (k = k') then (k, v) :: d' else (k', v') :: dict_set d' k v
  end.

End Dict.

(** ** Data model *)

(** A user record: the inner dictionary with keys ["id"], ["email"],
    ["name"] and ["plan"]. *)
Record User := mkUser {
  user_id : string;
  user_email : string;
  user_name : string;
  user_plan : string
}.

(** [USERS[email]["plan"] = p]: the only in-place update of a record. *)
Definition set_plan (p : string) (u : User) : User :=
  {| user_id := user_id u; user_email := user_email u;
     user_name := user_name u; user_plan := p |}.

Record PlanDesc := mkPlan {
  plan_id : string;
  plan_name : string;
  plan_desc : string;
  plan_price : string
}.

Definition PLANS : list PlanDesc :=
  [ mkPlan "free" "Free" "Basic chat, limited usage" "₺0";
    mkPlan "plus" "Plus" "Faster replies, longer context" "₺199/ay";
    mkPlan "pro" "Pro" "Priority latency, enterprise features" "₺499/ay" ].

(** The two module-level dictionaries. *)
Record Stores := mkStores {
  USERS : list (string * User);
  TOKENS : gmap string string
}.

Definition empty_stores : Stores := mkStores [] ∅.

(** Request bodies (the pydantic models). *)
Record RegisterIn := mkRegisterIn {
  reg_email : string;
  reg_password : string;
  reg_name : string
}.

Record LoginIn := mkLoginIn {
  login_email : string;
  login_password : string
}.

Record ChatIn := mkChatIn {
  chat_message : string;
  chat_persona : option string
}.

Record PurchaseIn := mkPurchaseIn {
  purchase_plan : string
}.

(** Response bodies; every one of them carries ["ok": True] except the
    health report. *)
Inductive Body :=
| HealthBody (status service : string) (ts : Z)
| AuthBody (token : string) (user : User)
| UserBody (user : User)
| PlansBody (plans : list PlanDesc)
| ChatBody (sender reply plan : string).

(** Exceptions a handler can raise. *)
Inductive Exn :=
| HTTPException (status_code : Z) (detail : string)
| KeyError (key : string)
| IndexError.

Inductive Result (A : Type) :=
| Ok (a : A)
| Raise (e : Exn).
Arguments Ok {A} a.
Arguments Raise {A} e.

(** ** The handler monad: state passing over [Stores] with exceptions.
    A raised exception keeps the stores as they are at that point: Python
    rolls nothing back. *)

Definition M (A : Type) : Type := Stores → Result A * Stores.

Definition ret {A} (a : A) : M A := λ st, (Ok a, st).

Definition raise {A} (e : Exn) : M A := λ st, (Raise e, st).

Definition bind {A B} (m : M A) (f : A → M B) : M B :=
  λ st, match m st with
        | (Ok a, st') => f a st'
        | (Raise e, st') => (Raise e, st')
        end.

Notation "'let*' x ':=' m 'in' k" := (bind m (λ x, k))
  (at level 10, x name, m at level 100, k at level 200, only parsing).

(** [k in USERS]. *)
Definition users_contains (k : string) : M bool :=
  λ st, (Ok (dict_in k (USERS st)), st).

(** [len(USERS)]. *)
Definition users_len : M nat := λ st, (Ok (length (USERS st)), st).

(** [USERS[k]], raising [KeyError] on a missing key. *)
Definition users_getitem (k : string) : M User :=
  λ st, match dict_get (USERS st) k with
        | Some u => (Ok u, st)
        | None => (Raise (KeyError k), st)
        end.

(** [USERS[k] = u]. *)
Definition users_setitem (k : string) (u : User) : M unit :=
  λ st, (Ok tt, mkStores (dict_set (USERS st) k u) (TOKENS st)).

(** [TOKENS.get(t)]. *)
Definition tokens_get (t : string) : M (option string) :=
  λ st, (Ok (TOKENS st !! t), st).

(** [TOKENS[t] = e]. *)
Definition tokens_setitem (t e : string) : M unit :=
  λ st, (Ok tt, mkStores (USERS st) (<[t := e]> (TOKENS st))).

(** ** Helper functions of [app.py] *)

(** The token text built by [mk_token] from the clock reading
    [int(time.time() * 1000)] and the email. *)
Definition token_text (now_ms : Z) (email : string) : string :=
  "demo_" +:+ Py.str_of_int now_ms +:+ "_" +:+ Py.replace "@" "_" email.

Definition mk_token (now_ms : Z) (email : string) : M string :=
  let token := token_text now_ms email in
  let* _ := tokens_setitem token email in
  ret token.

Definition get_email_from_token (authorization : option string) : M string :=
  match authorization with
  | None => raise (HTTPException 401 "Missing or invalid token")
  | Some a =>
      if negb (Py.truthy a) || negb (Py.startswith "Bearer " a)
      then raise (HTTPException 401 "Missing or invalid token")
      else
        match Py.split1 " " a !! 1%nat with
        | None => raise IndexError
        | Some token =>
            let* email := tokens_get token in
            match email with
            | None => raise (HTTPException 401 "Invalid token")
            | Some e =>
                if negb (Py.truthy e)
                then raise (HTTPException 401 "Invalid token")
                else ret e
            end
        end
  end.

(** ** Endpoints *)

(** [GET /health]; [now_s] is the clock reading [int(time.time())]. *)
Definition health (now_s : Z) : M Body :=
  ret (HealthBody "ok" "arkadasai-demo-api" now_s).

(** The id given to a record created while [USERS] holds [n] entries. *)
Definition fresh_id (n : nat) : string :=
  "user_" +:+ Py.str_of_int (Z.of_nat n + 1).

(** [POST /auth/register]; [now_ms] is the clock reading taken inside
    [mk_token]. *)
Definition register (now_ms : Z) (data : RegisterIn) : M Body :=
  let* present := users_contains (reg_email data) in
  if present then raise (HTTPException 409 "User already exists")
  else
    let* n := users_len in
    let* _ := users_setitem (reg_email data)
                (mkUser (fresh_id n) (reg_email data) (reg_name data) "Free") in
    let* token := mk_token now_ms (reg_email data) in
    let* user := users_getitem (reg_email data) in
    ret (AuthBody token user).

(** [POST /auth/login]. *)
Definition login (now_ms : Z) (data : LoginIn) : M Body :=
  let* present := users_contains (login_email data) in
  let* _ :=
    (if negb present then
       let* n := users_len in
       users_setitem (login_email data)
         (mkUser (fresh_id n) (login_email data) "Guest" "Free")
     else ret tt) in
  let* token := mk_token now_ms (login_email data) in
  let* user := users_getitem (login_email data) in
  ret (AuthBody token user).

(** [GET /me]. *)
Definition me (authorization : option string) : M Body :=
  let* email := get_email_from_token authorization in
  let* user := users_getitem email in
  ret (UserBody user).

(** [GET /plans]. *)
Definition get_plans : M Body := ret (PlansBody PLANS).

(** [POST /chat/send] is a coroutine with one suspension point, the
    [await asyncio.sleep(1.5)].  What it holds across the suspension are
    its two local variables. *)
Record ChatFrame := mkChatFrame {
  frame_email : string;
  frame_persona : string
}.

(** [payload.persona or "Arkadaş"]. *)
Definition persona_or_default (persona : option string) : string :=
  match persona with
  | Some p => if Py.truthy p then p else "Arkadaş"
  | None => "Arkadaş"
  end.

(** The part of [chat_send] that runs before the [await]. *)
Definition chat_send_start (payload : ChatIn) (authorization : option string)
  : M ChatFrame :=
  let* email := get_email_from_token authorization in
  let persona := Py.lower (persona_or_default (chat_persona payload)) in
  ret (mkChatFrame email persona).

Definition reply_text (persona : string) : string :=
  Py.capitalize persona +:+ " modu: Mesajını aldım — kısa demo yanıt.".

(** The part of [chat_send] that runs after the [await]. *)
Definition chat_send_resume (fr : ChatFrame) : M Body :=
  let reply := reply_text (frame_persona fr) in
  let* user := users_getitem (frame_email fr) in
  ret (ChatBody "assistant" reply (user_plan user)).

(** [POST /purchase/confirm]. *)
Definition purchase_confirm (data : PurchaseIn) (authorization : option string)
  : M Body :=
  let* email := get_email_from_token authorization in
  let plan_lower := Py.lower (Py.strip (purchase_plan data)) in
  if negb (bool_decide (plan_lower = "plus") || bool_decide (plan_lower = "pro"))
  then raise (HTTPException 400 "plan must be Plus or Pro")
  else
    let* user := users_getitem email in
    let* _ := users_setitem email
                (set_plan (if bool_decide (plan_lower = "plus") then "Plus" else "Pro") user) in
    let* user' := users_getitem email in
    ret (UserBody user').

(** ** The event loop

    Handlers without an [await] run to completion once scheduled; a
    [chat_send] runs up to its [await], is parked, and is resumed at some
    later turn of the loop, with any number of other requests handled in
    between. *)

Record World := mkWorld {
  stores : Stores;
  parked : list ChatFrame
}.

Definition init_world : World := mkWorld empty_stores [].

Inductive Event :=
| EvHealth (now_s : Z)
| EvRegister (now_ms : Z) (data : RegisterIn)
| EvLogin (now_ms : Z) (data : LoginIn)
| EvMe (authorization : option string)
| EvPlans
| EvChatStart (payload : ChatIn) (authorization : option string)
| EvChatResume (i : nat)
| EvPurchase (data : PurchaseIn) (authorization : option string).

(** What a turn of the loop sends back: a response, an error, or nothing
    yet (a coroutine was parked, or there was none to resume). *)
Inductive Output :=
| Response (b : Body)
| Failure (e : Exn)
| NoOutput.

Definition output_of (r : Result Body) : Output :=
  match r with
  | Ok b => Response b
  | Raise e => Failure e
  end.

Definition lift (m : M Body) (w : World) : Output * World :=
  let '(r, st) := m (stores w) in (output_of r, mkWorld st (parked w)).

Definition step (w : World) (ev : Event) : Output * World :=
  match ev with
  | EvHealth now_s => lift (health now_s) w
  | EvRegister now_ms data => lift (register now_ms data) w
  | EvLogin now_ms data => lift (login now_ms data) w
  | EvMe authorization => lift (me authorization) w
  | EvPlans => lift get_plans w
  | EvChatStart payload authorization =>
      match chat_send_start payload authorization (stores w) with
      | (Ok fr, st) => (NoOutput, mkWorld st (parked w ++ [fr]))
      | (Raise e, st) => (Failure e, mkWorld st (parked w))
      end
  | EvChatResume i =>
      match parked w !! i with
      | Some fr =>
          let '(r, st) := chat_send_resume fr (stores w) in
          (output_of r, mkWorld st (delete i (parked w)))
      | None => (NoOutput, w)
      end
  | EvPurchase data authorization => lift (purchase_confirm data authorization) w
  end.

(** Running a schedule from a world: the outputs, oldest first, and the
    world reached. *)
Fixpoint run (w : World) (evs : list Event) : list Output * World :=
  match evs with
  | [] => ([], w)
  | ev :: evs' =>
      let '(o, w') := step w ev in
      let '(os, w'') := run w' evs' in
      (o :: os, w'')
  end.

(** ** Notions used to state the properties *)

(** What follows the prefix [p] in [s], if [s] starts with it. *)
Fixpoint after_prefix (p s : string) : option string :=
  match p, s with
  | EmptyString, _ => Some s
  | String a p', String b s' =>
      if decide (a = b) then after_prefix p' s' else None
  | String _ _, EmptyString => None
  end.

(** The token carried by an [Authorization] header: what follows the
    literal prefix ["Bearer "], when the header is present and has it. *)
Definition bearer_token (authorization : option string) : option string :=
  authorization ≫= after_prefix "Bearer ".

(** Does the character occur in the string? *)
Fixpoint has_char (c : ascii) (s : string) : bool :=
  match s with
  | EmptyString => false
  | String c' s' => bool_decide (c' = c) || has_char c s'
  end.

(** The ids held by [USERS], in insertion order. *)
Definition user_ids (st : Stores) : list string := user_id <$> (USERS st).*2.

(** ["user_1"], ..., ["user_n"]. *)
Definition sequential_ids (n : nat) : list string :=
  (λ i : nat, "user_" +:+ Py.str_of_int (Z.of_nat i)) <$> seq 1 n.

(** The events whose handler can call [mk_token], with the clock reading
    and the email it would be called with. *)
Definition issue_of (ev : Event) : option (Z * string) :=
  match ev with
  | EvRegister now_ms data => Some (now_ms, reg_email data)
  | EvLogin now_ms data => Some (now_ms, login_email data)
  | _ => None
  end.

(** The clock readings at which a schedule can have called [mk_token]. *)
Definition issue_times (evs : list Event) : list Z := fst <$> omap issue_of evs.

(** The four ways a turn of the loop can leave the stores: untouched; a
    record created and a token issued for it; a token issued for a record
    that exists; the plan of the caller's record overwritten. *)
Inductive effect (st : Stores) : Event → Stores → Prop :=
| eff_none ev : effect st ev st
| eff_create ev now_ms email u :
    issue_of ev = Some (now_ms, email) →
    dict_get (USERS st) email = None →
    user_id u = fresh_id (length (USERS st)) →
    effect st ev
      (mkStores (USERS st ++ [(email, u)])
         (<[token_text now_ms email := email]> (TOKENS st)))
| eff_issue ev now_ms email :
    issue_of ev = Some (now_ms, email) →
    is_Some (dict_get (USERS st) email) →
    effect st ev
      (mkStores (USERS st) (<[token_text now_ms email := email]> (TOKENS st)))
| eff_plan data authorization email u p :
    get_email_from_token authorization st = (Ok email, st) →
    dict_get (USERS st) email = Some u →
    effect st (EvPurchase data authorization)
      (mkStores (dict_set (USERS st) email (set_plan p u)) (TOKENS st)).

(** Every email held by [TOKENS] is a key of [USERS]. *)
Definition tokens_known (st : Stores) : Prop :=
  ∀ token email, TOKENS st !! token = Some email → is_Some (dict_get (USERS st) email).

(** Every parked [chat_send] holds the email of a key of [USERS]. *)
Definition parked_known (w : World) : Prop :=
  ∀ fr, fr ∈ parked w → is_Some (dict_get (USERS (stores w)) (frame_email fr)).

(** The reply as the specification words it: the persona lower-cased, its
    first character capitalized, put in front of the fixed text. *)
Definition capitalize_first (s : string) : string :=
  match Unicode.decode s with
  | [] => EmptyString
  | c :: after => Unicode.encode (Unicode.title_char c ++ after)
  end.

(** A representation that stands for a [str]: every byte of it belongs to
    a code point. *)
Definition well_formed (s : string) : bool :=
  forallb Unicode.is_char (Unicode.decode s).

(** A character that lower-casing leaves as it is, wherever it stands. *)
Definition lower_stable (c : Unicode.pchar) : bool :=
  match c with
  | Unicode.Char cp =>
      (cp <? 1114112)%N && negb (cp =? 931)%N &&
      bool_decide (Unicode.to_lower_full cp = [cp])
  | Unicode.Byte _ => false
  end.

Definition spec_reply (p : string) : string :=
  capitalize_first (Py.lower p) +:+ " modu: Mesajını aldım — kısa demo yanıt.".

(** An authenticated [/chat/send] with the given persona field answers
    with the given reply: whatever the message, the coroutine is parked
    without touching the stores, and when it is resumed, over whatever the
    stores have become by then, it answers with that reply and with the
    plan the caller's record holds at that moment. *)
Definition chat_reply_is (persona : option string) (reply : string) : Prop :=
  ∀ message authorization st email st' u',
    get_email_from_token authorization st = (Ok email, st) →
    dict_get (USERS st') email = Some u' →
    ∃ fr,
      chat_send_start (mkChatIn message persona) authorization st = (Ok fr, st) ∧
      chat_send_resume fr st' =
        (Ok (ChatBody "assistant" reply (user_plan u')), st').

(** What a turn of the loop writes, handler by handler: nothing; the
    record and token of a registration; the record and token of a first
    login; the token of a later login; the plan of a purchase. *)
Inductive writes (st : Stores) : Event → Stores → Prop :=
| wr_none ev : writes st ev st
| wr_register now_ms data :
    dict_get (USERS st) (reg_email data) = None →
    writes st (EvRegister now_ms data)
      (mkStores
         (USERS st ++ [(reg_email data,
            mkUser (fresh_id (length (USERS st))) (reg_email data)
              (reg_name data) "Free")])
         (<[token_text now_ms (reg_email data) := reg_email data]> (TOKENS st)))
| wr_login_new now_ms data :
    dict_get (USERS st) (login_email data) = None →
    writes st (EvLogin now_ms data)
      (mkStores
         (USERS st ++ [(login_email data,
            mkUser (fresh_id (length (USERS st))) (login_email data)
              "Guest" "Free")])
         (<[token_text now_ms (login_email data) := login_email data]> (TOKENS st)))
| wr_login_old now_ms data u :
    dict_get (USERS st) (login_email data) = Some u →
    writes st (EvLogin now_ms data)
      (mkStores (USERS st)
         (<[token_text now_ms (login_email data) := login_email data]> (TOKENS st)))
| wr_purchase data authorization email u p :
    get_email_from_token authorization st = (Ok email, st) →
    dict_get (USERS st) email = Some u →
    p = "Plus" ∨ p = "Pro" →
    writes st (EvPurchase data authorization)
      (mkStores (dict_set (USERS st) email (set_plan p u)) (TOKENS st)).

(** The records of [USERS] are well formed: no key twice, every record
    under its own email, every plan one of the three names. *)
Definition users_wf (st : Stores) : Prop :=
  NoDup (USERS st).*1 ∧
  ∀ email u, dict_get (USERS st) email = Some u →
    user_email u = email ∧
    (user_plan u = "Free" ∨ user_plan u = "Plus" ∨ user_plan u = "Pro").

(** The events whose handler holds no assignment to either store. *)
Definition read_only (ev : Event) : bool :=
  match ev with
  | EvHealth _ | EvMe _ | EvPlans | EvChatStart _ _ | EvChatResume _ => true
  | EvRegister _ _ | EvLogin _ _ | EvPurchase _ _ => false
  end.

(** * Properties *)

(** ** Dictionaries *)

Section DictFacts.
Context {V : Type}.
Implicit Types (d : list (string * V)) (k : string) (v : V).

Lemma dict_in_true d k : dict_in k d = true ↔ is_Some (dict_get d k).
Proof.
  unfold dict_in. destruct (dict_get d k) as [v|]; split; intros H.
  - by exists v.
  - done.
  - done.
  - by destruct H.
Qed.

Lemma dict_in_false d k : dict_in k d = false ↔ dict_get d k = None.
Proof. unfold dict_in. by destruct (dict_get d k). Qed.

Lemma dict_get_set_eq d k v : dict_get (dict_set d k v) k = Some v.
Proof.
  induction d as [|[k' v'] d IH]; simpl.
  - by rewrite decide_True.
  - destruct (decide (k = k')) as [->|Hne]; simpl.
    + by rewrite decide_True.
    + by rewrite decide_False.
Qed.

Lemma dict_get_set_ne d k k' v :
  k ≠ k' → dict_get (dict_set d k v) k' = dict_get d k'.
Proof.
  intros Hne. induction d as [|[k0 v0] d IH]; simpl.
  - by rewrite decide_False.
  - destruct (decide (k = k0)) as [->|Hk]; simpl.
    + by rewrite !decide_False.
    + by rewrite IH.
Qed.

(** Assigning to a new key appends at the end. *)
Lemma dict_set_new d k v : dict_get d k = None → dict_set d k v = d ++ [(k, v)].
Proof.
  induction d as [|[k' v'] d IH]; simpl; [done|].
  destruct (decide (k = k')); [done|]. intros H. by rewrite IH.
Qed.

(** Assigning to a present key keeps every key at its position. *)
Lemma dict_set_present_keys d k v :
  is_Some (dict_get d k) → (dict_set d k v).*1 = d.*1.
Proof.
  induction d as [|[k' v'] d IH]; simpl.
  - by intros [? ?].
  - destruct (decide (k = k')) as [->|Hne]; [done|].
    intros H. rewrite !fmap_cons. f_equal. by apply IH.
Qed.

(** Replacing the value of a present key by one with the same image under
    [g] leaves the images under [g] as they are, position by position. *)
Lemma dict_set_present_proj {B} (g : V → B) d k v v0 :
  dict_get d k = Some v0 → g v = g v0 →
  g <$> (dict_set d k v).*2 = g <$> d.*2.
Proof.
  intros Hget Hg. induction d as [|[k' v'] d IH]; simpl in *; [done|].
  destruct (decide (k = k')) as [->|Hne]; rewrite !fmap_cons; simpl.
  - simplify_eq. by rewrite Hg.
  - f_equal. by apply IH.
Qed.

Lemma dict_get_app_new d k v : dict_get d k = None → dict_get (d ++ [(k, v)]) k = Some v.
Proof. intros H. rewrite <-dict_set_new by done. apply dict_get_set_eq. Qed.

End DictFacts.

(** ** Strings *)

Lemma after_prefix_Some p s t : after_prefix p s = Some t ↔ s = p +:+ t.
Proof.
  revert s. induction p as [|a p IH]; intros s.
  - change ("" +:+ t) with t. simpl. split; congruence.
  - change (String a p +:+ t) with (String a (p +:+ t)).
    destruct s as [|b s]; simpl; [done|].
    destruct (decide (a = b)) as [->|Hne].
    + rewrite IH. split; congruence.
    + split; [done|]. intros [= ? ?]. congruence.
Qed.

Lemma startswith_after_prefix p s :
  Py.startswith p s = match after_prefix p s with Some _ => true | None => false end.
Proof.
  unfold Py.startswith. revert s. induction p as [|a p IH]; intros s; simpl.
  - by destruct s.
  - destruct s as [|b s]; [done|]. simpl.
    destruct (ascii_dec a b) as [Heq|Hne].
    + rewrite decide_True by done. apply IH.
    + by rewrite decide_False.
Qed.

Lemma split1_bearer t : Py.split1 " " ("Bearer " +:+ t) = ["Bearer"; t].
Proof. reflexivity. Qed.

(** ** Token resolution *)

Ltac unfold_m :=
  unfold bind, ret, raise, users_contains, users_len, users_getitem,
    users_setitem, tokens_get, tokens_setitem in *.

(** [get_email_from_token] never writes, and its result is decided by
    the bearer token and the entry [TOKENS] holds for it. *)
Lemma get_email_from_token_spec authorization st :
  get_email_from_token authorization st =
    (match bearer_token authorization with
     | None => Raise (HTTPException 401 "Missing or invalid token")
     | Some token =>
         match TOKENS st !! token with
         | Some (String c e) => Ok (String c e)
         | _ => Raise (HTTPException 401 "Invalid token")
         end
     end, st).
Proof.
  destruct authorization as [a|]; [|done].
  unfold get_email_from_token, bearer_token.
  change (Some a ≫= after_prefix "Bearer ") with (after_prefix "Bearer " a).
  rewrite startswith_after_prefix.
  destruct (after_prefix "Bearer " a) as [t|] eqn:Hp.
  - apply after_prefix_Some in Hp. subst a.
    change (Py.truthy ("Bearer " +:+ t)) with true.
    rewrite split1_bearer. cbn [negb orb lookup list_lookup].
    unfold_m. by destruct (TOKENS st !! t) as [[|c' e]|].
  - by rewrite orb_true_r.
Qed.

Lemma get_email_from_token_stores authorization st r st' :
  get_email_from_token authorization st = (r, st') → st' = st.
Proof. rewrite get_email_from_token_spec. by intros [= _ <-]. Qed.

Lemma get_email_from_token_Ok authorization st email st' :
  get_email_from_token authorization st = (Ok email, st') →
  st' = st ∧ email ≠ "" ∧
  ∃ token, bearer_token authorization = Some token ∧ TOKENS st !! token = Some email.
Proof.
  rewrite get_email_from_token_spec.
  destruct (bearer_token authorization) as [t|]; [|by intros [= ]].
  destruct (TOKENS st !! t) as [[|c e]|] eqn:Ht; intros ?; simplify_eq.
  split; [done|]. split; [done|]. by exists t.
Qed.

(** ** The handlers, one equation each *)

Lemma register_eq now_ms data st :
  register now_ms data st =
    if dict_in (reg_email data) (USERS st)
    then (Raise (HTTPException 409 "User already exists"), st)
    else
      let u := mkUser (fresh_id (length (USERS st))) (reg_email data)
                 (reg_name data) "Free" in
      (Ok (AuthBody (token_text now_ms (reg_email data)) u),
       mkStores (dict_set (USERS st) (reg_email data) u)
         (<[token_text now_ms (reg_email data) := reg_email data]> (TOKENS st))).
Proof.
  unfold register, mk_token. unfold_m. simpl.
  destruct (dict_in (reg_email data) (USERS st)); [done|].
  simpl. by rewrite dict_get_set_eq.
Qed.

Lemma login_eq now_ms data st :
  login now_ms data st =
    match dict_get (USERS st) (login_email data) with
    | Some u =>
        (Ok (AuthBody (token_text now_ms (login_email data)) u),
         mkStores (USERS st)
           (<[token_text now_ms (login_email data) := login_email data]> (TOKENS st)))
    | None =>
        let u := mkUser (fresh_id (length (USERS st))) (login_email data)
                   "Guest" "Free" in
        (Ok (AuthBody (token_text now_ms (login_email data)) u),
         mkStores (dict_set (USERS st) (login_email data) u)
           (<[token_text now_ms (login_email data) := login_email data]> (TOKENS st)))
    end.
Proof.
  unfold login, mk_token. unfold_m. unfold dict_in. simpl.
  destruct (dict_get (USERS st) (login_email data)) as [u|] eqn:Hu; simpl.
  - by rewrite Hu.
  - by rewrite dict_get_set_eq.
Qed.

Lemma me_eq authorization st :
  me authorization st =
    match get_email_from_token authorization st with
    | (Ok email, _) =>
        match dict_get (USERS st) email with
        | Some u => (Ok (UserBody u), st)
        | None => (Raise (KeyError email), st)
        end
    | (Raise e, _) => (Raise e, st)
    end.
Proof.
  unfold me. unfold bind at 1.
  destruct (get_email_from_token authorization st) as [[email|e] st'] eqn:Hr;
    apply get_email_from_token_stores in Hr as ->; [|done].
  unfold_m. by destruct (dict_get (USERS st) email).
Qed.

Lemma chat_send_start_eq payload authorization st :
  chat_send_start payload authorization st =
    match get_email_from_token authorization st with
    | (Ok email, _) =>
        (Ok (mkChatFrame email (Py.lower (persona_or_default (chat_persona payload)))), st)
    | (Raise e, _) => (Raise e, st)
    end.
Proof.
  unfold chat_send_start. unfold bind at 1.
  by destruct (get_email_from_token authorization st) as [[email|e] st'] eqn:Hr;
    apply get_email_from_token_stores in Hr as ->.
Qed.

Lemma chat_send_resume_eq fr st :
  chat_send_resume fr st =
    match dict_get (USERS st) (frame_email fr) with
    | Some u => (Ok (ChatBody "assistant" (reply_text (frame_persona fr)) (user_plan u)), st)
    | None => (Raise (KeyError (frame_email fr)), st)
    end.
Proof.
  unfold chat_send_resume. unfold_m.
  by destruct (dict_get (USERS st) (frame_email fr)).
Qed.

Lemma purchase_confirm_eq data authorization st :
  purchase_confirm data authorization st =
    match get_email_from_token authorization st with
    | (Ok email, _) =>
        let plan_lower := Py.lower (Py.strip (purchase_plan data)) in
        if bool_decide (plan_lower = "plus") || bool_decide (plan_lower = "pro")
        then
          match dict_get (USERS st) email with
          | Some u =>
              let u' := set_plan (if bool_decide (plan_lower = "plus")
                                  then "Plus" else "Pro") u in
              (Ok (UserBody u'), mkStores (dict_set (USERS st) email u') (TOKENS st))
          | None => (Raise (KeyError email), st)
          end
        else (Raise (HTTPException 400 "plan must be Plus or Pro"), st)
    | (Raise e, _) => (Raise e, st)
    end.
Proof.
  unfold purchase_confirm. unfold bind at 1.
  destruct (get_email_from_token authorization st) as [[email|e] st'] eqn:Hr;
    apply get_email_from_token_stores in Hr as ->; [|done].
  simpl.
  destruct (bool_decide _ || bool_decide _); simpl; [|done].
  unfold_m. destruct (dict_get (USERS st) email) as [u|]; [|done].
  simpl. by rewrite dict_get_set_eq.
Qed.

(** ** One turn of the loop *)

Lemma step_effect w ev : effect (stores w) ev (stores (step w ev).2).
Proof.
  destruct w as [st pk], ev as [now_s|now_ms data|now_ms data|authorization|
    |payload authorization|i|data authorization]; simpl; unfold lift; simpl.
  - apply eff_none.
  - rewrite register_eq.
    destruct (dict_in (reg_email data) (USERS st)) eqn:Hin; simpl.
    + apply eff_none.
    + apply dict_in_false in Hin. rewrite dict_set_new by done.
      by eapply eff_create.
  - rewrite login_eq.
    destruct (dict_get (USERS st) (login_email data)) as [u|] eqn:Hu; simpl.
    + by eapply eff_issue.
    + rewrite dict_set_new by done. by eapply eff_create.
  - rewrite me_eq, get_email_from_token_spec.
    repeat case_match; simplify_eq/=; apply eff_none.
  - apply eff_none.
  - rewrite chat_send_start_eq, get_email_from_token_spec.
    repeat case_match; simplify_eq/=; apply eff_none.
  - destruct (pk !! i) as [fr|]; simpl; [|apply eff_none].
    rewrite chat_send_resume_eq.
    destruct (dict_get (USERS st) (frame_email fr)); simpl; apply eff_none.
  - rewrite purchase_confirm_eq.
    destruct (get_email_from_token authorization st) as [[email|e] st'] eqn:Hr;
      [|apply eff_none].
    pose proof Hr as Hst. apply get_email_from_token_stores in Hst as ->.
    simpl. destruct (bool_decide _ || bool_decide _); [|apply eff_none].
    destruct (dict_get (USERS st) email) as [u|] eqn:Hu; simpl; [|apply eff_none].
    by eapply eff_plan.
Qed.

Lemma effect_users_mono st ev st' email :
  effect st ev st' →
  is_Some (dict_get (USERS st) email) → is_Some (dict_get (USERS st') email).
Proof.
  intros Heff [u Hu]. destruct Heff as [ev' | ev' now_ms e u0 _ Hnew _ |
    ev' now_ms e _ _ | data authorization e u0 p _ Hu0]; simpl; try by exists u.
  - destruct (decide (e = email)) as [->|Hne]; [congruence|].
    rewrite <-dict_set_new by done. rewrite dict_get_set_ne by done. by exists u.
  - destruct (decide (e = email)) as [->|Hne].
    + rewrite dict_get_set_eq. by eexists.
    + rewrite dict_get_set_ne by done. by exists u.
Qed.

Lemma effect_tokens st ev st' :
  effect st ev st' →
  TOKENS st' = TOKENS st ∨
  ∃ now_ms email, issue_of ev = Some (now_ms, email) ∧
    TOKENS st' = <[token_text now_ms email := email]> (TOKENS st) ∧
    is_Some (dict_get (USERS st') email).
Proof.
  intros [ev' | ev' now_ms e u Hev Hnew _ | ev' now_ms e Hev Hu |
    data authorization e u p _ _]; simpl; auto.
  - right. exists now_ms, e. split_and!; [done..|].
    rewrite dict_get_app_new by done. by eexists.
  - right. by exists now_ms, e.
Qed.

Lemma step_parked w ev :
  parked (step w ev).2 = parked w ∨
  (∃ fr token, parked (step w ev).2 = parked w ++ [fr] ∧
     TOKENS (stores w) !! token = Some (frame_email fr)) ∨
  (∃ i, parked (step w ev).2 = delete i (parked w)).
Proof.
  destruct w as [st pk], ev as [now_s|now_ms data|now_ms data|authorization|
    |payload authorization|i|data authorization]; simpl; unfold lift; simpl;
    try (by left; repeat case_match).
  - rewrite chat_send_start_eq.
    destruct (get_email_from_token authorization st) as [[email|e] st'] eqn:Hr;
      simpl; [|by left].
    apply get_email_from_token_Ok in Hr as (_ & _ & token & _ & Htok).
    right; left. by eexists _, token.
  - destruct (pk !! i) as [fr|]; [|by left].
    case_match. right; right. by exists i.
Qed.

(** ** Schedules *)

Lemma run_app w evs1 evs2 :
  (run w (evs1 ++ evs2)).2 = (run (run w evs1).2 evs2).2.
Proof.
  revert w. induction evs1 as [|ev evs1 IH]; intros w; simpl; [done|].
  destruct (step w ev) as [o w'] eqn:Hs. specialize (IH w').
  destruct (run w' (evs1 ++ evs2)) as [os w''] eqn:Hr1.
  destruct (run w' evs1) as [os1 w1] eqn:Hr2. simpl in *. done.
Qed.

Lemma run_snoc w evs ev :
  (run w (evs ++ [ev])).2 = (step (run w evs).2 ev).2.
Proof.
  rewrite run_app. simpl. by destruct (step (run w evs).2 ev).
Qed.

(** Induction over the worlds a schedule reaches from the initial one. *)
Lemma schedule_ind (P : list Event → World → Prop) :
  P [] init_world →
  (∀ evs ev w, P evs w → P (evs ++ [ev]) (step w ev).2) →
  ∀ evs, P evs (run init_world evs).2.
Proof.
  intros H0 Hstep evs. induction evs as [|ev evs IH] using rev_ind; [done|].
  rewrite run_snoc. by apply Hstep.
Qed.

(** ** Tokens point to users *)

Lemma step_known w ev :
  tokens_known (stores w) → parked_known w →
  tokens_known (stores (step w ev).2) ∧ parked_known (step w ev).2.
Proof.
  intros Htok Hpk. pose proof (step_effect w ev) as Heff.
  assert (tokens_known (stores (step w ev).2)) as Htok'.
  { intros token email. destruct (effect_tokens _ _ _ Heff)
      as [->|(now_ms & e & _ & -> & He)].
    - intros Hx. eapply effect_users_mono; eauto.
    - rewrite lookup_insert. case_decide.
      + by intros [= <-].
      + intros Hx. eapply effect_users_mono; eauto. }
  split; [done|]. intros fr.
  destruct (step_parked w ev) as [->|[(fr' & token & -> & Hfr)|(i & ->)]].
  - intros Hx. eapply effect_users_mono; eauto.
  - rewrite elem_of_app, list_elem_of_singleton. intros [Hx| ->].
    + eapply effect_users_mono; eauto.
    + eapply effect_users_mono; eauto.
  - intros Hx. eapply effect_users_mono; eauto.
    apply Hpk. by eapply list_elem_of_delete_inv.
Qed.

Lemma run_known evs :
  tokens_known (stores (run init_world evs).2) ∧ parked_known (run init_world evs).2.
Proof.
  apply (schedule_ind (λ _ w, tokens_known (stores w) ∧ parked_known w)).
  - split.
    + intros token email. simpl. by rewrite lookup_empty.
    + intros fr. simpl. by rewrite elem_of_nil.
  - intros _ ev w [??]. by apply step_known.
Qed.

(** In a world where tokens point to users, no turn of the loop ends in
    a [KeyError]. *)
Lemma step_no_KeyError w ev key :
  tokens_known (stores w) → parked_known w →
  (step w ev).1 ≠ Failure (KeyError key).
Proof.
  unfold tokens_known, parked_known. intros Htok Hpk.
  destruct w as [st pk], ev as [now_s|now_ms data|now_ms data|authorization|
    |payload authorization|i|data authorization]; simpl in *; unfold lift; simpl;
    try done.
  - rewrite register_eq. by destruct (dict_in _ _).
  - rewrite login_eq. by destruct (dict_get _ _).
  - rewrite me_eq.
    destruct (get_email_from_token authorization st) as [[email|e] st'] eqn:Hr; simpl.
    + apply get_email_from_token_Ok in Hr as (_ & _ & token & _ & Ht).
      by destruct (Htok _ _ Ht) as [u ->].
    + rewrite get_email_from_token_spec in Hr. repeat case_match; by simplify_eq.
  - rewrite chat_send_start_eq, get_email_from_token_spec.
    repeat case_match; by simplify_eq/=.
  - destruct (pk !! i) as [fr|] eqn:Hi; [|done].
    rewrite chat_send_resume_eq.
    destruct (Hpk fr) as [u ->]; [|done]. by eapply list_elem_of_lookup_2.
  - rewrite purchase_confirm_eq.
    destruct (get_email_from_token authorization st) as [[email|e] st'] eqn:Hr; simpl.
    + apply get_email_from_token_Ok in Hr as (_ & _ & token & _ & Ht).
      destruct (Htok _ _ Ht) as [u ->].
      by destruct (bool_decide _ || bool_decide _).
    + rewrite get_email_from_token_spec in Hr. repeat case_match; by simplify_eq.
Qed.

(** C9. In every world a schedule of requests can reach, every email held
    as a value by [TOKENS] is a key of [USERS]; hence no request handled
    there, a resumed [chat_send] included, fails on [USERS[email]]. *)
Theorem tokens_resolve_to_users (evs : list Event) :
  let w := (run init_world evs).2 in
  (∀ token email,
     TOKENS (stores w) !! token = Some email →
     is_Some (dict_get (USERS (stores w)) email)) ∧
  (∀ ev key, (step w ev).1 ≠ Failure (KeyError key)).
Proof.
  destruct (run_known evs) as [Htok Hpk]. split; [exact Htok|].
  intros ev key. by apply step_no_KeyError.
Qed.

Lemma tokens_resolve_to_users_witness :
  is_Some (dict_get
    (USERS (stores (run init_world [EvLogin 1000 (mkLoginIn "a@b.c" "pw")]).2))
    "a@b.c").
Proof.
  apply (proj1 (tokens_resolve_to_users [EvLogin 1000 (mkLoginIn "a@b.c" "pw")])
           "demo_1000_a_b.c" "a@b.c").
  vm_compute. reflexivity.
Defined.

(** ** Sequential ids *)

Lemma sequential_ids_S n : sequential_ids (S n) = sequential_ids n ++ [fresh_id n].
Proof.
  unfold sequential_ids, fresh_id. rewrite seq_S, fmap_app.
  replace (Z.of_nat n + 1) with (Z.of_nat (1 + n)) by lia. done.
Qed.

Lemma sequential_ids_NoDup n : NoDup (sequential_ids n).
Proof.
  apply NoDup_fmap_2; [|apply NoDup_seq].
  intros i j Hij. apply (inj (String.app "user_")) in Hij.
  unfold Py.str_of_int in Hij. apply (inj pretty) in Hij. lia.
Qed.

Lemma dict_set_present_length {V} (d : list (string * V)) k v :
  is_Some (dict_get d k) → length (dict_set d k v) = length d.
Proof.
  intros H. rewrite <-(length_fmap fst), dict_set_present_keys by done.
  by rewrite length_fmap.
Qed.

(** What a turn of the loop does to the sequence of ids: nothing, or one
    more id at the end, the next in the sequence. *)
Lemma effect_user_ids st ev st' :
  effect st ev st' →
  ((USERS st').*1 = (USERS st).*1 ∧ user_ids st' = user_ids st) ∨
  (∃ email u, dict_get (USERS st) email = None ∧
     USERS st' = USERS st ++ [(email, u)] ∧
     user_id u = fresh_id (length (USERS st))).
Proof.
  intros [ev' | ev' now_ms e u Hev Hnew Hid | ev' now_ms e Hev Hu |
    data authorization e u p _ Hu]; simpl; auto.
  - right. by exists e, u.
  - left. split.
    + by apply dict_set_present_keys.
    + unfold user_ids; simpl. by eapply dict_set_present_proj.
Qed.

Lemma effect_sequential st ev st' :
  effect st ev st' →
  user_ids st = sequential_ids (length (USERS st)) →
  user_ids st' = sequential_ids (length (USERS st')).
Proof.
  intros Heff Hids.
  destruct (effect_user_ids _ _ _ Heff) as [[Hk ->]|(e & u & _ & Hu & Hid)].
  - rewrite Hids. f_equal.
    by rewrite <-(length_fmap fst (USERS st')), Hk, length_fmap.
  - unfold user_ids. rewrite Hu, !fmap_app, length_app. simpl.
    rewrite Nat.add_1_r, sequential_ids_S. by rewrite Hid, <-Hids.
Qed.

Lemma run_sequential evs :
  let st := stores (run init_world evs).2 in
  user_ids st = sequential_ids (length (USERS st)).
Proof.
  apply (schedule_ind
    (λ _ w, user_ids (stores w) = sequential_ids (length (USERS (stores w))))).
  - done.
  - intros _ ev w. apply (effect_sequential _ ev), step_effect.
Qed.

(** C2. Whatever the schedule, the ids held by [USERS], read in the order
    the records were created, are ["user_1"], ..., ["user_n"] with no gap
    and no repetition; and a turn of the loop either leaves that sequence
    as it is or adds one record at its end, with the next id, whether the
    record comes from [register] or from [login]. *)
Theorem user_ids_sequential (evs : list Event) :
  let st := stores (run init_world evs).2 in
  user_ids st = sequential_ids (length (USERS st)) ∧
  NoDup (user_ids st) ∧
  ∀ ev,
    let st' := stores (step (run init_world evs).2 ev).2 in
    ((USERS st').*1 = (USERS st).*1 ∧ user_ids st' = user_ids st) ∨
    (∃ email u, dict_get (USERS st) email = None ∧
       USERS st' = USERS st ++ [(email, u)] ∧
       user_id u = "user_" +:+ Py.str_of_int (Z.of_nat (length (USERS st)) + 1)).
Proof.
  intros st. pose proof (run_sequential evs) as Hids. fold st in Hids.
  split_and!.
  - done.
  - rewrite Hids. apply sequential_ids_NoDup.
  - intros ev. apply (effect_user_ids _ ev), step_effect.
Qed.

(** ** Token texts *)

Lemma has_char_pretty_N_go c x s :
  (∀ d, (d < 10)%N → pretty_N_char d ≠ c) →
  has_char c (pretty_N_go x s) = has_char c s.
Proof.
  intros Hc. revert s. induction (N.lt_wf_0 x) as [x _ IH]; intros s.
  destruct (decide (0 < x)%N) as [Hx|Hx].
  - rewrite pretty_N_go_step by done. rewrite IH by (by apply N.div_lt).
    simpl. rewrite bool_decide_eq_false_2; [done|].
    apply Hc. by apply N.mod_lt.
  - assert (x = 0%N) as -> by lia. by rewrite pretty_N_go_0.
Qed.

Lemma pretty_N_char_not_underscore d : (d < 10)%N → pretty_N_char d ≠ "_"%char.
Proof. intros _. unfold pretty_N_char. by repeat case_match. Qed.

(** The decimal rendering of an integer holds no underscore. *)
Lemma str_of_int_no_underscore n : has_char "_" (Py.str_of_int n) = false.
Proof.
  unfold Py.str_of_int, pretty, pretty_Z.
  assert (∀ p : positive, has_char "_" (pretty p) = false) as Hpos.
  { intros p. unfold pretty, pretty_positive, pretty, pretty_N.
    rewrite decide_False by done.
    by rewrite has_char_pretty_N_go by apply pretty_N_char_not_underscore. }
  destruct n as [|p|p]; [done|apply Hpos|].
  change (has_char "_" (String "-" (pretty p)) = false). simpl. apply Hpos.
Qed.

(** Two texts cut at their first [c] agree part by part. *)
Lemma cut_at_first c d1 d2 r1 r2 :
  has_char c d1 = false → has_char c d2 = false →
  d1 +:+ String c r1 = d2 +:+ String c r2 → d1 = d2 ∧ r1 = r2.
Proof.
  revert d2. induction d1 as [|a d1 IH]; intros [|b d2]; simpl.
  - intros _ _ [= ->]. done.
  - intros _ Hb [= <- _]. by rewrite bool_decide_eq_true_2 in Hb.
  - intros Ha _ [= -> _]. by rewrite bool_decide_eq_true_2 in Ha.
  - intros [_ Ha]%orb_false_elim [_ Hb]%orb_false_elim [= -> Heq].
    destruct (IH d2 Ha Hb Heq) as [-> ->]. done.
Qed.

(** Two token texts are the same exactly when they were built at the same
    clock reading from emails with the same sanitized form. *)
Lemma token_text_eq_iff now1 email1 now2 email2 :
  token_text now1 email1 = token_text now2 email2 ↔
  now1 = now2 ∧ Py.replace "@" "_" email1 = Py.replace "@" "_" email2.
Proof.
  unfold token_text. split; [|by intros [-> ->]].
  intros Heq. apply (inj (String.app "demo_")) in Heq.
  apply cut_at_first in Heq as [Hn Hr]; [|apply str_of_int_no_underscore..].
  split; [|done]. by apply (inj pretty) in Hn.
Qed.

(** Every key of [TOKENS] was built at a clock reading of the schedule. *)
Lemma run_token_times evs token :
  is_Some (TOKENS (stores (run init_world evs).2) !! token) →
  ∃ now_ms email, now_ms ∈ issue_times evs ∧ token = token_text now_ms email.
Proof.
  revert token. apply (schedule_ind (λ evs w, ∀ token,
    is_Some (TOKENS (stores w) !! token) →
    ∃ now_ms email, now_ms ∈ issue_times evs ∧ token = token_text now_ms email)).
  - intros token [e He]. simpl in He. by rewrite lookup_empty in He.
  - intros evs' ev w IH token.
    unfold issue_times. rewrite omap_app, fmap_app. fold (issue_times evs').
    destruct (effect_tokens _ _ _ (step_effect w ev))
      as [->|(now_ms & e & Hev & -> & _)].
    + intros (t & e & Ht & ->)%IH. exists t, e. split; [|done].
      apply elem_of_app. by left.
    + rewrite lookup_insert. case_decide as Hd.
      * intros _. exists now_ms, e. split; [|done].
        apply elem_of_app. right. simpl. rewrite Hev. simpl. apply list_elem_of_here.
      * intros (t & e' & Ht & ->)%IH. exists t, e'. split; [|done].
        apply elem_of_app. by left.
Qed.

(** A token built at a clock reading the schedule has not used is new to
    [TOKENS]. *)
Lemma run_token_fresh evs now_ms email :
  now_ms ∉ issue_times evs →
  TOKENS (stores (run init_world evs).2) !! token_text now_ms email = None.
Proof.
  intros Hnew. apply eq_None_not_Some. intros Hs.
  apply run_token_times in Hs as (t & e & Ht & Heq).
  apply token_text_eq_iff in Heq as [-> _]. done.
Qed.

(** ** Token issuance *)

(** C1. [mk_token] does not keep its tokens apart: two logins handled at
    the same clock reading for the distinct emails ["x_y@z.io"] and
    ["x@y_z.io"] are given the same token, and the second issuance remaps
    that token from the first email to the second. *)
Theorem mk_token_collision :
  let first := EvLogin 1000 (mkLoginIn "x_y@z.io" "pw") in
  let second := EvLogin 1000 (mkLoginIn "x@y_z.io" "pw") in
  let token := "demo_1000_x_y_z.io" in
  (run init_world [first; second]).1 =
    [Response (AuthBody token (mkUser "user_1" "x_y@z.io" "Guest" "Free"));
     Response (AuthBody token (mkUser "user_2" "x@y_z.io" "Guest" "Free"))] ∧
  TOKENS (stores (run init_world [first]).2) !! token = Some "x_y@z.io" ∧
  TOKENS (stores (run init_world [first; second]).2) !! token = Some "x@y_z.io".
Proof. vm_compute. done. Qed.

(** ** Token resolution at the empty email *)

(** C4. A token that is a key of [TOKENS] is still refused when the email
    it stands for is the empty string: after a login with email [""], the
    token that login returned is answered with 401 by [/me]. *)
Theorem empty_email_token_rejected :
  let evs := [EvLogin 5 (mkLoginIn "" "pw")] in
  let w := (run init_world evs).2 in
  (run init_world evs).1 =
    [Response (AuthBody "demo_5_" (mkUser "user_1" "" "Guest" "Free"))] ∧
  bearer_token (Some "Bearer demo_5_") = Some "demo_5_" ∧
  TOKENS (stores w) !! "demo_5_" = Some "" ∧
  step w (EvMe (Some "Bearer demo_5_")) =
    (Failure (HTTPException 401 "Invalid token"), w).
Proof. vm_compute. done. Qed.

(** A request whose token does not resolve changes nothing, on each of the
    three authenticated endpoints. *)
Lemma unresolved_no_mutation w authorization e st' :
  get_email_from_token authorization (stores w) = (Raise e, st') →
  step w (EvMe authorization) = (Failure e, w) ∧
  (∀ payload, step w (EvChatStart payload authorization) = (Failure e, w)) ∧
  (∀ data, step w (EvPurchase data authorization) = (Failure e, w)).
Proof.
  intros Hr. destruct w as [st pk]. simpl in *. unfold lift. simpl.
  rewrite me_eq, Hr. split; [done|]. split.
  - intros payload. by rewrite chat_send_start_eq, Hr.
  - intros data. by rewrite purchase_confirm_eq, Hr.
Qed.

(** ** Registration *)

(** C3. [register] answers 409 "User already exists" exactly when the
    email is a key of [USERS], and then leaves both stores as they were;
    for an email that is not a key it succeeds: the record with the
    supplied name and plan ["Free"] is added and a token is issued for the
    email. *)
Theorem register_conflict_iff_present (now_ms : Z) (data : RegisterIn) (st : Stores) :
  let email := reg_email data in
  let token := token_text now_ms email in
  let u := mkUser ("user_" +:+ Py.str_of_int (Z.of_nat (length (USERS st)) + 1))
             email (reg_name data) "Free" in
  (is_Some (dict_get (USERS st) email) →
     register now_ms data st =
       (Raise (HTTPException 409 "User already exists"), st)) ∧
  (dict_get (USERS st) email = None →
     register now_ms data st =
       (Ok (AuthBody token u),
        mkStores (USERS st ++ [(email, u)]) (<[token := email]> (TOKENS st))) ∧
     dict_get (USERS st ++ [(email, u)]) email = Some u ∧
     <[token := email]> (TOKENS st) !! token = Some email).
Proof.
  intros email token u. rewrite register_eq. fold email token. split.
  - intros Hin. apply dict_in_true in Hin. by rewrite Hin.
  - intros Hnew. pose proof Hnew as Hin. apply dict_in_false in Hin.
    rewrite Hin. simpl. rewrite dict_set_new by done. split_and!.
    + done.
    + by apply dict_get_app_new.
    + apply lookup_insert_eq.
Qed.

Lemma register_conflict_iff_present_witness :
  let data := mkRegisterIn "a@b.c" "pw" "Ayla" in
  let st1 := mkStores [("a@b.c", mkUser "user_1" "a@b.c" "Ayla" "Plus")] ∅ in
  register 7 data st1 = (Raise (HTTPException 409 "User already exists"), st1) ∧
  register 7 data empty_stores =
    (Ok (AuthBody "demo_7_a_b.c" (mkUser "user_1" "a@b.c" "Ayla" "Free")),
     mkStores [("a@b.c", mkUser "user_1" "a@b.c" "Ayla" "Free")]
       (<["demo_7_a_b.c" := "a@b.c"]> ∅)).
Proof.
  intros data st1. split.
  - apply (proj1 (register_conflict_iff_present 7 data st1)).
    by exists (mkUser "user_1" "a@b.c" "Ayla" "Plus").
  - apply (proj2 (register_conflict_iff_present 7 data empty_stores)).
    reflexivity.
Defined.

(** ** Login *)

(** C6. [login] does not issue a fresh token on every call: a second
    login for the same email at the same clock reading is answered with
    the token the first one got, which [TOKENS] already holds, and leaves
    the stores as they were. *)
Lemma login_token_not_fresh :
  let data := mkLoginIn "a@b.c" "pw" in
  let u := mkUser "user_1" "a@b.c" "Guest" "Free" in
  let w := (run init_world [EvLogin 1000 data]).2 in
  (run init_world [EvLogin 1000 data]).1 = [Response (AuthBody "demo_1000_a_b.c" u)] ∧
  TOKENS (stores w) !! "demo_1000_a_b.c" = Some "a@b.c" ∧
  step w (EvLogin 1000 data) = (Response (AuthBody "demo_1000_a_b.c" u), w).
Proof. vm_compute. done. Qed.

(** Every key of [TOKENS] was built by a request of the schedule, from its
    clock reading and for the email the entry holds. *)
Lemma run_token_issue evs token email :
  TOKENS (stores (run init_world evs).2) !! token = Some email →
  ∃ now_ms, (now_ms, email) ∈ omap issue_of evs ∧ token = token_text now_ms email.
Proof.
  revert token email. apply (schedule_ind (λ evs w, ∀ token email,
    TOKENS (stores w) !! token = Some email →
    ∃ now_ms, (now_ms, email) ∈ omap issue_of evs ∧
      token = token_text now_ms email)).
  - intros token email. simpl. by rewrite lookup_empty.
  - intros evs' ev w IH token email. rewrite omap_app.
    destruct (effect_tokens _ _ _ (step_effect w ev))
      as [->|(now_ms & e & Hev & -> & _)].
    + intros (t & Ht & ->)%IH. exists t. split; [|done].
      apply elem_of_app. by left.
    + rewrite lookup_insert. case_decide as Hd.
      * intros [= <-]. exists now_ms. split; [|done].
        apply elem_of_app. right. simpl. rewrite Hev. apply list_elem_of_here.
      * intros (t & Ht & ->)%IH. exists t. split; [|done].
        apply elem_of_app. by left.
Qed.

(** The token of an issuance is new to [TOKENS] unless an earlier request
    of the schedule read the same clock value for an email with the same
    sanitized form. *)
Lemma issued_token_fresh evs now_ms email :
  (∀ email', (now_ms, email') ∈ omap issue_of evs →
     Py.replace "@" "_" email' ≠ Py.replace "@" "_" email) →
  TOKENS (stores (run init_world evs).2) !! token_text now_ms email = None.
Proof.
  intros Hnew. apply eq_None_not_Some. intros [e He].
  apply run_token_issue in He as (t & Hin & Heq).
  apply token_text_eq_iff in Heq as [-> Hsan]. by apply (Hnew e).
Qed.

(** What [login] does keep to: for an email that is a key of [USERS] it
    returns the stored record as it is and leaves [USERS] untouched; for an
    email that is not, it adds a record with name ["Guest"] and plan
    ["Free"]; either way a token built from the clock reading is issued for
    the email, and that token is new to [TOKENS] whenever the clock reading
    is one no earlier issuance was made at. *)
Theorem login_get_or_create :
  (∀ (now_ms : Z) (data : LoginIn) (st : Stores),
     let email := login_email data in
     let token := token_text now_ms email in
     let tokens' := <[token := email]> (TOKENS st) in
     tokens' !! token = Some email ∧
     (∀ u, dict_get (USERS st) email = Some u →
        login now_ms data st = (Ok (AuthBody token u), mkStores (USERS st) tokens')) ∧
     (dict_get (USERS st) email = None →
        let u := mkUser ("user_" +:+ Py.str_of_int (Z.of_nat (length (USERS st)) + 1))
                   email "Guest" "Free" in
        login now_ms data st =
          (Ok (AuthBody token u), mkStores (USERS st ++ [(email, u)]) tokens') ∧
        dict_get (USERS st ++ [(email, u)]) email = Some u)) ∧
  (∀ (evs : list Event) (now_ms : Z) (data : LoginIn),
     now_ms ∉ issue_times evs →
     TOKENS (stores (run init_world evs).2) !! token_text now_ms (login_email data)
       = None).
Proof.
  split.
  - intros now_ms data st email token tokens'. split_and!.
    + apply lookup_insert_eq.
    + intros u Hu. rewrite login_eq. fold email. by rewrite Hu.
    + intros Hnew. rewrite login_eq. fold email. rewrite Hnew. simpl.
      rewrite dict_set_new by done. split; [done|]. by apply dict_get_app_new.
  - intros evs now_ms data. apply run_token_fresh.
Qed.

Lemma login_get_or_create_witness :
  let data := mkLoginIn "a@b.c" "pw" in
  let u1 := mkUser "user_1" "a@b.c" "Ayla" "Plus" in
  let st1 := mkStores [("a@b.c", u1)] (<["demo_7_a_b.c" := "a@b.c"]> ∅) in
  login 9 data st1 =
    (Ok (AuthBody "demo_9_a_b.c" u1),
     mkStores [("a@b.c", u1)]
       (<["demo_9_a_b.c" := "a@b.c"]> (<["demo_7_a_b.c" := "a@b.c"]> ∅))) ∧
  login 9 data empty_stores =
    (Ok (AuthBody "demo_9_a_b.c" (mkUser "user_1" "a@b.c" "Guest" "Free")),
     mkStores [("a@b.c", mkUser "user_1" "a@b.c" "Guest" "Free")]
       (<["demo_9_a_b.c" := "a@b.c"]> ∅)) ∧
  TOKENS (stores (run init_world [EvLogin 7 data]).2) !! "demo_9_a_b.c" = None.
Proof.
  intros data u1 st1. split_and!.
  - apply (proj1 (proj2 (proj1 login_get_or_create 9 data st1)) u1). reflexivity.
  - apply (proj2 (proj2 (proj1 login_get_or_create 9 data empty_stores))).
    reflexivity.
  - apply (proj2 login_get_or_create [EvLogin 7 data] 9 data).
    vm_compute. intros H. by apply list_elem_of_singleton in H.
Defined.

(** ** Purchase confirmation *)

(** C5. For an authenticated [/purchase/confirm] in a reachable world the
    plan of the body is stripped and lower-cased; if the result is
    ["plus"] or ["pro"] the caller's record gets the plan ["Plus"] or
    ["Pro"] and is returned as updated; otherwise the answer is 400 "plan
    must be Plus or Pro" and the stores are as before.  So [" PLUS "] is
    accepted, as is ["plus"] between a no-break space and an em space, and
    ["gold"] is refused. *)
Theorem purchase_confirm_normalizes (evs : list Event) (data : PurchaseIn)
    (authorization : option string) (email : string) :
  let st := stores (run init_world evs).2 in
  let plan_lower := Py.lower (Py.strip (purchase_plan data)) in
  let accepted p u :=
    purchase_confirm data authorization st =
      (Ok (UserBody (set_plan p u)),
       mkStores (dict_set (USERS st) email (set_plan p u)) (TOKENS st)) ∧
    dict_get (dict_set (USERS st) email (set_plan p u)) email = Some (set_plan p u) ∧
    user_plan (set_plan p u) = p in
  let refused :=
    purchase_confirm data authorization st =
      (Raise (HTTPException 400 "plan must be Plus or Pro"), st) in
  get_email_from_token authorization st = (Ok email, st) →
  ∃ u, dict_get (USERS st) email = Some u ∧
    (plan_lower = "plus" → accepted "Plus" u) ∧
    (plan_lower = "pro" → accepted "Pro" u) ∧
    (plan_lower ≠ "plus" → plan_lower ≠ "pro" → refused) ∧
    (purchase_plan data = " PLUS " → accepted "Plus" u) ∧
    (purchase_plan data = " plus " → accepted "Plus" u) ∧
    (purchase_plan data = "gold" → refused).
Proof.
  intros st plan_lower accepted refused Hr.
  pose proof Hr as Hok.
  apply get_email_from_token_Ok in Hok as (_ & _ & token & _ & Ht).
  destruct (run_known evs) as [Htok _]. destruct (Htok _ _ Ht) as [u Hu].
  fold st in Hu. exists u. split; [done|].
  assert (∀ p, accepted p u ↔
    purchase_confirm data authorization st =
      (Ok (UserBody (set_plan p u)),
       mkStores (dict_set (USERS st) email (set_plan p u)) (TOKENS st))) as Hacc.
  { intros p. unfold accepted. rewrite dict_get_set_eq.
    split; [by intros (Ha & _ & _)|by intros Ha]. }
  assert (plan_lower = "plus" → accepted "Plus" u) as Hplus.
  { intros Hp. apply Hacc. rewrite purchase_confirm_eq, Hr. simpl.
    fold plan_lower. rewrite Hp, Hu. done. }
  assert (plan_lower = "pro" → accepted "Pro" u) as Hpro.
  { intros Hp. apply Hacc. rewrite purchase_confirm_eq, Hr. simpl.
    fold plan_lower. rewrite Hp, Hu. done. }
  assert (plan_lower ≠ "plus" → plan_lower ≠ "pro" → refused) as Hno.
  { intros H1 H2. unfold refused. rewrite purchase_confirm_eq, Hr. simpl.
    fold plan_lower. by rewrite !bool_decide_eq_false_2. }
  split_and!; try done.
  - intros Hp. apply Hplus. unfold plan_lower. by rewrite Hp.
  - intros Hp. apply Hplus. unfold plan_lower. by rewrite Hp.
  - intros Hp. apply Hno; unfold plan_lower; by rewrite Hp.
Qed.

Lemma purchase_confirm_normalizes_witness :
  let evs := [EvLogin 1000 (mkLoginIn "a@b.c" "pw")] in
  let st := stores (run init_world evs).2 in
  let authorization := Some "Bearer demo_1000_a_b.c" in
  let u := mkUser "user_1" "a@b.c" "Guest" "Free" in
  purchase_confirm (mkPurchaseIn " PLUS ") authorization st =
    (Ok (UserBody (set_plan "Plus" u)),
     mkStores (dict_set (USERS st) "a@b.c" (set_plan "Plus" u)) (TOKENS st)) ∧
  purchase_confirm (mkPurchaseIn "gold") authorization st =
    (Raise (HTTPException 400 "plan must be Plus or Pro"), st).
Proof.
  intros evs st authorization u. split.
  - destruct (purchase_confirm_normalizes evs (mkPurchaseIn " PLUS ")
      authorization "a@b.c") as (u0 & Hu0 & _ & _ & _ & Hplus & _);
      [reflexivity|].
    assert (u0 = u) as -> by (vm_compute in Hu0; by injection Hu0).
    apply Hplus. reflexivity.
  - destruct (purchase_confirm_normalizes evs (mkPurchaseIn "gold")
      authorization "a@b.c") as (u0 & _ & _ & _ & _ & _ & _ & Hgold);
      [reflexivity|].
    apply Hgold. reflexivity.
Defined.

(** What a turn of the loop does to one stored record: it stays where it
    is, its id, email and name stay as they are, and it is the same record
    unless the turn is a purchase confirmation made with a token of that
    user. *)
Lemma effect_record st ev st' email u :
  effect st ev st' →
  dict_get (USERS st) email = Some u →
  ∃ u', dict_get (USERS st') email = Some u' ∧
    user_id u' = user_id u ∧ user_email u' = user_email u ∧
    user_name u' = user_name u ∧
    (u' = u ∨ ∃ data authorization,
       ev = EvPurchase data authorization ∧
       get_email_from_token authorization st = (Ok email, st)).
Proof.
  intros Heff Hu. destruct Heff as [ev' | ev' now_ms e u0 _ Hnew _ |
    ev' now_ms e _ _ | data authorization e u0 p Hr Hu0]; simpl.
  - exists u. split_and!; auto.
  - exists u. split_and!; auto.
    destruct (decide (e = email)) as [->|Hne]; [congruence|].
    rewrite <-dict_set_new by done. by rewrite dict_get_set_ne.
  - exists u. split_and!; auto.
  - destruct (decide (e = email)) as [->|Hne].
    + exists (set_plan p u0). rewrite dict_get_set_eq.
      assert (u0 = u) as -> by congruence.
      split_and!; auto. right. by exists data, authorization.
    + exists u. rewrite dict_get_set_ne by done. split_and!; auto.
Qed.

(** C7. A successful [/purchase/confirm] changes the plan field of the
    caller's record and nothing else: the id, email and name of that
    record, every other record, the order of the keys and [TOKENS] are as
    before.  And over any turn of the loop a record, once stored, keeps
    its id, email and name, and is changed at all only by a purchase
    confirmation made with a token of that user. *)
Theorem purchase_changes_plan_only :
  (∀ (data : PurchaseIn) (authorization : option string) (st st' : Stores) (b : Body),
     purchase_confirm data authorization st = (Ok b, st') →
     ∃ email u u',
       get_email_from_token authorization st = (Ok email, st) ∧
       dict_get (USERS st) email = Some u ∧
       dict_get (USERS st') email = Some u' ∧ b = UserBody u' ∧
       user_id u' = user_id u ∧ user_email u' = user_email u ∧
       user_name u' = user_name u ∧
       (∀ other, other ≠ email →
          dict_get (USERS st') other = dict_get (USERS st) other) ∧
       (USERS st').*1 = (USERS st).*1 ∧
       TOKENS st' = TOKENS st) ∧
  (∀ (w : World) (ev : Event) (email : string) (u : User),
     dict_get (USERS (stores w)) email = Some u →
     ∃ u', dict_get (USERS (stores (step w ev).2)) email = Some u' ∧
       user_id u' = user_id u ∧ user_email u' = user_email u ∧
       user_name u' = user_name u ∧
       (u' = u ∨ ∃ data authorization,
          ev = EvPurchase data authorization ∧
          get_email_from_token authorization (stores w) = (Ok email, stores w))).
Proof.
  split.
  - intros data authorization st st' b. rewrite purchase_confirm_eq.
    destruct (get_email_from_token authorization st) as [[email|e] st0] eqn:Hr;
      [|done].
    pose proof Hr as Hst. apply get_email_from_token_stores in Hst as ->.
    simpl. destruct (bool_decide _ || bool_decide _); [|done].
    destruct (dict_get (USERS st) email) as [u|] eqn:Hu; [|done].
    simpl. intros [= <- <-]. eexists email, u, _. simpl.
    rewrite dict_get_set_eq. split_and!; try done.
    + intros other Hne. by apply dict_get_set_ne.
    + by apply dict_set_present_keys.
  - intros w ev email u. apply effect_record, step_effect.
Qed.

Lemma purchase_changes_plan_only_witness :
  let st := stores (run init_world [EvLogin 1000 (mkLoginIn "a@b.c" "pw")]).2 in
  let authorization := Some "Bearer demo_1000_a_b.c" in
  let r := purchase_confirm (mkPurchaseIn "pro") authorization st in
  (∃ email u u',
     get_email_from_token authorization st = (Ok email, st) ∧
     dict_get (USERS st) email = Some u ∧
     dict_get (USERS r.2) email = Some u' ∧
     UserBody (mkUser "user_1" "a@b.c" "Guest" "Pro") = UserBody u' ∧
     user_id u' = user_id u ∧ user_email u' = user_email u ∧
     user_name u' = user_name u ∧
     (∀ other, other ≠ email →
        dict_get (USERS r.2) other = dict_get (USERS st) other) ∧
     (USERS r.2).*1 = (USERS st).*1 ∧
     TOKENS r.2 = TOKENS st) ∧
  (∃ u', dict_get
           (USERS (stores (step (mkWorld st []) (EvMe authorization)).2))
           "a@b.c" = Some u' ∧
     user_id u' = "user_1" ∧ user_email u' = "a@b.c" ∧ user_name u' = "Guest" ∧
     (u' = mkUser "user_1" "a@b.c" "Guest" "Free" ∨ ∃ data authorization',
        EvMe authorization = EvPurchase data authorization' ∧
        get_email_from_token authorization' st = (Ok "a@b.c", st))).
Proof.
  intros st authorization r. split.
  - apply (proj1 purchase_changes_plan_only (mkPurchaseIn "pro") authorization st).
    reflexivity.
  - apply (proj2 purchase_changes_plan_only (mkWorld st []) (EvMe authorization)
             "a@b.c" (mkUser "user_1" "a@b.c" "Guest" "Free")).
    reflexivity.
Defined.

(** ** Chat replies *)

Ltac divmod a b :=
  let q := fresh "q" in
  let r := fresh "r" in
  pose proof (N.div_mod a b ltac:(discriminate));
  pose proof (N.mod_lt a b ltac:(discriminate));
  set (q := (a / b)%N) in *; set (r := (a mod b)%N) in *;
  clearbody q r.

Lemma byte_value n : (n < 256)%N → N_of_ascii (Unicode.byte n) = n.
Proof. apply N_ascii_embedding. Qed.

Lemma continuation_byte x : (x < 64)%N → Unicode.continuation (Unicode.byte (128 + x)) = Some x.
Proof.
  intros Hx. unfold Unicode.continuation. rewrite byte_value by lia.
  rewrite andb_true_intro by (split; apply N.leb_le; lia). f_equal. lia.
Qed.

Lemma seq2_high b0 b1 : (224 <= N_of_ascii b0)%N → Unicode.seq2 b0 b1 = None.
Proof.
  intros H. unfold Unicode.seq2.
  replace (N_of_ascii b0 <=? 223)%N with false; [by rewrite andb_false_r|].
  symmetry. apply N.leb_gt. lia.
Qed.

Lemma seq3_high b0 b1 b2 : (240 <= N_of_ascii b0)%N → Unicode.seq3 b0 b1 b2 = None.
Proof.
  intros H. unfold Unicode.seq3.
  replace (N_of_ascii b0 <=? 239)%N with false; [by rewrite andb_false_r|].
  symmetry. apply N.leb_gt. lia.
Qed.

Lemma decode_encode_char cp s :
  (cp < 1114112)%N →
  Unicode.decode (Unicode.encode_char (Unicode.Char cp) +:+ s) = Unicode.Char cp :: Unicode.decode s.
Proof.
  intros Hcp. unfold Unicode.encode_char.
  destruct (cp <? 128)%N eqn:H1; [apply N.ltb_lt in H1|apply N.ltb_ge in H1].
  { simpl. rewrite byte_value by lia.
    replace (cp <? 128)%N with true by (symmetry; apply N.ltb_lt; lia). done. }
  destruct (cp <? 2048)%N eqn:H2; [apply N.ltb_lt in H2|apply N.ltb_ge in H2].
  { assert (Unicode.seq2 (Unicode.byte (192 + cp / 64)) (Unicode.byte (128 + cp mod 64)) = Some cp)
      as Hs.
    { unfold Unicode.seq2. rewrite continuation_byte by (apply N.mod_lt; discriminate).
      divmod cp 64%N. rewrite byte_value by lia.
      rewrite andb_true_intro by (split; apply N.leb_le; lia). f_equal. lia. }
    assert ((N_of_ascii (Unicode.byte (192 + cp / 64)) <? 128)%N = false) as Hl.
    { divmod cp 64%N. rewrite byte_value by lia. apply N.ltb_ge. lia. }
    simpl. rewrite Hl, Hs. done. }
  destruct (cp <? 65536)%N eqn:H3; [apply N.ltb_lt in H3|apply N.ltb_ge in H3].
  { assert (Unicode.seq3 (Unicode.byte (224 + cp / 4096)) (Unicode.byte (128 + (cp / 64) mod 64))
              (Unicode.byte (128 + cp mod 64)) = Some cp) as Hs.
    { unfold Unicode.seq3. rewrite !continuation_byte by (apply N.mod_lt; discriminate).
      divmod (cp / 64)%N 64%N. divmod cp 4096%N. divmod cp 64%N.
      rewrite byte_value by lia.
      rewrite andb_true_intro by (split; apply N.leb_le; lia).
      match goal with
      | |- (if (2048 <=? ?e)%N then _ else _) = _ => replace e with cp by lia
      end.
      replace (2048 <=? cp)%N with true by (symmetry; apply N.leb_le; lia). done. }
    assert (224 <= N_of_ascii (Unicode.byte (224 + cp / 4096)))%N as Hl.
    { divmod cp 4096%N. rewrite byte_value by lia. lia. }
    simpl.
    replace (N_of_ascii (Unicode.byte (224 + cp / 4096)) <? 128)%N with false
      by (symmetry; apply N.ltb_ge; lia).
    rewrite seq2_high by done. rewrite Hs. done. }
  assert (Unicode.seq4 (Unicode.byte (240 + cp / 262144)) (Unicode.byte (128 + (cp / 4096) mod 64))
            (Unicode.byte (128 + (cp / 64) mod 64)) (Unicode.byte (128 + cp mod 64)) = Some cp)
    as Hs.
  { unfold Unicode.seq4. rewrite !continuation_byte by (apply N.mod_lt; discriminate).
    divmod (cp / 4096)%N 64%N. divmod (cp / 64)%N 64%N.
    divmod cp 262144%N. divmod cp 4096%N. divmod cp 64%N.
    rewrite byte_value by lia.
    rewrite andb_true_intro by (split; apply N.leb_le; lia).
    match goal with
    | |- (if ((65536 <=? ?e) && _)%N then _ else _) = _ => replace e with cp by lia
    end.
    rewrite andb_true_intro by (split; apply N.leb_le; lia). done. }
  assert (240 <= N_of_ascii (Unicode.byte (240 + cp / 262144)))%N as Hl.
  { divmod cp 262144%N. rewrite byte_value by lia. lia. }
  simpl.
  replace (N_of_ascii (Unicode.byte (240 + cp / 262144)) <? 128)%N with false
    by (symmetry; apply N.ltb_ge; lia).
  rewrite seq2_high by lia. rewrite seq3_high by done. rewrite Hs. done.
Qed.

Lemma decode_encode l : forallb Unicode.is_char l = true → Unicode.decode (Unicode.encode l) = l.
Proof.
  induction l as [|[cp|b] l IH]; simpl; [done| |done].
  intros [Hcp Hl]%andb_true_iff. apply N.ltb_lt in Hcp.
  change (Unicode.decode (Unicode.encode_char (Unicode.Char cp) +:+ Unicode.encode l)
          = Unicode.Char cp :: l).
  rewrite decode_encode_char by done. by rewrite IH.
Qed.

Lemma assoc_elem {A} cp (t : list (N * A)) v : Unicode.assoc cp t = Some v → (cp, v) ∈ t.
Proof.
  induction t as [|[k w] t IH]; simpl; [done|].
  destruct (k =? cp)%N eqn:Hk.
  - apply N.eqb_eq in Hk as ->. intros [= ->]. apply list_elem_of_here.
  - intros H. apply list_elem_of_further. by apply IH.
Qed.

Lemma lower_tables_stable :
  forallb (λ kv : N * list N, forallb (λ c, lower_stable (Unicode.Char c)) kv.2)
    Unicode.lower_special = true ∧
  forallb (λ kv : N * N, lower_stable (Unicode.Char kv.2)) Unicode.lower_simple = true ∧
  lower_stable (Unicode.Char 962) = true ∧ lower_stable (Unicode.Char 963) = true ∧
  Unicode.assoc 931%N Unicode.lower_simple = Some 963%N.
Proof. vm_compute. done. Qed.

Lemma to_lower_full_stable cp :
  (cp < 1114112)%N →
  forallb (λ c, lower_stable (Unicode.Char c)) (Unicode.to_lower_full cp) = true.
Proof.
  intros Hcp. destruct lower_tables_stable as (Hsp & Hsi & _ & _ & Hsigma).
  unfold Unicode.to_lower_full.
  destruct (Unicode.assoc cp Unicode.lower_special) as [l|] eqn:H1.
  { apply assoc_elem in H1. rewrite forallb_forall in Hsp.
    apply (Hsp (cp, l)). by apply list_elem_of_In. }
  destruct (Unicode.assoc cp Unicode.lower_simple) as [t|] eqn:H2.
  { apply assoc_elem in H2. rewrite forallb_forall in Hsi.
    simpl. rewrite andb_true_r. apply (Hsi (cp, t)). by apply list_elem_of_In. }
  simpl. rewrite andb_true_r. apply andb_true_intro. split.
  - apply andb_true_intro. split; [by apply N.ltb_lt|].
    apply negb_true_iff, N.eqb_neq. intros ->. congruence.
  - apply bool_decide_eq_true. unfold Unicode.to_lower_full. by rewrite H1, H2.
Qed.

Lemma lower_at_stable before c after :
  Unicode.is_char c = true → forallb lower_stable (Unicode.lower_at before c after) = true.
Proof.
  destruct c as [cp|b]; [|done]. simpl. intros Hcp%N.ltb_lt.
  destruct lower_tables_stable as (_ & _ & H962 & H963 & _).
  destruct (cp =? 931)%N.
  - simpl. rewrite andb_true_r. by destruct (Unicode.final_sigma before after).
  - pose proof (to_lower_full_stable cp Hcp) as H.
    induction (Unicode.to_lower_full cp) as [|c l IH]; simpl in *; [done|].
    apply andb_true_iff in H as [-> H]. by apply IH.
Qed.

Lemma lower_from_stable before l :
  forallb Unicode.is_char l = true → forallb lower_stable (Unicode.lower_from before l) = true.
Proof.
  revert before. induction l as [|c l IH]; intros before; simpl; [done|].
  intros [Hc Hl]%andb_true_iff. rewrite forallb_app.
  by rewrite lower_at_stable, IH.
Qed.

(** Lower-casing leaves a sequence of stable characters as it is. *)
Lemma lower_from_id before l :
  forallb lower_stable l = true → Unicode.lower_from before l = l.
Proof.
  revert before. induction l as [|c l IH]; intros before; simpl; [done|].
  intros [Hc Hl]%andb_true_iff. rewrite IH by done.
  destruct c as [cp|b]; [|done]. simpl in *.
  apply andb_true_iff in Hc as [[_ Hs]%andb_true_iff Hf].
  apply negb_true_iff in Hs. rewrite Hs.
  apply bool_decide_eq_true in Hf. by rewrite Hf.
Qed.

Lemma lower_stable_is_char l :
  forallb lower_stable l = true → forallb Unicode.is_char l = true.
Proof.
  induction l as [|[cp|b] l IH]; simpl; [done| |done].
  intros [[[Hc _]%andb_true_iff _]%andb_true_iff Hl]%andb_true_iff.
  by rewrite Hc, IH.
Qed.

(** Capitalizing a lower-cased text changes its first character only. *)
Lemma capitalize_lower s :
  well_formed s = true →
  Py.capitalize (Py.lower s) = capitalize_first (Py.lower s).
Proof.
  intros Hwf. unfold Py.capitalize, capitalize_first, Py.lower.
  pose proof (lower_from_stable [] _ Hwf) as Hst.
  rewrite decode_encode by by apply lower_stable_is_char.
  destruct (Unicode.lower_from [] (Unicode.decode s)) as [|c after]; [done|].
  simpl in Hst. apply andb_true_iff in Hst as [_ Hst].
  by rewrite lower_from_id.
Qed.

Lemma chat_reply_is_intro persona :
  chat_reply_is persona (reply_text (Py.lower (persona_or_default persona))).
Proof.
  intros message authorization st email st' u' Hr Hu.
  eexists. rewrite chat_send_start_eq, Hr. split; [done|].
  rewrite chat_send_resume_eq. simpl. by rewrite Hu.
Qed.

(** The reply to a persona field is determined: the stores reached by one
    login hold a user to try it on. *)
Lemma chat_reply_is_inj persona reply1 reply2 :
  chat_reply_is persona reply1 → chat_reply_is persona reply2 → reply1 = reply2.
Proof.
  intros H1 H2.
  pose (st := stores (run init_world [EvLogin 1000 (mkLoginIn "a@b.c" "pw")]).2).
  pose (u := mkUser "user_1" "a@b.c" "Guest" "Free").
  destruct (H1 "" (Some "Bearer demo_1000_a_b.c") st "a@b.c" st u)
    as (fr1 & Hs1 & Hr1); [reflexivity..|].
  destruct (H2 "" (Some "Bearer demo_1000_a_b.c") st "a@b.c" st u)
    as (fr2 & Hs2 & Hr2); [reflexivity..|].
  rewrite Hs1 in Hs2. injection Hs2 as <-. rewrite Hr1 in Hr2. by injection Hr2.
Qed.

(** C8, as the specification words it, fails at the empty persona: the
    reply is then built from the default persona, not from the empty one. *)
Lemma chat_reply_empty_persona :
  let st := stores (run init_world [EvLogin 1000 (mkLoginIn "a@b.c" "pw")]).2 in
  let authorization := Some "Bearer demo_1000_a_b.c" in
  let reply := "Arkadaş modu: Mesajını aldım — kısa demo yanıt." in
  (∃ fr,
     chat_send_start (mkChatIn "selam" (Some "")) authorization st = (Ok fr, st) ∧
     chat_send_resume fr st = (Ok (ChatBody "assistant" reply "Free"), st)) ∧
  spec_reply "" = " modu: Mesajını aldım — kısa demo yanıt." ∧
  reply ≠ spec_reply "" ∧
  ¬ chat_reply_is (Some "") (spec_reply "").
Proof.
  intros st authorization reply. split_and!.
  - by eexists.
  - done.
  - done.
  - intros Hclaim.
    pose proof (chat_reply_is_inj _ _ _ Hclaim (chat_reply_is_intro (Some ""))) as Heq.
    vm_compute in Heq. discriminate Heq.
Qed.

(** C8. For an authenticated [/chat/send] with a non-empty persona [p] the
    reply is the persona lower-cased, its first character capitalized,
    followed by [" modu: Mesajını aldım — kısa demo yanıt."]: it is what
    [capitalize] makes of the lower-cased persona, and for a persona that
    is a well-formed text that is the lower-cased persona with its first
    character put in title case and nothing else changed.  The message
    plays no part, and the plan in the answer is the one the caller's
    record holds when the coroutine is resumed.  So the persona ["kanka"]
    gives ["Kanka modu: Mesajını aldım — kısa demo yanıt."], ["şaka"]
    gives ["Şaka modu: …"], ["AŞK"] gives ["Aşk modu: …"], and a purchase
    confirmed while the coroutine is parked shows in the answer. *)
Theorem chat_reply_nonempty_persona (p : string) :
  p ≠ "" →
  chat_reply_is (Some p)
    (Py.capitalize (Py.lower p) +:+ " modu: Mesajını aldım — kısa demo yanıt.") ∧
  (well_formed p = true → chat_reply_is (Some p) (spec_reply p)) ∧
  chat_reply_is (Some "kanka") "Kanka modu: Mesajını aldım — kısa demo yanıt." ∧
  chat_reply_is (Some "şaka") "Şaka modu: Mesajını aldım — kısa demo yanıt." ∧
  chat_reply_is (Some "AŞK") "Aşk modu: Mesajını aldım — kısa demo yanıt." ∧
  (let authorization := Some "Bearer demo_1000_a_b.c" in
   (run init_world
      [EvLogin 1000 (mkLoginIn "a@b.c" "pw");
       EvChatStart (mkChatIn "selam" (Some p)) authorization;
       EvPurchase (mkPurchaseIn "plus") authorization;
       EvChatResume 0]).1 =
     [Response (AuthBody "demo_1000_a_b.c" (mkUser "user_1" "a@b.c" "Guest" "Free"));
      NoOutput;
      Response (UserBody (mkUser "user_1" "a@b.c" "Guest" "Plus"));
      Response (ChatBody "assistant"
                  (Py.capitalize (Py.lower p)
                   +:+ " modu: Mesajını aldım — kısa demo yanıt.") "Plus")]).
Proof.
  intros Hp.
  assert (persona_or_default (Some p) = p) as Hdef.
  { by destruct p. }
  pose proof (chat_reply_is_intro (Some p)) as Hcode.
  rewrite Hdef in Hcode. unfold reply_text in Hcode.
  split_and!.
  - exact Hcode.
  - intros Hwf. unfold spec_reply. by rewrite <-capitalize_lower.
  - exact (chat_reply_is_intro (Some "kanka")).
  - exact (chat_reply_is_intro (Some "şaka")).
  - exact (chat_reply_is_intro (Some "AŞK")).
  - destruct p as [|c p]; [done|]. reflexivity.
Qed.

Lemma chat_reply_nonempty_persona_witness :
  chat_reply_is (Some "KANKA") "Kanka modu: Mesajını aldım — kısa demo yanıt.".
Proof.
  refine (proj1 (proj2 (chat_reply_nonempty_persona "KANKA" _)) _).
  - discriminate.
  - reflexivity.
Defined.

(** C10. The default persona stands in for every falsy persona field: when
    the field is absent or null, and when it is the empty string, an
    authenticated [/chat/send] answers
    ["Arkadaş modu: Mesajını aldım — kısa demo yanıt."]. *)
Theorem chat_default_persona (persona : option string) :
  persona = None ∨ persona = Some "" →
  chat_reply_is persona "Arkadaş modu: Mesajını aldım — kısa demo yanıt.".
Proof.
  intros [-> | ->].
  - apply (chat_reply_is_intro None).
  - apply (chat_reply_is_intro (Some "")).
Qed.

Lemma chat_default_persona_witness :
  let st := stores (run init_world [EvLogin 1000 (mkLoginIn "a@b.c" "pw")]).2 in
  ∃ fr,
    chat_send_start (mkChatIn "selam" (Some "")) (Some "Bearer demo_1000_a_b.c") st
      = (Ok fr, st) ∧
    chat_send_resume fr st =
      (Ok (ChatBody "assistant" "Arkadaş modu: Mesajını aldım — kısa demo yanıt."
             "Free"), st).
Proof.
  intros st.
  apply (chat_default_persona (Some "") (or_intror eq_refl) "selam"
           (Some "Bearer demo_1000_a_b.c") st "a@b.c" st
           (mkUser "user_1" "a@b.c" "Guest" "Free")); reflexivity.
Defined.

(** * Further properties of the handlers *)

(** ** What a turn writes *)

Lemma step_writes w ev : writes (stores w) ev (stores (step w ev).2).
Proof.
  destruct w as [st pk], ev as [now_s|now_ms data|now_ms data|authorization|
    |payload authorization|i|data authorization]; simpl; unfold lift; simpl.
  - apply wr_none.
  - rewrite register_eq.
    destruct (dict_in (reg_email data) (USERS st)) eqn:Hin; simpl.
    + apply wr_none.
    + apply dict_in_false in Hin. rewrite dict_set_new by done.
      by apply wr_register.
  - rewrite login_eq.
    destruct (dict_get (USERS st) (login_email data)) as [u|] eqn:Hu; simpl.
    + by eapply wr_login_old.
    + rewrite dict_set_new by done. by apply wr_login_new.
  - rewrite me_eq, get_email_from_token_spec.
    repeat case_match; simplify_eq/=; apply wr_none.
  - apply wr_none.
  - rewrite chat_send_start_eq, get_email_from_token_spec.
    repeat case_match; simplify_eq/=; apply wr_none.
  - destruct (pk !! i) as [fr|]; simpl; [|apply wr_none].
    rewrite chat_send_resume_eq.
    destruct (dict_get (USERS st) (frame_email fr)); simpl; apply wr_none.
  - rewrite purchase_confirm_eq.
    destruct (get_email_from_token authorization st) as [[email|e] st'] eqn:Hr;
      [|apply wr_none].
    pose proof Hr as Hst. apply get_email_from_token_stores in Hst as ->.
    simpl. destruct (bool_decide _ || bool_decide _); [|apply wr_none].
    destruct (dict_get (USERS st) email) as [u|] eqn:Hu; simpl; [|apply wr_none].
    eapply wr_purchase; [done..|]. case_bool_decide; auto.
Qed.

(** Induction over the worlds a schedule reaches from any world. *)
Lemma schedule_from_ind w (P : list Event → World → Prop) :
  P [] w →
  (∀ evs ev w', P evs w' → P (evs ++ [ev]) (step w' ev).2) →
  ∀ evs, P evs (run w evs).2.
Proof.
  intros H0 Hstep evs. induction evs as [|ev evs IH] using rev_ind; [done|].
  rewrite run_snoc. by apply Hstep.
Qed.

Lemma dict_get_None_keys {V} (d : list (string * V)) k :
  dict_get d k = None ↔ k ∉ d.*1.
Proof.
  induction d as [|[k' v] d IH].
  - split; [|done]. intros _. apply not_elem_of_nil.
  - rewrite fmap_cons, not_elem_of_cons. simpl.
    destruct (decide (k = k')) as [->|Hne]; [split; [done|by intros [? _]]|].
    rewrite IH. split; [done|by intros [_ ?]].
Qed.

Lemma dict_set_set {V} (d : list (string * V)) k v1 v2 :
  dict_set (dict_set d k v1) k v2 = dict_set d k v2.
Proof.
  induction d as [|[k' v] d IH]; simpl.
  - by rewrite decide_True.
  - destruct (decide (k = k')) as [->|Hne]; simpl.
    + by rewrite decide_True.
    + rewrite decide_False by done. by rewrite IH.
Qed.

Lemma bearer_token_header token : bearer_token (Some ("Bearer " +:+ token)) = Some token.
Proof. reflexivity. Qed.

Lemma bearer_token_Some authorization token :
  bearer_token authorization = Some token ↔
  authorization = Some ("Bearer " +:+ token).
Proof.
  destruct authorization as [a|]; [|done]. unfold bearer_token.
  change (Some a ≫= after_prefix "Bearer ") with (after_prefix "Bearer " a).
  rewrite after_prefix_Some. split; congruence.
Qed.

(** ** Token resolution, exactly *)

(** X1. [get_email_from_token] returns an email exactly when the header is
    ["Bearer "] followed by a key of [TOKENS] whose entry is a non-empty
    email, and that entry is what it returns.  Otherwise it raises 401 and
    nothing else: with "Missing or invalid token" when the header is absent
    or lacks the prefix, with "Invalid token" when the token is unknown or
    stands for the empty email.  In no case does it write to the stores. *)
Theorem token_resolution (authorization : option string) (st : Stores) :
  (∀ email st',
     get_email_from_token authorization st = (Ok email, st') ↔
     st' = st ∧ email ≠ "" ∧
     ∃ token, authorization = Some ("Bearer " +:+ token) ∧
       TOKENS st !! token = Some email) ∧
  (∀ e st',
     get_email_from_token authorization st = (Raise e, st') →
     st' = st ∧
     ((e = HTTPException 401 "Missing or invalid token" ∧
       bearer_token authorization = None) ∨
      (e = HTTPException 401 "Invalid token" ∧
       ∃ token, authorization = Some ("Bearer " +:+ token) ∧
         (TOKENS st !! token = None ∨ TOKENS st !! token = Some "")))).
Proof.
  split.
  - intros email st'. split.
    + intros Hr. apply get_email_from_token_Ok in Hr as (-> & Hne & token & Hb & Ht).
      split_and!; [done..|]. exists token. by apply bearer_token_Some in Hb.
    + intros (-> & Hne & token & Ha & Ht). apply bearer_token_Some in Ha.
      rewrite get_email_from_token_spec, Ha, Ht. by destruct email.
  - intros e st'. rewrite get_email_from_token_spec.
    destruct (bearer_token authorization) as [token|] eqn:Hb.
    + apply bearer_token_Some in Hb.
      destruct (TOKENS st !! token) as [[|c email]|] eqn:Ht; intros [= <- <-];
        (split; [done|]); right; (split; [done|]); exists token; auto.
    + intros [= <- <-]. split; [done|]. by left.
Qed.

Lemma token_resolution_witness :
  let st := mkStores [("a@b.c", mkUser "user_1" "a@b.c" "Ayla" "Free")]
              (<["demo_7_a_b.c" := "a@b.c"]> ∅) in
  get_email_from_token (Some "Bearer demo_7_a_b.c") st = (Ok "a@b.c", st) ∧
  (st = st ∧
   ((HTTPException 401 "Invalid token" = HTTPException 401 "Missing or invalid token" ∧
     bearer_token (Some "Bearer nope") = None) ∨
    (HTTPException 401 "Invalid token" = HTTPException 401 "Invalid token" ∧
     ∃ token, Some "Bearer nope" = Some ("Bearer " +:+ token) ∧
       (TOKENS st !! token = None ∨ TOKENS st !! token = Some "")))).
Proof.
  intros st. split.
  - apply (proj1 (token_resolution (Some "Bearer demo_7_a_b.c") st) "a@b.c" st).
    split_and!; [done..|]. by exists "demo_7_a_b.c".
  - apply (proj2 (token_resolution (Some "Bearer nope") st)
             (HTTPException 401 "Invalid token") st).
    reflexivity.
Defined.

(** ** Round trips through [/me] *)

Lemma me_with_token st token email u :
  TOKENS st !! token = Some email → email ≠ "" →
  dict_get (USERS st) email = Some u →
  me (Some ("Bearer " +:+ token)) st = (Ok (UserBody u), st).
Proof.
  intros Ht Hne Hu.
  rewrite me_eq, get_email_from_token_spec, bearer_token_header, Ht.
  destruct email as [|c email]; [done|]. by rewrite Hu.
Qed.

(** X2. Registering an email that is not yet a key and is not empty, then
    asking [/me] with the token the registration returned, gives back the
    record the registration returned: that email, the supplied name, plan
    ["Free"]. *)
Theorem register_then_me (now_ms : Z) (data : RegisterIn) (st : Stores) :
  dict_get (USERS st) (reg_email data) = None →
  reg_email data ≠ "" →
  ∃ token u st',
    register now_ms data st = (Ok (AuthBody token u), st') ∧
    me (Some ("Bearer " +:+ token)) st' = (Ok (UserBody u), st') ∧
    user_email u = reg_email data ∧ user_name u = reg_name data ∧
    user_plan u = "Free".
Proof.
  intros Hnew Hne. rewrite register_eq.
  pose proof Hnew as Hin. apply dict_in_false in Hin. rewrite Hin. simpl.
  eexists _, _, _. split; [done|]. split; [|done].
  apply me_with_token with (email := reg_email data); simpl.
  - apply lookup_insert_eq.
  - done.
  - apply dict_get_set_eq.
Qed.

Lemma register_then_me_witness :
  ∃ token u st',
    register 7 (mkRegisterIn "a@b.c" "pw" "Ayla") empty_stores
      = (Ok (AuthBody token u), st') ∧
    me (Some ("Bearer " +:+ token)) st' = (Ok (UserBody u), st') ∧
    user_email u = "a@b.c" ∧ user_name u = "Ayla" ∧ user_plan u = "Free".
Proof.
  apply (register_then_me 7 (mkRegisterIn "a@b.c" "pw" "Ayla") empty_stores).
  - reflexivity.
  - discriminate.
Defined.

(** X3. [login] never raises, whatever the stores and the body; and for a
    non-empty email [/me] with the token it returned gives back the record
    it returned, whose email is the one logged in with. *)
Theorem login_then_me (now_ms : Z) (data : LoginIn) (st : Stores) :
  ∃ token u st',
    login now_ms data st = (Ok (AuthBody token u), st') ∧
    dict_get (USERS st') (login_email data) = Some u ∧
    (login_email data ≠ "" →
     me (Some ("Bearer " +:+ token)) st' = (Ok (UserBody u), st')).
Proof.
  rewrite login_eq.
  destruct (dict_get (USERS st) (login_email data)) as [u|] eqn:Hu; simpl;
    eexists _, _, _; (split; [done|]); simpl.
  - split; [done|]. intros Hne.
    apply me_with_token with (email := login_email data); simpl; [|done..].
    apply lookup_insert_eq.
  - split; [apply dict_get_set_eq|]. intros Hne.
    apply me_with_token with (email := login_email data); simpl; [|done|].
    + apply lookup_insert_eq.
    + apply dict_get_set_eq.
Qed.

Lemma login_then_me_witness :
  let st' := (login 9 (mkLoginIn "a@b.c" "pw") empty_stores).2 in
  me (Some "Bearer demo_9_a_b.c") st' =
    (Ok (UserBody (mkUser "user_1" "a@b.c" "Guest" "Free")), st').
Proof.
  intros st'.
  destruct (login_then_me 9 (mkLoginIn "a@b.c" "pw") empty_stores)
    as (token & u & st0 & Hl & _ & Hme).
  vm_compute in Hl. injection Hl as <- <- <-. apply Hme. discriminate.
Defined.

(** ** Signing up twice *)

Lemma register_makes_key now_ms data st :
  is_Some (dict_get (USERS (register now_ms data st).2) (reg_email data)).
Proof.
  rewrite register_eq.
  destruct (dict_in (reg_email data) (USERS st)) eqn:Hin; simpl.
  - by apply dict_in_true.
  - rewrite dict_get_set_eq. by eexists.
Qed.

Lemma login_makes_key now_ms data st :
  is_Some (dict_get (USERS (login now_ms data st).2) (login_email data)).
Proof.
  rewrite login_eq.
  destruct (dict_get (USERS st) (login_email data)) as [u|] eqn:Hu; simpl.
  - rewrite Hu. by eexists.
  - rewrite dict_get_set_eq. by eexists.
Qed.

Lemma register_present now_ms data st :
  is_Some (dict_get (USERS st) (reg_email data)) →
  register now_ms data st = (Raise (HTTPException 409 "User already exists"), st).
Proof. intros Hin. apply dict_in_true in Hin. by rewrite register_eq, Hin. Qed.

Lemma signup_makes_key w ev now_ms email :
  issue_of ev = Some (now_ms, email) →
  is_Some (dict_get (USERS (stores (step w ev).2)) email).
Proof.
  destruct w as [st pk], ev as [now_s|now data|now data|authorization|
    |payload authorization|i|data authorization]; simpl; try done;
    intros [= _ <-]; unfold lift; simpl.
  - pose proof (register_makes_key now data st) as H.
    by destruct (register now data st).
  - pose proof (login_makes_key now data st) as H.
    by destruct (login now data st).
Qed.

Lemma run_keeps_key w evs email :
  is_Some (dict_get (USERS (stores w)) email) →
  is_Some (dict_get (USERS (stores (run w evs).2)) email).
Proof.
  intros Hk. apply (schedule_from_ind w (λ _ w',
    is_Some (dict_get (USERS (stores w')) email))); [done|].
  intros _ ev w' Hw'.
  by apply (effect_users_mono (stores w') ev _ email (step_effect w' ev)).
Qed.

(** X4. Once [register] or [login] has been called for an email, whatever
    that call answered and whatever requests were handled since, every
    later [register] for the same email is refused with 409 "User already
    exists" and changes nothing: a second registration never succeeds, and
    an account auto-provisioned by a login cannot be registered
    afterwards. *)
Theorem register_after_signup (w : World) (ev : Event) (evs : list Event)
    (now1 now2 : Z) (data : RegisterIn) :
  issue_of ev = Some (now1, reg_email data) →
  let w' := (run (step w ev).2 evs).2 in
  step w' (EvRegister now2 data) =
    (Failure (HTTPException 409 "User already exists"), w').
Proof.
  intros Hev w'.
  assert (is_Some (dict_get (USERS (stores w')) (reg_email data))) as Hk.
  { apply run_keeps_key. by eapply signup_makes_key. }
  destruct w' as [st pk]. simpl in *. unfold lift.
  by rewrite register_present.
Qed.

Lemma register_after_signup_witness :
  let authorization := Some "Bearer demo_7_a_b.c" in
  let w' := (run (step init_world (EvLogin 7 (mkLoginIn "a@b.c" "pw"))).2
               [EvPurchase (mkPurchaseIn "pro") authorization;
                EvRegister 8 (mkRegisterIn "d@e.f" "pw" "Deniz");
                EvChatStart (mkChatIn "selam" None) authorization]).2 in
  step w' (EvRegister 9 (mkRegisterIn "a@b.c" "pw2" "Ayla")) =
    (Failure (HTTPException 409 "User already exists"), w').
Proof.
  intros authorization w'.
  apply (register_after_signup init_world (EvLogin 7 (mkLoginIn "a@b.c" "pw"))
           _ 7 9 (mkRegisterIn "a@b.c" "pw2" "Ayla")).
  reflexivity.
Defined.

(** X5. A login that follows a successful registration of the same email
    returns the very record the registration returned, with the registered
    name rather than ["Guest"], and leaves [USERS] as the registration
    left it. *)
Theorem login_after_register (now1 now2 : Z) (reg : RegisterIn) (data : LoginIn)
    (st : Stores) :
  dict_get (USERS st) (reg_email reg) = None →
  login_email data = reg_email reg →
  ∃ token1 token2 u st1 st2,
    register now1 reg st = (Ok (AuthBody token1 u), st1) ∧
    login now2 data st1 = (Ok (AuthBody token2 u), st2) ∧
    user_name u = reg_name reg ∧
    USERS st2 = USERS st1.
Proof.
  intros Hnew Heq. rewrite register_eq.
  pose proof Hnew as Hin. apply dict_in_false in Hin. rewrite Hin. simpl.
  eexists _, _, _, _, _. split; [done|]. rewrite login_eq, Heq. simpl.
  rewrite dict_get_set_eq. done.
Qed.

Lemma login_after_register_witness :
  ∃ token1 token2 u st1 st2,
    register 7 (mkRegisterIn "a@b.c" "pw" "Ayla") empty_stores
      = (Ok (AuthBody token1 u), st1) ∧
    login 9 (mkLoginIn "a@b.c" "x") st1 = (Ok (AuthBody token2 u), st2) ∧
    user_name u = "Ayla" ∧
    USERS st2 = USERS st1.
Proof.
  apply (login_after_register 7 9 (mkRegisterIn "a@b.c" "pw" "Ayla")
           (mkLoginIn "a@b.c" "x") empty_stores); reflexivity.
Defined.

(** ** What fails or only reads, writes nothing *)

(** X6. A turn of the loop that ends in an exception leaves [USERS] and
    [TOKENS] exactly as they were, on every endpoint and in every world:
    each handler raises before its first assignment. *)
Theorem failure_writes_nothing (w : World) (ev : Event) (e : Exn) :
  (step w ev).1 = Failure e → stores (step w ev).2 = stores w.
Proof.
  destruct w as [st pk], ev as [now_s|now_ms data|now_ms data|authorization|
    |payload authorization|i|data authorization]; simpl; unfold lift; simpl;
    try done.
  - rewrite register_eq. by destruct (dict_in _ _).
  - rewrite login_eq. by destruct (dict_get _ _).
  - rewrite me_eq, get_email_from_token_spec.
    repeat case_match; simplify_eq/=; done.
  - rewrite chat_send_start_eq, get_email_from_token_spec.
    repeat case_match; simplify_eq/=; done.
  - destruct (pk !! i) as [fr|]; [|done]. rewrite chat_send_resume_eq.
    by destruct (dict_get _ _).
  - rewrite purchase_confirm_eq.
    destruct (get_email_from_token authorization st) as [[email|e0] st'] eqn:Hr;
      [|done].
    simpl. destruct (bool_decide _ || bool_decide _); [|done].
    by destruct (dict_get (USERS st) email).
Qed.

Lemma failure_writes_nothing_witness :
  let w := (run init_world [EvLogin 1000 (mkLoginIn "a@b.c" "pw")]).2 in
  let ev := EvPurchase (mkPurchaseIn "gold") (Some "Bearer demo_1000_a_b.c") in
  stores (step w ev).2 = stores w.
Proof.
  intros w ev.
  apply (failure_writes_nothing w ev (HTTPException 400 "plan must be Plus or Pro")).
  reflexivity.
Defined.

(** X7. [/health], [/me], [/plans] and [/chat/send], before and after its
    [await], never write: whatever they answer, [USERS] and [TOKENS] are
    the same after the turn as before. *)
Theorem read_only_writes_nothing (w : World) (ev : Event) :
  read_only ev = true → stores (step w ev).2 = stores w.
Proof.
  destruct w as [st pk], ev as [now_s|now_ms data|now_ms data|authorization|
    |payload authorization|i|data authorization]; simpl; unfold lift; simpl;
    try done; intros _.
  - rewrite me_eq, get_email_from_token_spec.
    repeat case_match; simplify_eq/=; done.
  - rewrite chat_send_start_eq, get_email_from_token_spec.
    repeat case_match; simplify_eq/=; done.
  - destruct (pk !! i) as [fr|]; [|done]. rewrite chat_send_resume_eq.
    by destruct (dict_get _ _).
Qed.

Lemma read_only_writes_nothing_witness :
  let w := (run init_world [EvLogin 1000 (mkLoginIn "a@b.c" "pw")]).2 in
  stores (step w (EvChatStart (mkChatIn "selam" None)
                    (Some "Bearer demo_1000_a_b.c"))).2 = stores w.
Proof.
  intros w. by apply (read_only_writes_nothing w).
Defined.

(** ** Purchases *)

Lemma purchase_confirm_Ok data authorization st b st' :
  purchase_confirm data authorization st = (Ok b, st') →
  ∃ email u p,
    get_email_from_token authorization st = (Ok email, st) ∧
    dict_get (USERS st) email = Some u ∧
    p = (if bool_decide (Py.lower (Py.strip (purchase_plan data)) = "plus")
         then "Plus" else "Pro") ∧
    b = UserBody (set_plan p u) ∧
    st' = mkStores (dict_set (USERS st) email (set_plan p u)) (TOKENS st).
Proof.
  rewrite purchase_confirm_eq.
  destruct (get_email_from_token authorization st) as [[email|e] st0] eqn:Hr;
    [|done].
  pose proof Hr as Hst. apply get_email_from_token_stores in Hst as ->.
  simpl. destruct (bool_decide _ || bool_decide _); [|done].
  destruct (dict_get (USERS st) email) as [u|] eqn:Hu; [|done].
  simpl. intros [= <- <-]. by eexists email, u, _.
Qed.

Lemma get_email_from_token_same_tokens authorization st st' r :
  TOKENS st' = TOKENS st →
  get_email_from_token authorization st = (r, st) →
  get_email_from_token authorization st' = (r, st').
Proof.
  intros Ht. rewrite !get_email_from_token_spec, Ht. by intros [= <-].
Qed.

(** X8. Of two accepted purchase confirmations by the same user, made
    with any of the user's tokens, the later one decides: confirming
    after an earlier confirmation answers and leaves the stores exactly as
    confirming alone does.  Confirming the same plan twice is therefore
    the same as confirming it once. *)
Theorem purchase_last_wins (data1 data2 : PurchaseIn)
    (authorization1 authorization2 : option string) (email : string)
    (st st1 st2 : Stores) (b1 b2 : Body) :
  get_email_from_token authorization1 st = (Ok email, st) →
  get_email_from_token authorization2 st = (Ok email, st) →
  purchase_confirm data1 authorization1 st = (Ok b1, st1) →
  purchase_confirm data2 authorization2 st = (Ok b2, st2) →
  purchase_confirm data2 authorization2 st1 = (Ok b2, st2).
Proof.
  intros Hr1 Hr2 H1 H2.
  apply purchase_confirm_Ok in H1 as (e1 & u1 & p1 & Hr1' & Hu1 & _ & -> & ->).
  pose proof H2 as H2'.
  apply purchase_confirm_Ok in H2' as (e2 & u2 & p2 & Hr2' & Hu2 & Hp2 & -> & ->).
  assert (e1 = email) as -> by congruence.
  assert (e2 = email) as -> by congruence.
  assert (u2 = u1) as -> by congruence.
  rewrite purchase_confirm_eq in H2 |- *.
  rewrite (get_email_from_token_same_tokens authorization2 st
             (mkStores _ (TOKENS st)) (Ok email) eq_refl Hr2).
  rewrite Hr2 in H2. simpl in *.
  destruct (bool_decide _ || bool_decide _); [|done].
  rewrite dict_get_set_eq, dict_set_set. subst p2. reflexivity.
Qed.

Lemma purchase_last_wins_witness :
  let st := stores (run init_world [EvLogin 1000 (mkLoginIn "a@b.c" "pw")]).2 in
  let authorization := Some "Bearer demo_1000_a_b.c" in
  let st1 := (purchase_confirm (mkPurchaseIn "plus") authorization st).2 in
  purchase_confirm (mkPurchaseIn "Pro") authorization st1 =
    (Ok (UserBody (mkUser "user_1" "a@b.c" "Guest" "Pro")),
     (purchase_confirm (mkPurchaseIn "Pro") authorization st).2).
Proof.
  intros st authorization st1.
  by apply (purchase_last_wins (mkPurchaseIn "plus") (mkPurchaseIn "Pro")
              authorization authorization "a@b.c" st st1
              (purchase_confirm (mkPurchaseIn "Pro") authorization st).2
              (UserBody (mkUser "user_1" "a@b.c" "Guest" "Plus"))
              (UserBody (mkUser "user_1" "a@b.c" "Guest" "Pro"))).
Defined.

(** X9. A purchase confirmed with one token of a user shows through every
    other token of that user: [/me] with any header that resolved to the
    same email answers with the record the confirmation returned. *)
Theorem purchase_seen_by_all_tokens (data : PurchaseIn)
    (authorization authorization' : option string) (email : string)
    (st st' : Stores) (b : Body) :
  get_email_from_token authorization st = (Ok email, st) →
  get_email_from_token authorization' st = (Ok email, st) →
  purchase_confirm data authorization st = (Ok b, st') →
  me authorization' st' = (Ok b, st').
Proof.
  intros Hr Hr' Hp.
  apply purchase_confirm_Ok in Hp as (e & u & p & Hre & Hu & _ & -> & ->).
  assert (e = email) as -> by congruence.
  rewrite me_eq.
  rewrite (get_email_from_token_same_tokens authorization' st
             (mkStores _ (TOKENS st)) (Ok email) eq_refl Hr').
  simpl. by rewrite dict_get_set_eq.
Qed.

Lemma purchase_seen_by_all_tokens_witness :
  let st := stores (run init_world
              [EvLogin 1000 (mkLoginIn "a@b.c" "pw");
               EvLogin 2000 (mkLoginIn "a@b.c" "pw")]).2 in
  let st' := (purchase_confirm (mkPurchaseIn "plus")
                (Some "Bearer demo_1000_a_b.c") st).2 in
  me (Some "Bearer demo_2000_a_b.c") st' =
    (Ok (UserBody (mkUser "user_1" "a@b.c" "Guest" "Plus")), st').
Proof.
  intros st st'.
  by apply (purchase_seen_by_all_tokens (mkPurchaseIn "plus")
              (Some "Bearer demo_1000_a_b.c") (Some "Bearer demo_2000_a_b.c")
              "a@b.c" st st').
Defined.

(** X10. [/purchase/confirm] agrees with the catalog [PLANS]: an
    authenticated confirmation is accepted exactly when the stripped,
    lower-cased plan is the id of a catalog entry other than ["free"], and
    what it stores is the name of that entry; the id ["free"], though in
    the catalog, is refused with 400. *)
Theorem purchase_matches_catalog (data : PurchaseIn) (authorization : option string)
    (st : Stores) (email : string) (u : User) :
  get_email_from_token authorization st = (Ok email, st) →
  dict_get (USERS st) email = Some u →
  let plan_lower := Py.lower (Py.strip (purchase_plan data)) in
  (∀ b st', purchase_confirm data authorization st = (Ok b, st') ↔
     ∃ pd, pd ∈ PLANS ∧ plan_id pd = plan_lower ∧ plan_id pd ≠ "free" ∧
       b = UserBody (set_plan (plan_name pd) u) ∧
       st' = mkStores (dict_set (USERS st) email (set_plan (plan_name pd) u))
               (TOKENS st)) ∧
  (plan_lower = "free" →
     purchase_confirm data authorization st =
       (Raise (HTTPException 400 "plan must be Plus or Pro"), st)).
Proof.
  intros Hr Hu plan_lower.
  rewrite purchase_confirm_eq, Hr. simpl. fold plan_lower. rewrite Hu. split.
  - intros b st'. split.
    + destruct (bool_decide (plan_lower = "plus")) eqn:Hplus; simpl.
      * apply bool_decide_eq_true in Hplus. intros [= <- <-].
        exists (mkPlan "plus" "Plus" "Faster replies, longer context" "₺199/ay").
        split_and!; try done. unfold PLANS. set_solver.
      * destruct (bool_decide (plan_lower = "pro")) eqn:Hpro; [|done].
        apply bool_decide_eq_true in Hpro. intros [= <- <-].
        exists (mkPlan "pro" "Pro" "Priority latency, enterprise features" "₺499/ay").
        split_and!; try done. unfold PLANS. set_solver.
    + intros (pd & Hin & Hid & Hfree & -> & ->). unfold PLANS in Hin.
      apply elem_of_cons in Hin as [->|Hin]; [done|].
      apply elem_of_cons in Hin as [->|Hin].
      { simpl in Hid. rewrite <-Hid. done. }
      apply list_elem_of_singleton in Hin as ->.
      simpl in Hid. rewrite <-Hid. done.
  - intros ->. done.
Qed.

Lemma purchase_matches_catalog_witness :
  let st := stores (run init_world [EvLogin 1000 (mkLoginIn "a@b.c" "pw")]).2 in
  purchase_confirm (mkPurchaseIn " Free ") (Some "Bearer demo_1000_a_b.c") st =
    (Raise (HTTPException 400 "plan must be Plus or Pro"), st).
Proof.
  intros st.
  by apply (proj2 (purchase_matches_catalog (mkPurchaseIn " Free ")
                     (Some "Bearer demo_1000_a_b.c") st "a@b.c"
                     (mkUser "user_1" "a@b.c" "Guest" "Free") eq_refl eq_refl)).
Defined.

(** ** The records over a schedule *)

Lemma dict_get_app_other {V} (d : list (string * V)) k k' v :
  k ≠ k' → dict_get (d ++ [(k, v)]) k' = dict_get d k'.
Proof.
  intros Hne. induction d as [|[k0 v0] d IH]; simpl.
  - by rewrite decide_False.
  - by rewrite IH.
Qed.

Lemma users_wf_append st email u tokens :
  users_wf st →
  dict_get (USERS st) email = None →
  user_email u = email → user_plan u = "Free" →
  users_wf (mkStores (USERS st ++ [(email, u)]) tokens).
Proof.
  intros [Hnd Hrec] Hnew Hemail Hplan. split; simpl.
  - rewrite fmap_app. apply NoDup_app. split_and!; [done| |apply NoDup_singleton].
    intros k Hk [->|[]%elem_of_nil]%elem_of_cons.
    by apply dict_get_None_keys in Hnew.
  - intros k v. destruct (decide (email = k)) as [<-|Hne].
    + rewrite dict_get_app_new by done. intros [= <-]. auto.
    + rewrite dict_get_app_other by done. apply Hrec.
Qed.

Lemma writes_wf st ev st' : writes st ev st' → users_wf st → users_wf st'.
Proof.
  intros [ev' | now_ms data Hnew | now_ms data Hnew | now_ms data u Hu |
    data authorization email u p Hr Hu Hp] Hwf.
  - done.
  - by apply users_wf_append.
  - by apply users_wf_append.
  - done.
  - destruct Hwf as [Hnd Hrec]. split; simpl.
    + by rewrite dict_set_present_keys.
    + intros k v. destruct (decide (email = k)) as [<-|Hne].
      * rewrite dict_get_set_eq. intros [= <-]. simpl.
        split; [by apply Hrec|]. destruct Hp as [-> | ->]; auto.
      * rewrite dict_get_set_ne by done. apply Hrec.
Qed.

(** X11. In every world a schedule of requests can reach, [USERS] holds no
    email twice, every record is stored under the email it carries, and
    every plan is ["Free"], ["Plus"] or ["Pro"]. *)
Theorem users_well_formed (evs : list Event) :
  let st := stores (run init_world evs).2 in
  NoDup (USERS st).*1 ∧
  ∀ email u, dict_get (USERS st) email = Some u →
    user_email u = email ∧
    (user_plan u = "Free" ∨ user_plan u = "Plus" ∨ user_plan u = "Pro").
Proof.
  apply (schedule_ind (λ _ w, users_wf (stores w))).
  - split; [apply NoDup_nil_2|]. intros email u [=].
  - intros _ ev w. apply (writes_wf _ ev), step_writes.
Qed.

Lemma users_well_formed_witness :
  user_email (mkUser "user_1" "a@b.c" "Guest" "Pro") = "a@b.c" ∧
  (user_plan (mkUser "user_1" "a@b.c" "Guest" "Pro") = "Free" ∨
   user_plan (mkUser "user_1" "a@b.c" "Guest" "Pro") = "Plus" ∨
   user_plan (mkUser "user_1" "a@b.c" "Guest" "Pro") = "Pro").
Proof.
  apply (proj2 (users_well_formed
                  [EvLogin 1000 (mkLoginIn "a@b.c" "pw");
                   EvPurchase (mkPurchaseIn "pro") (Some "Bearer demo_1000_a_b.c")])
           "a@b.c").
  reflexivity.
Defined.

Lemma writes_record st ev st' email u :
  writes st ev st' →
  dict_get (USERS st) email = Some u →
  ∃ u', dict_get (USERS st') email = Some u' ∧
    user_id u' = user_id u ∧ user_email u' = user_email u ∧
    user_name u' = user_name u ∧
    (user_plan u' = user_plan u ∨ user_plan u' = "Plus" ∨ user_plan u' = "Pro").
Proof.
  intros [ev' | now_ms data Hnew | now_ms data Hnew | now_ms data u0 Hu0 |
    data authorization e u0 p Hr Hu0 Hp] Hu; simpl.
  - exists u. split_and!; auto.
  - exists u. split_and!; auto. rewrite dict_get_app_other; [done|congruence].
  - exists u. split_and!; auto. rewrite dict_get_app_other; [done|congruence].
  - exists u. split_and!; auto.
  - destruct (decide (e = email)) as [->|Hne].
    + assert (u0 = u) as -> by congruence.
      exists (set_plan p u). rewrite dict_get_set_eq. split_and!; auto.
    + exists u. rewrite dict_get_set_ne by done. split_and!; auto.
Qed.

(** X12. A record, once in [USERS], stays for every schedule that follows,
    from any world: under the same email, with the same id and name; and a
    plan that has left ["Free"] never comes back to it. *)
Theorem record_lifetime (w : World) (evs : list Event) (email : string) (u : User) :
  dict_get (USERS (stores w)) email = Some u →
  ∃ u', dict_get (USERS (stores (run w evs).2)) email = Some u' ∧
    user_id u' = user_id u ∧ user_email u' = user_email u ∧
    user_name u' = user_name u ∧
    (user_plan u ≠ "Free" → user_plan u' ≠ "Free").
Proof.
  intros Hu. apply (schedule_from_ind w (λ _ w',
    ∃ u', dict_get (USERS (stores w')) email = Some u' ∧
      user_id u' = user_id u ∧ user_email u' = user_email u ∧
      user_name u' = user_name u ∧
      (user_plan u ≠ "Free" → user_plan u' ≠ "Free"))).
  - exists u. split_and!; auto.
  - intros _ ev w' (u1 & Hu1 & Hid & Hemail & Hname & Hplan).
    destruct (writes_record _ ev _ _ _ (step_writes w' ev) Hu1)
      as (u2 & Hu2 & Hid2 & Hemail2 & Hname2 & Hplan2).
    exists u2. split_and!; [done|congruence..|].
    intros Hfree. specialize (Hplan Hfree).
    destruct Hplan2 as [Heq|[Heq|Heq]]; rewrite Heq; done.
Qed.

Lemma record_lifetime_witness :
  let w := (run init_world
              [EvRegister 1000 (mkRegisterIn "a@b.c" "pw" "Ayla");
               EvPurchase (mkPurchaseIn "plus") (Some "Bearer demo_1000_a_b.c")]).2 in
  let evs := [EvLogin 2000 (mkLoginIn "a@b.c" "x");
              EvRegister 3000 (mkRegisterIn "d@e.f" "pw" "Deniz")] in
  ∃ u', dict_get (USERS (stores (run w evs).2)) "a@b.c" = Some u' ∧
    user_id u' = "user_1" ∧ user_email u' = "a@b.c" ∧ user_name u' = "Ayla" ∧
    ("Plus" ≠ "Free" → user_plan u' ≠ "Free").
Proof.
  intros w evs.
  apply (record_lifetime w evs "a@b.c" (mkUser "user_1" "a@b.c" "Ayla" "Plus")).
  reflexivity.
Defined.

(** ** Tokens over a schedule *)

Lemma replace_at_inj email1 email2 :
  has_char "_" email1 = false → has_char "_" email2 = false →
  Py.replace "@" "_" email1 = Py.replace "@" "_" email2 → email1 = email2.
Proof.
  revert email2. induction email1 as [|c1 e1 IH]; intros [|c2 e2]; simpl;
    try done.
  intros [Hc1 He1]%orb_false_elim [Hc2 He2]%orb_false_elim [= Hc Hr].
  apply bool_decide_eq_false in Hc1, Hc2.
  f_equal; [|by apply IH].
  repeat case_decide; congruence.
Qed.

(** X13. Two calls of [mk_token] return the same token exactly when they
    read the same clock value and their emails have the same form once
    every ["@"] is replaced by ["_"].  So tokens issued at different clock
    readings always differ, and for emails that hold no underscore equal
    tokens mean equal emails. *)
Theorem mk_token_distinct (now1 now2 : Z) (email1 email2 : string)
    (st1 st2 : Stores) :
  ((mk_token now1 email1 st1).1 = (mk_token now2 email2 st2).1 ↔
     now1 = now2 ∧ Py.replace "@" "_" email1 = Py.replace "@" "_" email2) ∧
  (has_char "_" email1 = false → has_char "_" email2 = false →
   (mk_token now1 email1 st1).1 = (mk_token now2 email2 st2).1 →
   now1 = now2 ∧ email1 = email2).
Proof.
  assert ((mk_token now1 email1 st1).1 = (mk_token now2 email2 st2).1 ↔
          token_text now1 email1 = token_text now2 email2) as Hiff.
  { simpl. split; congruence. }
  split.
  - by rewrite Hiff, token_text_eq_iff.
  - intros H1 H2 Heq. apply Hiff, token_text_eq_iff in Heq as [-> Hr].
    split; [done|]. by apply replace_at_inj.
Qed.

Lemma mk_token_distinct_witness :
  (mk_token 1000 "x_y@z.io" empty_stores).1 = (mk_token 1000 "x@y_z.io" empty_stores).1 ∧
  ((mk_token 1000 "a@b.c" empty_stores).1 = (mk_token 1000 "a@b.c" empty_stores).1 →
   1000 = 1000 ∧ "a@b.c" = "a@b.c").
Proof.
  split.
  - apply (proj1 (mk_token_distinct 1000 1000 "x_y@z.io" "x@y_z.io"
                    empty_stores empty_stores)).
    split; reflexivity.
  - apply (proj2 (mk_token_distinct 1000 1000 "a@b.c" "a@b.c"
                    empty_stores empty_stores)); reflexivity.
Defined.

Lemma run_token_origin evs token email :
  TOKENS (stores (run init_world evs).2) !! token = Some email →
  ∃ now_ms, now_ms ∈ issue_times evs ∧ token = token_text now_ms email.
Proof.
  revert token email. apply (schedule_ind (λ evs w, ∀ token email,
    TOKENS (stores w) !! token = Some email →
    ∃ now_ms, now_ms ∈ issue_times evs ∧ token = token_text now_ms email)).
  - intros token email. simpl. by rewrite lookup_empty.
  - intros evs' ev w IH token email.
    unfold issue_times. rewrite omap_app, fmap_app. fold (issue_times evs').
    destruct (effect_tokens _ _ _ (step_effect w ev))
      as [->|(now_ms & e & Hev & -> & _)].
    + intros (t & Ht & ->)%IH. exists t. split; [|done].
      apply elem_of_app. by left.
    + rewrite lookup_insert. case_decide as Hd.
      * intros [= <-]. exists now_ms. split; [|done].
        apply elem_of_app. right. simpl. rewrite Hev. simpl. apply list_elem_of_here.
      * intros (t & Ht & ->)%IH. exists t. split; [|done].
        apply elem_of_app. by left.
Qed.

(** X14. In every reachable world each entry of [TOKENS] has the shape
    [mk_token] gave it: the key is ["demo_"], a clock reading at which the
    schedule called a handler that issues tokens, ["_"], and the sanitized
    form of the very email the entry holds.  A token can therefore only
    ever stand for an email with the sanitized form written in it. *)
Theorem tokens_carry_their_email (evs : list Event) (token email : string) :
  TOKENS (stores (run init_world evs).2) !! token = Some email →
  ∃ now_ms, now_ms ∈ issue_times evs ∧
    token = "demo_" +:+ Py.str_of_int now_ms +:+ "_" +:+ Py.replace "@" "_" email.
Proof. apply run_token_origin. Qed.

Lemma tokens_carry_their_email_witness :
  ∃ now_ms,
    now_ms ∈ issue_times [EvLogin 1000 (mkLoginIn "a@b.c" "pw")] ∧
    "demo_1000_a_b.c" =
      "demo_" +:+ Py.str_of_int now_ms +:+ "_" +:+ Py.replace "@" "_" "a@b.c".
Proof.
  apply (tokens_carry_their_email [EvLogin 1000 (mkLoginIn "a@b.c" "pw")]
           "demo_1000_a_b.c" "a@b.c").
  reflexivity.
Defined.

Lemma issue_times_app evs1 evs2 :
  issue_times (evs1 ++ evs2) = issue_times evs1 ++ issue_times evs2.
Proof. unfold issue_times. by rewrite omap_app, fmap_app. Qed.

(** X15. A token is never revoked: an entry of [TOKENS] is still there
    after any further schedule, and it stands for an email with the same
    sanitized form.  If moreover none of the later issuing requests reads a
    clock value that an earlier one read, it stands for the same email. *)
Theorem token_lifetime (evs1 evs2 : list Event) (token email : string) :
  TOKENS (stores (run init_world evs1).2) !! token = Some email →
  ∃ email',
    TOKENS (stores (run init_world (evs1 ++ evs2)).2) !! token = Some email' ∧
    Py.replace "@" "_" email' = Py.replace "@" "_" email ∧
    ((∀ t, t ∈ issue_times evs2 → t ∉ issue_times evs1) → email' = email).
Proof.
  intros Ht. pose proof (run_token_origin _ _ _ Ht) as (t0 & Ht0 & Htok).
  induction evs2 as [|ev evs2 IH] using rev_ind.
  - rewrite app_nil_r. exists email. auto.
  - destruct IH as (e1 & He1 & Hsan & Hsame).
    rewrite app_assoc, run_snoc.
    destruct (effect_tokens _ _ _ (step_effect (run init_world (evs1 ++ evs2)).2 ev))
      as [->|(now_ms & e & Hev & -> & _)].
    + exists e1. split_and!; [done..|].
      intros Hfresh. apply Hsame. intros t Hin. apply Hfresh.
      rewrite issue_times_app. apply elem_of_app. by left.
    + rewrite lookup_insert. case_decide as Hd.
      * exists e. split; [done|].
        rewrite Htok in Hd. apply token_text_eq_iff in Hd as [-> Hd].
        split; [done|]. intros Hfresh. exfalso. apply (Hfresh t0); [|done].
        rewrite issue_times_app. apply elem_of_app. right.
        unfold issue_times. simpl. rewrite Hev. simpl. apply list_elem_of_here.
      * exists e1. split_and!; [done..|].
        intros Hfresh. apply Hsame. intros t Hin. apply Hfresh.
        rewrite issue_times_app. apply elem_of_app. by left.
Qed.

Lemma token_lifetime_witness :
  ∃ email',
    TOKENS (stores (run init_world
      ([EvLogin 1000 (mkLoginIn "a@b.c" "pw")] ++
       [EvRegister 2000 (mkRegisterIn "d@e.f" "pw" "Deniz");
        EvLogin 3000 (mkLoginIn "a@b.c" "pw")])).2) !! "demo_1000_a_b.c"
      = Some email' ∧
    Py.replace "@" "_" email' = Py.replace "@" "_" "a@b.c" ∧
    ((∀ t, t ∈ issue_times [EvRegister 2000 (mkRegisterIn "d@e.f" "pw" "Deniz");
                             EvLogin 3000 (mkLoginIn "a@b.c" "pw")] →
           t ∉ issue_times [EvLogin 1000 (mkLoginIn "a@b.c" "pw")]) →
     email' = "a@b.c").
Proof.
  apply (token_lifetime [EvLogin 1000 (mkLoginIn "a@b.c" "pw")]
           [EvRegister 2000 (mkRegisterIn "d@e.f" "pw" "Deniz");
            EvLogin 3000 (mkLoginIn "a@b.c" "pw")] "demo_1000_a_b.c" "a@b.c").
  reflexivity.
Defined.

(** ** Requests that do not authenticate, coroutines that wake up *)

(** X16. When the header of a request is absent, lacks the ["Bearer "]
    prefix, or carries a token that [TOKENS] does not map to a non-empty
    email, then [/me], [/chat/send] and [/purchase/confirm] all answer
    with the same 401 and leave the world as it was: no coroutine is
    parked, and the plan of the body is not even looked at, so an invalid
    plan gets 401, not 400. *)
Theorem unauthenticated_is_401 (w : World) (authorization : option string) :
  (∀ token c email, authorization = Some ("Bearer " +:+ token) →
     TOKENS (stores w) !! token ≠ Some (String c email)) →
  ∃ detail,
    (detail = "Missing or invalid token" ∨ detail = "Invalid token") ∧
    step w (EvMe authorization) = (Failure (HTTPException 401 detail), w) ∧
    (∀ payload, step w (EvChatStart payload authorization)
       = (Failure (HTTPException 401 detail), w)) ∧
    (∀ data, step w (EvPurchase data authorization)
       = (Failure (HTTPException 401 detail), w)).
Proof.
  intros Hno. destruct w as [st pk]. simpl in *.
  assert (∃ detail,
    (detail = "Missing or invalid token" ∨ detail = "Invalid token") ∧
    get_email_from_token authorization st = (Raise (HTTPException 401 detail), st))
    as (detail & Hd & Hr).
  { rewrite get_email_from_token_spec.
    destruct (bearer_token authorization) as [token|] eqn:Hb; [|eauto].
    apply bearer_token_Some in Hb.
    destruct (TOKENS st !! token) as [[|c email]|] eqn:Ht; [eauto| |eauto].
    by destruct (Hno token c email). }
  exists detail. split; [done|]. unfold lift. simpl.
  rewrite me_eq, Hr. split; [done|]. split.
  - intros payload. by rewrite chat_send_start_eq, Hr.
  - intros data. by rewrite purchase_confirm_eq, Hr.
Qed.

Lemma unauthenticated_is_401_witness :
  let w := (run init_world [EvLogin 1000 (mkLoginIn "a@b.c" "pw")]).2 in
  ∃ detail,
    (detail = "Missing or invalid token" ∨ detail = "Invalid token") ∧
    step w (EvMe (Some "demo_1000_a_b.c")) = (Failure (HTTPException 401 detail), w) ∧
    (∀ payload, step w (EvChatStart payload (Some "demo_1000_a_b.c"))
       = (Failure (HTTPException 401 detail), w)) ∧
    (∀ data, step w (EvPurchase data (Some "demo_1000_a_b.c"))
       = (Failure (HTTPException 401 detail), w)).
Proof.
  intros w. apply (unauthenticated_is_401 w (Some "demo_1000_a_b.c")).
  intros token c email Ha. discriminate Ha.
Defined.

(** X17. In every reachable world a parked [chat_send] is answered when
    it is resumed, whatever was handled while it slept: the answer has
    sender ["assistant"], the reply built from the persona fixed before
    the [await], and the plan the caller's record holds at the moment of
    resuming; the coroutine leaves the parking list and the stores are
    not written. *)
Theorem parked_chat_is_answered (evs : list Event) (i : nat) (fr : ChatFrame) :
  let w := (run init_world evs).2 in
  parked w !! i = Some fr →
  ∃ u,
    dict_get (USERS (stores w)) (frame_email fr) = Some u ∧
    step w (EvChatResume i) =
      (Response (ChatBody "assistant"
                   (Py.capitalize (frame_persona fr)
                    +:+ " modu: Mesajını aldım — kısa demo yanıt.")
                   (user_plan u)),
       mkWorld (stores w) (delete i (parked w))).
Proof.
  intros w Hi. destruct (run_known evs) as [_ Hpk]. fold w in Hpk.
  destruct (Hpk fr) as [u Hu]; [by eapply list_elem_of_lookup_2|].
  exists u. split; [done|]. simpl. rewrite Hi, chat_send_resume_eq, Hu. done.
Qed.

Lemma parked_chat_is_answered_witness :
  let authorization := Some "Bearer demo_1000_a_b.c" in
  let w := (run init_world
              [EvLogin 1000 (mkLoginIn "a@b.c" "pw");
               EvChatStart (mkChatIn "selam" (Some "KANKA")) authorization;
               EvPurchase (mkPurchaseIn "pro") authorization]).2 in
  ∃ u,
    dict_get (USERS (stores w)) "a@b.c" = Some u ∧
    step w (EvChatResume 0) =
      (Response (ChatBody "assistant"
                   "Kanka modu: Mesajını aldım — kısa demo yanıt." (user_plan u)),
       mkWorld (stores w) []).
Proof.
  intros authorization w.
  apply (parked_chat_is_answered
           [EvLogin 1000 (mkLoginIn "a@b.c" "pw");
            EvChatStart (mkChatIn "selam" (Some "KANKA")) authorization;
            EvPurchase (mkPurchaseIn "pro") authorization]
           0 (mkChatFrame "a@b.c" "kanka")).
  reflexivity.
Defined.
